(** * SunNEI: atomic data and charge-state initialisation

    A shallow embedding of [sunnei/core/data_management.py]: the element
    registry [AtomicNumbers], the loader [read_atomic_data], the initialiser
    [create_ChargeStates_dictionary], [ReformatChargeStateList] and the
    single-element lookup [EquilChargeStates].

    Conventions.
    - A Python [float] / NumPy [float64] is a binary64 value: Rocq's primitive
      [float], whose operations are the IEEE-754 ones the interpreter uses.
    - NumPy arrays are objects: a two-dimensional buffer lives in a heap, and
      a one-dimensional array is a row of such a buffer.  Basic indexing
      [a[i, :]] yields a view, that is a handle on the same buffer.
    - Exceptions and the mutable world (heap, files opened) are threaded by a
      small state-and-exception monad.  A raised exception keeps the writes
      done before it. *)

From Stdlib Require Import ZArith Floats Ascii String.
From stdpp Require Import base option list gmap strings.

#[local] Set Warnings "-inexact-float".
#[local] Open Scope Z_scope.
#[local] Open Scope nat_scope.

(** ** Python exceptions raised by the module or by the libraries it calls *)

Inductive exn : Type :=
| KeyError (key : string)
| IndexError
| ValueError
| EOFError
| AssertionError (msg : string)
| FileNotFoundError (filename : string).

Inductive outcome (A : Type) : Type :=
| Returns (a : A)
| Raises (e : exn).
Arguments Returns {A} a.
Arguments Raises {A} e.

(** ** The world: files on disk, the log of files opened, the array heap *)

(** A record of a Fortran unformatted sequential file, by its decoded
    content.  [read_ints] expects an integer record and [read_reals] a real
    one. *)
Inductive record : Type :=
| IntRecord (ints : list Z)
| RealRecord (reals : list float).

Abbreviation ndarray2 := (list (list float)) (only parsing).
Abbreviation loc := nat (only parsing).

Record world : Type := World {
  files : gmap string (list record);
  opened : list string;
  heap : list ndarray2
}.

Definition set_heap (h : list ndarray2) (w : world) : world :=
  World (files w) (opened w) h.
Definition log_open (filename : string) (w : world) : world :=
  World (files w) (opened w ++ [filename]) (heap w).

(** ** The monad *)

Definition M (A : Type) : Type := world -> outcome A * world.

Definition ret {A} (a : A) : M A := fun w => (Returns a, w).
Definition raise {A} (e : exn) : M A := fun w => (Raises e, w).
Definition bind {A B} (m : M A) (k : A -> M B) : M B :=
  fun w => match m w with
           | (Returns a, w') => k a w'
           | (Raises e, w') => (Raises e, w')
           end.

Notation "'let*' x := m 'in' k" := (bind m (fun x => k))
  (at level 10, x pattern, m at level 100, k at level 200).
Notation "m ;;; k" := (bind m (fun _ => k))
  (at level 100, right associativity).

(** [for x in xs: s = body x s], the loop variables being [s]. *)
Fixpoint for_each {A S : Type} (xs : list A) (body : A -> S -> M S) (s : S)
  : M S :=
  match xs with
  | [] => ret s
  | x :: xs' => let* s' := body x s in for_each xs' body s'
  end.

Definition assert (b : bool) (msg : string) : M unit :=
  if b then ret tt else raise (AssertionError msg).

Definition of_option {A} (o : option A) (e : exn) : M A :=
  match o with Some a => ret a | None => raise e end.

(** [d[key]] on a dict or a pandas Series with string labels. *)
Definition getitem {V} (d : gmap string V) (key : string) : M V :=
  of_option (d !! key) (KeyError key).

(** ** NumPy *)

Module np.

(** A one-dimensional array: row [row] of the buffer at [base]. *)
Record ndarray : Type := RowView { base : loc; row : nat }.

Definition alloc (a : ndarray2) : M loc :=
  fun w => (Returns (length (heap w)), set_heap (heap w ++ [a]) w).

(** [np.zeros(n)]: a fresh array, n zeros. *)
Definition zeros (n : nat) : M ndarray :=
  let* l := alloc [replicate n 0%float] in ret (RowView l 0).

Definition buffer_row (h : list ndarray2) (a : ndarray) : option (list float) :=
  h !! base a ≫= fun rows => rows !! row a.

Definition data (a : ndarray) : M (list float) :=
  fun w => of_option (buffer_row (heap w) a) IndexError w.

(** [a.size] *)
Definition size (a : ndarray) : M nat :=
  let* v := data a in ret (length v).

(** [a[i]] for [i] drawn from [range(a.size)]. *)
Definition get (a : ndarray) (i : nat) : M float :=
  let* v := data a in of_option (v !! i) IndexError.

Definition update_row (f : list float -> list float) (a : ndarray)
    (h : list ndarray2) : list ndarray2 :=
  alter (alter f (row a)) (base a) h.

Definition write (h : list ndarray2) (a : ndarray) (i : nat) (x : float)
  : list ndarray2 :=
  update_row (<[i := x]>) a h.

(** [a[i] = x]: in place, through the buffer. *)
Definition set (a : ndarray) (i : nat) (x : float) : M unit :=
  let* v := data a in
  if decide (i < length v)
  then fun w => (Returns tt, set_heap (write (heap w) a i x) w)
  else raise IndexError.

(** An integer index [i] into an axis of length [n]: negative indices
    count from the end. *)
Definition norm_index (n : nat) (i : Z) : option nat :=
  if decide (0 <= i < Z.of_nat n)%Z then Some (Z.to_nat i)
  else if decide (- Z.of_nat n <= i < 0)%Z then Some (Z.to_nat (Z.of_nat n + i))
  else None.

(** [t[i, :]] on the two-dimensional array at [l]: a view, no copy. *)
Definition row_view (l : loc) (i : Z) : M ndarray :=
  fun w =>
    match heap w !! l with
    | Some rows =>
        match norm_index (length rows) i with
        | Some r => (Returns (RowView l r), w)
        | None => (Raises IndexError, w)
        end
    | None => (Raises IndexError, w)
    end.

(** [a[key]] with a string [key] on an array: never a valid index. *)
Definition get_str (a : ndarray) (key : string) : M ndarray :=
  raise IndexError.

(** [np.sum(a)] on a float64 array is NumPy's pairwise summation, and the
    order in which the entries are added depends on their number [n].

    - [n < 8]: the entries are added one by one, in index order.
    - [8 <= n <= 128]: eight accumulators [r[0..7]] start as the first
      eight entries; every further full block of eight adds its [j]-th
      entry to [r[j]]; the accumulators are then added as
      [((r0+r1)+(r2+r3)) + ((r4+r5)+(r6+r7))], and the entries left over
      after the last full block are added to that, in index order.
    - [n > 128]: the array is cut at [n/2] rounded down to a multiple of
      eight, and the sums of the two parts are added.

    The running sums start from [-0.0], so that a sum of negative zeros is
    a negative zero; the sum of an empty array is [0.0]. *)
Definition neg_zero : float := (- 0)%float.

(** The eight accumulators. *)
Definition acc8 : Type :=
  float * float * float * float * float * float * float * float.

(** The loop over the full blocks of eight: the accumulators and the
    entries left over. *)
Fixpoint unrolled (r : acc8) (v : list float) : acc8 * list float :=
  match v with
  | a0 :: a1 :: a2 :: a3 :: a4 :: a5 :: a6 :: a7 :: v' =>
      let '(r0, r1, r2, r3, r4, r5, r6, r7) := r in
      unrolled (r0 + a0, r1 + a1, r2 + a2, r3 + a3,
                r4 + a4, r5 + a5, r6 + a6, r7 + a7)%float v'
  | _ => (r, v)
  end.

(** The sum of at most 128 entries. *)
Definition block_sum (v : list float) : float :=
  match v with
  | a0 :: a1 :: a2 :: a3 :: a4 :: a5 :: a6 :: a7 :: v' =>
      let '((r0, r1, r2, r3, r4, r5, r6, r7), rest) :=
        unrolled (a0, a1, a2, a3, a4, a5, a6, a7) v' in
      foldl PrimFloat.add
        (((r0 + r1) + (r2 + r3)) + ((r4 + r5) + (r6 + r7)))%float rest
  | _ => foldl PrimFloat.add neg_zero v
  end.

(** The recursion is on the number of entries, which each cut makes
    smaller; [fuel] bounds its depth, and any [fuel] of at least the number
    of entries gives the same sum ([pairwise_sum_fuel] below). *)
Fixpoint pairwise_sum (fuel : nat) (v : list float) : float :=
  match fuel with
  | S fuel' =>
      if decide (length v <= 128) then block_sum v
      else
        let n2 := length v / 2 - (length v / 2) mod 8 in
        (pairwise_sum fuel' (take n2 v) + pairwise_sum fuel' (drop n2 v))%float
  | 0 => block_sum v
  end.

Definition sum_list (v : list float) : float :=
  match v with
  | [] => 0%float
  | _ :: _ => (neg_zero + pairwise_sum (length v) v)%float
  end.
Definition sum (a : ndarray) : M float :=
  let* v := data a in ret (sum_list v).

(** [a.reshape((n0, n1))] of a flat array, row-major.  One dimension may be
    [-1] and is then inferred; here only the first one can be, the second
    is a positive state count. *)
Fixpoint chunks {A} (rows width : nat) (v : list A) : list (list A) :=
  match rows with
  | 0 => []
  | S r => take width v :: chunks r width (drop width v)
  end.

Definition infer_dim (n0 : Z) (inner : nat) (len : nat) : option nat :=
  if decide (n0 = -1)%Z then
    if decide (inner ≠ 0 ∧ len `mod` inner = 0) then Some (len `div` inner)
    else None
  else if decide (0 <= n0)%Z then
    if decide (Z.to_nat n0 * inner = len) then Some (Z.to_nat n0) else None
  else None.

Definition reshape2 (v : list float) (n0 : Z) (n1 : nat) : M ndarray2 :=
  match infer_dim n0 n1 (length v) with
  | Some rows => ret (chunks rows n1 v)
  | None => raise ValueError
  end.

Definition reshape3 (v : list float) (n0 : Z) (n1 n2 : nat)
  : M (list ndarray2) :=
  match infer_dim n0 (n1 * n2) (length v) with
  | Some rows => ret (chunks n1 n2 <$> chunks rows (n1 * n2) v)
  | None => raise ValueError
  end.

(** [np.isclose] and [np.allclose] with the default tolerances. *)
Definition rtol : float := 1e-5%float.
Definition atol : float := 1e-8%float.

Definition isclose (x y : float) : bool :=
  (PrimFloat.leb (PrimFloat.abs (x - y)) (atol + rtol * PrimFloat.abs y)
     && PrimFloat.is_finite y)
  || PrimFloat.eqb x y.

Fixpoint all_isclose (a b : list float) : bool :=
  match a, b with
  | x :: a', y :: b' => isclose x y && all_isclose a' b'
  | _, _ => true
  end.

(** Shapes [(n,)] and [(m,)] broadcast when equal or when one of them is 1. *)
Definition allclose (a b : list float) : M bool :=
  if decide (length a = length b) then ret (all_isclose a b)
  else match a, b with
       | [x], _ => ret (forallb (isclose x) b)
       | _, [y] => ret (forallb (fun x => isclose x y) a)
       | _, _ => raise ValueError
       end.

End np.

(** ** scipy.io.FortranFile *)

Module FortranFile.

(** [FortranFile(filename, 'r')]: the records still to be read. *)
Definition open (filename : string) : M (list record) :=
  fun w =>
    let w' := log_open filename w in
    match files w !! filename with
    | Some f => (Returns f, w')
    | None => (Raises (FileNotFoundError filename), w')
    end.

Definition read_ints (H : list record) : M (list Z * list record) :=
  match H with
  | [] => raise EOFError
  | IntRecord r :: H' => ret (r, H')
  | RealRecord _ :: _ => raise ValueError
  end.

Definition read_reals (H : list record) : M (list float * list record) :=
  match H with
  | [] => raise EOFError
  | RealRecord r :: H' => ret (r, H')
  | IntRecord _ :: _ => raise ValueError
  end.

End FortranFile.

(** ** The element registry *)

Definition element_symbols : list string :=
  ["H"; "He";
   "Li"; "Be"; "B"; "C"; "N"; "O"; "F"; "Ne";
   "Na"; "Mg"; "Al"; "Si"; "P"; "S"; "Cl"; "Ar";
   "K"; "Ca"; "Sc"; "Ti"; "V"; "Cr"; "Mn"; "Fe"; "Co"; "Ni"]%string.

Definition AtomicNumbers : gmap string nat :=
  list_to_map (zip element_symbols (seq 1 28)).

(** ** Strings: [str.lower] on ASCII symbols *)

Definition lower_ascii (c : ascii) : ascii :=
  let n := nat_of_ascii c in
  if (65 <=? n) && (n <=? 90) then ascii_of_nat (n + 32) else c.

Fixpoint lower (s : string) : string :=
  match s with
  | EmptyString => EmptyString
  | String c s' => String (lower_ascii c) (lower s')
  end.

(** ** The atomic data dictionary *)

(** [atomic_data[element]]: the per-element dictionary.  The equilibrium
    table is held by reference, since the initialiser takes views of it; the
    other arrays are only stored. *)
Record element_data : Type := ElementData {
  element : string;
  AtomicNumber : nat;
  nstates : nat;
  equistate : loc;
  eigenvalues : ndarray2;
  eigenvector : list ndarray2;
  eigenvector_inv : list ndarray2;
  ionization_rate : ndarray2;
  recombination_rate : ndarray2
}.

(** The top-level dictionary: the keys ['nte'], ['nelems'], ['temperatures']
    (absent from an empty dictionary) and one key per element. *)
Record atomic_data : Type := AtomicData {
  nte : option Z;
  nelems : option Z;
  temperatures : option (list float);
  tables : gmap string element_data
}.

Definition empty_atomic_data : atomic_data := AtomicData None None None ∅.

Definition set_table (e : string) (t : element_data) (d : atomic_data)
  : atomic_data :=
  AtomicData (nte d) (nelems d) (temperatures d) (<[e := t]> (tables d)).

(** ** read_atomic_data *)

(** [nte, nelems = H.read_ints(np.int32)]: exactly two values unpack. *)
Definition unpack2 (ints : list Z) : M (Z * Z) :=
  match ints with
  | [a; b] => ret (a, b)
  | _ => raise ValueError
  end.

Definition default_data_directory : string := "sunnei/AtomicData".

Definition eigen_filename (data_directory element : string) : string :=
  data_directory +:+ "/" +:+ lower element +:+ "eigen.dat".

(** What one pass of the loop reads from the element's file. *)
Record element_file : Type := ElementFile {
  f_nte : Z;
  f_nelems : Z;
  f_temperatures : list float;
  f_equistate : ndarray2;
  f_eigenvalues : ndarray2;
  f_eigenvector : list ndarray2;
  f_eigenvector_inv : list ndarray2;
  f_c_rate : ndarray2;
  f_r_rate : ndarray2
}.

Definition parse_element_file (H : list record) (nstates : nat)
  : M element_file :=
  let* (ints, H) := FortranFile.read_ints H in
  let* (nte, nelems) := unpack2 ints in
  let* (temperatures, H) := FortranFile.read_reals H in
  let* (v, H) := FortranFile.read_reals H in
  let* equistate := np.reshape2 v nte nstates in
  let* (v, H) := FortranFile.read_reals H in
  let* eigenvalues := np.reshape2 v nte nstates in
  let* (v, H) := FortranFile.read_reals H in
  let* eigenvector := np.reshape3 v nte nstates nstates in
  let* (v, H) := FortranFile.read_reals H in
  let* eigenvector_inv := np.reshape3 v nte nstates nstates in
  let* (v, H) := FortranFile.read_reals H in
  let* c_rate := np.reshape2 v nte nstates in
  let* (v, H) := FortranFile.read_reals H in
  let* r_rate := np.reshape2 v nte nstates in
  ret (ElementFile nte nelems temperatures equistate eigenvalues
         eigenvector eigenvector_inv c_rate r_rate).

Definition read_element_file (filename : string) (nstates : nat)
  : M element_file :=
  let* H := FortranFile.open filename in
  parse_element_file H nstates.

Definition msg_nte (element : string) : string :=
  "Atomic data files have different number of temperature levels: " +:+ element.
Definition msg_nelems (element : string) : string :=
  "Atomic data files have different number of elements: " +:+ element.
Definition msg_temperatures : string :=
  "Atomic data files have different temperature bins".

(** The first element's values are adopted; every later element is checked
    against them. *)
Definition adopt_or_check (element : string) (f : element_file)
    (st : atomic_data * bool) : M (atomic_data * bool) :=
  let '(atomic_data, first_element_in_loop) := st in
  if first_element_in_loop then
    ret (AtomicData (Some (f_nte f)) (Some (f_nelems f))
           (Some (f_temperatures f)) (tables atomic_data), false)
  else
    let* nte0 := of_option (nte atomic_data) (KeyError "nte") in
    assert (f_nte f =? nte0)%Z (msg_nte element) ;;;
    let* nelems0 := of_option (nelems atomic_data) (KeyError "nelems") in
    assert (f_nelems f =? nelems0)%Z (msg_nelems element) ;;;
    let* temperatures0 := of_option (temperatures atomic_data) (KeyError "temperatures") in
    let* close := np.allclose temperatures0 (f_temperatures f) in
    assert close msg_temperatures ;;;
    ret (atomic_data, first_element_in_loop).

Definition read_atomic_data_body (data_directory : string) (element : string)
    (st : atomic_data * bool) : M (atomic_data * bool) :=
  let* AtomicNumber := getitem AtomicNumbers element in
  let nstates := AtomicNumber + 1 in
  let filename := eigen_filename data_directory element in
  let* f := read_element_file filename nstates in
  let* (atomic_data, first_element_in_loop) := adopt_or_check element f st in
  let* equistate := np.alloc (f_equistate f) in
  ret (set_table element
         (ElementData element AtomicNumber nstates equistate
            (f_eigenvalues f) (f_eigenvector f) (f_eigenvector_inv f)
            (f_c_rate f) (f_r_rate f))
         atomic_data,
       first_element_in_loop).

(** [read_atomic_data(elements, data_directory)], with [screen_output] left
    at its default: nothing is printed. *)
Definition read_atomic_data_in (data_directory : string)
    (elements : list string) : M atomic_data :=
  let* (atomic_data, _) :=
    for_each elements (read_atomic_data_body data_directory)
      (empty_atomic_data, true) in
  ret atomic_data.

Definition read_atomic_data (elements : list string) : M atomic_data :=
  read_atomic_data_in default_data_directory elements.

(** ** create_ChargeStates_dictionary *)

Section ChargeStates.

(** Modelled from the spec: [func_index_te] of [time_advance], which this
    module imports and which maps a temperature and the temperature grid to
    an integer index of the grid.  It is taken as a parameter. *)
Variable func_index_te : float -> list float -> Z.

(** [ChargeStates[element] = np.zeros(AtomicNumbers[element]+1)], then
    [ChargeStates[element][0] = 1]. *)
Definition neutral_body (element : string)
    (ChargeStates : gmap string np.ndarray) : M (gmap string np.ndarray) :=
  let* AtomicNumber := getitem AtomicNumbers element in
  let* a := np.zeros (AtomicNumber + 1) in
  let ChargeStates := <[element := a]> ChargeStates in
  let* a := getitem ChargeStates element in
  np.set a 0 1%float ;;;
  ret ChargeStates.

(** The body of the loop over [istate]: every occurrence of
    [ChargeStates[element][istate]] is a read through the dictionary. *)
Definition cleanup_body (ChargeStates : gmap string np.ndarray)
    (element : string) (istate : nat) (_ : unit) : M unit :=
  let* a := getitem ChargeStates element in
  let* x := np.get a istate in
  if (x <? 1e-14)%float then
    let* a := getitem ChargeStates element in
    np.set a istate 0%float
  else
    let* a := getitem ChargeStates element in
    let* x := np.get a istate in
    if (1 <? x)%float then
      let* a := getitem ChargeStates element in
      let* x := np.get a istate in
      if (x <? 1 + 9e-10)%float then
        let* a := getitem ChargeStates element in
        np.set a istate 1%float
      else ret tt
    else ret tt.

Definition equilibrium_body (AtomicData : atomic_data) (TemperatureIndex : Z)
    (element : string) (ChargeStates : gmap string np.ndarray)
  : M (gmap string np.ndarray) :=
  let* AtomicNumber := getitem AtomicNumbers element in
  let* t := getitem (tables AtomicData) element in
  let* a := np.row_view (equistate t) TemperatureIndex in
  let ChargeStates := <[element := a]> ChargeStates in
  let* a := getitem ChargeStates element in
  let* n := np.size a in
  for_each (seq 0 n) (cleanup_body ChargeStates element) tt ;;;
  ret ChargeStates.

Definition tol : float := 1e-9%float.

Definition msg_sum (element : string) : string :=
  "Initial charge states do not sum to one for " +:+ element.

Definition sum_in_tolerance (val : float) : bool :=
  (1 - tol <? val)%float && (val <? 1 + tol)%float.

Definition check_body (ChargeStates : gmap string np.ndarray)
    (element : string) (_ : unit) : M unit :=
  let* a := getitem ChargeStates element in
  let* val := np.sum a in
  assert (sum_in_tolerance val) (msg_sum element).

(** The three blocks of the function body: the neutral distributions, the
    equilibrium ones when a temperature is given, the test of the sums. *)
Definition neutral_block (elements : list string)
  : M (gmap string np.ndarray) :=
  for_each elements neutral_body ∅.

(** [temperature] is a number, the default [0] being [0.0];
    [AtomicData=None] is [None], a dictionary passed by the caller is
    [Some]. *)
Definition equilibrium_block (elements : list string) (temperature : float)
    (AtomicData : option atomic_data) (ChargeStates : gmap string np.ndarray)
  : M (gmap string np.ndarray) :=
  if (0 <? temperature)%float then
    let* AtomicData :=
      match AtomicData with
      | None => read_atomic_data elements
      | Some d => ret d
      end in
    let* grid := of_option (temperatures AtomicData) (KeyError "temperatures") in
    let TemperatureIndex := func_index_te temperature grid in
    for_each elements (equilibrium_body AtomicData TemperatureIndex)
      ChargeStates
  else ret ChargeStates.

Definition check_block (elements : list string)
    (ChargeStates : gmap string np.ndarray) : M unit :=
  for_each elements (check_body ChargeStates) tt.

Definition create_ChargeStates_dictionary (elements : list string)
    (temperature : float) (AtomicData : option atomic_data)
  : M (gmap string np.ndarray) :=
  let* ChargeStates := neutral_block elements in
  let* ChargeStates :=
    equilibrium_block elements temperature AtomicData ChargeStates in
  check_block elements ChargeStates ;;;
  ret ChargeStates.


(** ** EquilChargeStates *)

(** The second test of the [elif] reads [ChargeStates[element][istate]],
    with [ChargeStates] the array itself. *)
Definition EquilChargeStates_body (ChargeStates : np.ndarray)
    (element : string) (istate : nat) (_ : unit) : M unit :=
  let* x := np.get ChargeStates istate in
  if (x <? 1e-14)%float then np.set ChargeStates istate 0%float
  else
    let* x := np.get ChargeStates istate in
    if (1 <? x)%float then
      let* a := np.get_str ChargeStates element in
      let* y := np.get a istate in
      if (y <? 1 + 9e-10)%float then np.set ChargeStates istate 1%float
      else ret tt
    else ret tt.

(** [AtomicData.__class__ != dict] holds of [None], the default. *)
Definition EquilChargeStates (temperature : float) (element : string)
    (AtomicData : option atomic_data) : M np.ndarray :=
  let* AtomicData :=
    match AtomicData with
    | None => read_atomic_data [element]
    | Some d => ret d
    end in
  let* grid := of_option (temperatures AtomicData) (KeyError "temperatures") in
  let TemperatureIndex := func_index_te temperature grid in
  let* t := getitem (tables AtomicData) element in
  let* ChargeStates := np.row_view (equistate t) TemperatureIndex in
  let* n := np.size ChargeStates in
  for_each (seq 0 n) (EquilChargeStates_body ChargeStates element) tt ;;;
  ret ChargeStates.

End ChargeStates.

(** ** ReformatChargeStateList *)

(** The function reads its argument and fills arrays it creates; nothing it
    touches is shared, so arrays are taken by value here. *)

(** [np.zeros([n0, n1])] *)
Definition zeros2 (n0 : Z) (n1 : nat) : M ndarray2 :=
  if decide (0 <= n0)%Z then ret (replicate (Z.to_nat n0) (replicate n1 0%float))
  else raise ValueError.

(** [range(n)] for an integer [n]. *)
Definition range (n : Z) : list nat := seq 0 (Z.to_nat n).

(** [dest[istep, 0:ncharge] = src]: the source is broadcast to the shape
    [(ncharge,)] of the destination slice. *)
Definition broadcast_to (ncharge : nat) (src : list float) : M (list float) :=
  if decide (length src = ncharge) then ret src
  else match src with
       | [x] => ret (replicate ncharge x)
       | _ => raise ValueError
       end.

Definition reformat_step (ChargeStateList : list (gmap string (list float)))
    (element : string) (ncharge : nat) (istep : nat) (dest : ndarray2)
  : M ndarray2 :=
  let* step := of_option (ChargeStateList !! istep) IndexError in
  let* dist := getitem step element in
  let src := take ncharge dist in
  let* r := broadcast_to ncharge src in
  ret (<[istep := r]> dest).

Definition reformat_body (ChargeStateList : list (gmap string (list float)))
    (nsteps : Z) (element : string) (ChargeStates : gmap string ndarray2)
  : M (gmap string ndarray2) :=
  let* AtomicNumber := getitem AtomicNumbers element in
  let ncharge := AtomicNumber + 1 in
  let* dest := zeros2 (nsteps + 1) ncharge in
  let* dest :=
    for_each (range (nsteps + 1))
      (reformat_step ChargeStateList element ncharge) dest in
  ret (<[element := dest]> ChargeStates).

Definition ReformatChargeStateList
    (ChargeStateList : list (gmap string (list float)))
    (elements : list string) (nsteps : Z) : M (gmap string ndarray2) :=
  for_each elements (reformat_body ChargeStateList nsteps) ∅.

(** ** A temperature index resolver *)

(** Modelled from the spec: the resolver [func_index_te] of [time_advance]
    is not part of this module; the spec describes it as returning the index
    of the grid point closest to the temperature.  This instance, the first
    closest point, is used where a concrete resolver is needed. *)
Fixpoint closest_from (te : float) (grid : list float) (i : nat)
    (best : nat) (dbest : float) : nat :=
  match grid with
  | [] => best
  | g :: grid' =>
      let d := PrimFloat.abs (te - g) in
      if (d <? dbest)%float then closest_from te grid' (S i) i d
      else closest_from te grid' (S i) best dbest
  end.

Definition nearest_index (te : float) (grid : list float) : Z :=
  Z.of_nat (closest_from te grid 0 0 PrimFloat.infinity).

(** * Notions used to state the properties *)

(** ** The cleanup rule on one entry *)

(** What the loop over [istate] does to an entry, as a function. *)
Definition cleanup_rule (x : float) : float :=
  if (x <? 1e-14)%float then 0%float
  else if (1 <? x)%float && (x <? 1 + 9e-10)%float then 1%float
  else x.

(** The rule as the specification words it, the interval closed at
    [1.0 + 9e-10]. *)
Definition stated_cleanup_rule (x : float) : float :=
  if (x <? 1e-14)%float then 0%float
  else if (1 <? x)%float && (x <=? 1 + 9e-10)%float then 1%float
  else x.

(** The cleanup loop of [create_ChargeStates_dictionary] on the array
    [ChargeStates[element]] of [n] entries. *)
Definition cleanup_loop (ChargeStates : gmap string np.ndarray)
    (element : string) (n : nat) : M unit :=
  for_each (seq 0 n) (cleanup_body ChargeStates element) tt.

(** The rule applied from entry [k] on. *)
Definition cleaned_from (k : nat) (v : list float) : list float :=
  take k v ++ (cleanup_rule <$> drop k v).

(** An entry the rule leaves alone: not negative, not below [1e-14] unless
    it is [0.0], and not strictly between [1.0] and [1.0 + 9e-10]. *)
Definition cleaned_entry (y : float) : Prop :=
  (y <? 0)%float = false
  /\ ((y <? 1e-14)%float = true -> y = 0%float)
  /\ (1 <? y)%float && (y <? 1 + 9e-10)%float = false.

(** ** Distributions and their sums *)

(** The neutral distribution of an element of atomic number [Z]. *)
Definition neutral (Z : nat) : list float := 1%float :: replicate Z 0%float.

(** The sum of the array [ChargeStates[element]] as the test reads it. *)
Definition sum_of (ChargeStates : gmap string np.ndarray)
    (h : list ndarray2) (element : string) : option float :=
  match ChargeStates !! element with
  | Some a => np.sum_list <$> np.buffer_row h a
  | None => None
  end.

(** Every way of adding up the entries of a list: in any order and with any
    grouping, an empty part counting for [0.0]. *)
Inductive sums_to : list float -> float -> Prop :=
| sums_nil : sums_to [] 0%float
| sums_one (x : float) : sums_to [x] x
| sums_app (u v : list float) (a b : float) :
    sums_to u a -> sums_to v b -> sums_to (u ++ v) (a + b)%float
| sums_perm (u v : list float) (a : float) :
    u ≡ₚ v -> sums_to u a -> sums_to v a.

(** The accumulators as a list. *)
Definition acc_list (r : np.acc8) : list float :=
  let '(r0, r1, r2, r3, r4, r5, r6, r7) := r in
  [r0; r1; r2; r3; r4; r5; r6; r7].

(** The number of entries above [0.0]. *)
Definition positive_entries (l : list float) : nat :=
  length (filter (fun x => (0 <? x)%float = true) l).

(** ** Views of the equilibrium tables *)

#[global] Instance ndarray_eq_dec : EqDecision np.ndarray.
Proof. solve_decision. Defined.

(** The view [AtomicData[element]['equistate'][TemperatureIndex, :]] in the
    heap [h], when the table and the row exist. *)
Definition view_of (h : list ndarray2) (AtomicData : atomic_data)
    (TemperatureIndex : Z) (element : string) : option np.ndarray :=
  match tables AtomicData !! element with
  | Some t =>
      match h !! equistate t with
      | Some rows =>
          match np.norm_index (length rows) TemperatureIndex with
          | Some r => Some (np.RowView (equistate t) r)
          | None => None
          end
      | None => None
      end
  | None => None
  end.

(** [AtomicData[element]['equistate'][r, i]] read from the heap [h]. *)
Definition table_entry (h : list ndarray2) (t : element_data) (r i : nat)
  : option float :=
  match h !! equistate t with
  | Some rows => match rows !! r with Some v => v !! i | None => None end
  | None => None
  end.

(** ** What a computation does to the world *)

(** A computation that opens no file and leaves the files as they are. *)
Definition quiet {A} (m : M A) : Prop :=
  forall w, files (snd (m w)) = files w /\ opened (snd (m w)) = opened w.

(** A computation that opens the file [filename], once, and no other. *)
Definition opens {A} (filename : string) (m : M A) : Prop :=
  forall w, files (snd (m w)) = files w
            /\ opened (snd (m w)) = opened w ++ [filename].

(** A computation that neither reads nor changes the world. *)
Definition stateless {A} (m : M A) : Prop :=
  forall w1 w2, fst (m w1) = fst (m w2) /\ snd (m w1) = w1.

(** ** The loader's checks *)

(** Whether the values read for a later element agree with the adopted
    ones [f0]: the three assertions of the loader. *)
Definition consistent (f0 f : element_file) : bool :=
  (f_nte f =? f_nte f0)%Z && (f_nelems f =? f_nelems f0)%Z
  && np.all_isclose (f_temperatures f0) (f_temperatures f).

(** The message of the first assertion that fails. *)
Definition grid_error (f0 f : element_file) (element : string) : string :=
  if negb (f_nte f =? f_nte f0)%Z then msg_nte element
  else if negb (f_nelems f =? f_nelems f0)%Z then msg_nelems element
  else msg_temperatures.

(** The element is in the registry and its file, in the directory, reads as
    [f], with as many temperatures as its first record announces. *)
Definition loads (data_directory : string) (w : world) (element : string)
    (f : element_file) : Prop :=
  exists Z, AtomicNumbers !! element = Some Z
    /\ fst (read_element_file (eigen_filename data_directory element) (Z + 1) w)
       = Returns f
    /\ Z.of_nat (length (f_temperatures f)) = f_nte f.

(** What the loader reads for [element] from the directory, on the disk of
    [w]. *)
Definition empty_file : element_file := ElementFile 0 0 [] [] [] [] [] [] [].

Definition file_in (data_directory : string) (w : world) (element : string)
  : element_file :=
  match AtomicNumbers !! element with
  | Some Z =>
      match fst (read_element_file (eigen_filename data_directory element)
                   (Z + 1) w) with
      | Returns f => f
      | Raises _ => empty_file
      end
  | None => empty_file
  end.

(** What the loader stores for [element], on the disk [fs]: the symbol,
    its atomic number [Z] from the registry, [Z+1] states, and an equilibrium
    table allocated at or after location [lo] of the heap [h].  The table is
    the third record of the element's file, row by row, with [Z+1] entries
    per row and as many rows as the grid length [n] of the first record
    (when that is not negative); [n] is the grid length kept at top level. *)
Definition stored (data_directory : string) (fs : gmap string (list record))
    (h : list ndarray2) (lo : nat) (nte0 : option Z)
    (e : string) (t : element_data) : Prop :=
  exists (Z : nat) (n m : BinNums.Z) (temps : list float)
         (rows : list (list float)) (rest : list record),
    AtomicNumbers !! e = Some Z
    /\ element t = e /\ AtomicNumber t = Z /\ nstates t = Z + 1
    /\ lo <= equistate t
    /\ h !! equistate t = Some rows
    /\ Forall (fun r => length r = Z + 1) rows
    /\ ((0 <= n)%Z -> length rows = Z.to_nat n)
    /\ nte0 = Some n
    /\ fs !! eigen_filename data_directory e
       = Some (IntRecord [n; m] :: RealRecord temps
               :: RealRecord (concat rows) :: rest).

(** An array of shape [(n, k)], and one of shape [(n, k, k)]: the number
    of rows is stated when [n] is not negative. *)
Definition shape2 (n : Z) (k : nat) (a : ndarray2) : Prop :=
  Forall (fun r => length r = k) a
  /\ ((0 <= n)%Z -> length a = Z.to_nat n).

Definition shape3 (n : Z) (k : nat) (a : list ndarray2) : Prop :=
  Forall (fun m => length m = k /\ Forall (fun r => length r = k) m) a
  /\ ((0 <= n)%Z -> length a = Z.to_nat n).

(** A three-dimensional array, flattened in C order. *)
Definition flat3 (a : list ndarray2) : list float :=
  concat ((fun m : ndarray2 => concat m) <$> a).

(** The other arrays the loader stores for [element], on the disk [fs]:
    the fourth to the eighth record of the element's file, each in the shape
    [(n, nstates)] or [(n, nstates, nstates)], [n] being the grid length kept
    at top level. *)
Definition stored_arrays (data_directory : string)
    (fs : gmap string (list record)) (nte0 : option Z)
    (e : string) (t : element_data) : Prop :=
  exists (n : Z) (r1 r2 r3 : record) (rest : list record),
    nte0 = Some n
    /\ fs !! eigen_filename data_directory e
       = Some (r1 :: r2 :: r3
               :: RealRecord (concat (eigenvalues t))
               :: RealRecord (flat3 (eigenvector t))
               :: RealRecord (flat3 (eigenvector_inv t))
               :: RealRecord (concat (ionization_rate t))
               :: RealRecord (concat (recombination_rate t)) :: rest)
    /\ shape2 n (nstates t) (eigenvalues t)
    /\ shape3 n (nstates t) (eigenvector t)
    /\ shape3 n (nstates t) (eigenvector_inv t)
    /\ shape2 n (nstates t) (ionization_rate t)
    /\ shape2 n (nstates t) (recombination_rate t).

(** ** The row assignment of ReformatChargeStateList *)

(** A distribution that the row assignment accepts for a row of [ncharge]
    entries: long enough, or of one entry. *)
Definition fits (ncharge : nat) (dist : list float) : bool :=
  (ncharge <=? length dist) || (length dist =? 1).

(** The row it then stores: the first [ncharge] entries, or the single
    entry repeated. *)
Definition row_of (ncharge : nat) (dist : list float) : list float :=
  if decide (ncharge <= length dist) then take ncharge dist
  else replicate ncharge (hd 0%float dist).

(** Every step up to [nsteps] is in the list and holds the element. *)
Definition has_steps (ChargeStateList : list (gmap string (list float)))
    (nsteps : Z) (element : string) : Prop :=
  forall istep, istep < Z.to_nat (nsteps + 1) ->
    exists step dist, ChargeStateList !! istep = Some step
                      /\ step !! element = Some dist.


(** The array built for the element: one row per step, each the fitted
    distribution of that step. *)
Definition rows_for (ChargeStateList : list (gmap string (list float)))
    (nsteps : Z) (element : string) (rows : list (list float)) : Prop :=
  exists Z,
    AtomicNumbers !! element = Some Z
    /\ length rows = Z.to_nat (nsteps + 1)
    /\ forall istep step dist,
         istep < Z.to_nat (nsteps + 1) ->
         ChargeStateList !! istep = Some step ->
         step !! element = Some dist ->
         fits (Z + 1) dist = true
         /\ rows !! istep = Some (row_of (Z + 1) dist).

(** ** Sample worlds *)

(** No file on disk, nothing allocated. *)
Definition empty_world : world := World ∅ [] [].

(** The heap holds one array, a hydrogen table of [rows], at location 0. *)
Definition hydrogen_world (rows : list (list float)) : world :=
  World ∅ [] [rows].

(** The dictionary entry for that table, and the dictionary on a
    temperature grid [grid]. *)
Definition hydrogen_table : element_data :=
  ElementData "H" 1 2 0 [] [] [] [] [].

Definition hydrogen_data (grid : list float) : atomic_data :=
  AtomicData (Some (Z.of_nat (length grid))) (Some 1%Z) (Some grid)
    {[ "H"%string := hydrogen_table ]}.

(** A two-row table whose second row has an entry below [1e-14]. *)
Definition roundoff_rows : list (list float) :=
  [[0.5; 0.5]; [0.999999999991; 8.9e-16]]%float.

(** A table whose only row has an entry above [1.0]. *)
Definition above_one_rows : list (list float) :=
  [[1.0000000001; 0]]%float.

(** A table whose row does not sum to one. *)
Definition unnormalised_rows : list (list float) :=
  [[0.5; 0.4]]%float.

(** Two oxygen rows, of nine entries, whose sums lie at the lower bound
    [1 - 1e-9] of the test.  Added in NumPy's order the first is above the
    bound and the second is not; added in index order it is the other way
    round. *)
Definition oxygen_row_in : list float :=
  [0.15961904745942856; 0.10590476179885716; 0.12228571416342858;
   0.03542857139314286; 0.1891428569537143; 0.16380952364571427;
   0.02304761902457143; 0.06342857136514286; 0.137333333196]%float.

Definition oxygen_row_out : list float :=
  [0.00636074510949568; 0.1899136754120854; 0.09836437972898683;
   0.1731031347655611; 0.00045433893639255; 0.10109041334734212;
   0.16401635603771011; 0.05202180821694685; 0.21467514744547933]%float.

(** A dictionary with an oxygen table of one row, at location 0 of the
    heap, on a grid of one temperature. *)
Definition oxygen_table : element_data :=
  ElementData "O" 8 9 0 [] [] [] [] [].

Definition oxygen_data : atomic_data :=
  AtomicData (Some 1%Z) (Some 1%Z) (Some [4%float])
    {[ "O"%string := oxygen_table ]}.

Definition oxygen_world (row : list float) : world := World ∅ [] [[row]].

(** The upper end of the second interval of the rule. *)
Definition upper_end : float := (1 + 9e-10)%float.

(** A well-formed hydrogen file on a grid of two temperatures. *)
Definition hydrogen_file : list record :=
  [IntRecord [2; 1]%Z;
   RealRecord [4; 5]%float;
   RealRecord [0.5; 0.5; 0.999999999991; 8.9e-16]%float;
   RealRecord [1; 2; 3; 4]%float;
   RealRecord [1; 2; 3; 4; 5; 6; 7; 8]%float;
   RealRecord [1; 2; 3; 4; 5; 6; 7; 8]%float;
   RealRecord [1; 2; 3; 4]%float;
   RealRecord [1; 2; 3; 4]%float].

(** A well-formed helium file on the grid [grid] of two temperatures, with
    [nelems] in its first record. *)
Definition helium_file (grid : list float) (nelems : Z) : list record :=
  [IntRecord [2; nelems]%Z;
   RealRecord grid;
   RealRecord (replicate 6 0.5%float);
   RealRecord (replicate 6 1%float);
   RealRecord (replicate 18 1%float);
   RealRecord (replicate 18 1%float);
   RealRecord (replicate 6 1%float);
   RealRecord (replicate 6 1%float)].

(** A disk with the hydrogen file and a helium file in the directory
    [data]. *)
Definition two_files (helium : list record) : world :=
  World {[ "data/heigen.dat"%string := hydrogen_file;
           "data/heeigen.dat"%string := helium ]} [] [].

(** A disk that holds the hydrogen file in the default directory. *)
Definition disk_world : world :=
  World {[ "sunnei/AtomicData/heigen.dat"%string := hydrogen_file ]} [] [].

(** * Properties *)

(** ** Basic facts on the monad and the heap *)

Lemma set_heap_id (w : world) : set_heap (heap w) w = w.
Proof. by destruct w. Qed.

Lemma set_heap_set_heap (h1 h2 : list ndarray2) (w : world) :
  set_heap h2 (set_heap h1 w) = set_heap h2 w.
Proof. done. Qed.

Lemma buffer_row_update (f : list float -> list float) (a b : np.ndarray)
    (h : list ndarray2) :
  np.buffer_row (np.update_row f a h) b
  = if decide (b = a) then f <$> np.buffer_row h b else np.buffer_row h b.
Proof.
  destruct a as [l r], b as [l' r'].
  unfold np.buffer_row, np.update_row; simpl.
  destruct (decide (l' = l)) as [->|Hl].
  - rewrite list_lookup_alter_eq.
    destruct (h !! l) as [rows|]; simpl.
    + destruct (decide (r' = r)) as [->|Hr].
      * rewrite list_lookup_alter_eq. by rewrite decide_True.
      * rewrite list_lookup_alter_ne by done.
        rewrite decide_False; [done | congruence].
    + by destruct (decide _).
  - rewrite list_lookup_alter_ne by done.
    rewrite decide_False; [done | congruence].
Qed.

(** Only the value of [f] on the row that is there matters. *)
Lemma update_row_ext (f g : list float -> list float) (a : np.ndarray)
    (h : list ndarray2) (v : list float) :
  np.buffer_row h a = Some v -> f v = g v ->
  np.update_row f a h = np.update_row g a h.
Proof.
  unfold np.buffer_row, np.update_row. intros Hv Hfg.
  apply list_alter_ext; [|done]. intros rows Hrows.
  rewrite Hrows in Hv; simpl in Hv.
  apply list_alter_ext; [|done]. intros v' Hv'. congruence.
Qed.

Lemma update_row_id (f : list float -> list float) (a : np.ndarray)
    (h : list ndarray2) (v : list float) :
  np.buffer_row h a = Some v -> f v = v -> np.update_row f a h = h.
Proof.
  intros Hv Hf.
  rewrite (update_row_ext f id a h v) by done.
  unfold np.update_row. apply list_alter_id. intros rows.
  by apply list_alter_id.
Qed.

Lemma update_row_compose (f g : list float -> list float) (a : np.ndarray)
    (h : list ndarray2) :
  np.update_row g a (np.update_row f a h) = np.update_row (g ∘ f) a h.
Proof.
  unfold np.update_row.
  rewrite list_alter_alter_eq. apply list_alter_ext; [|done].
  intros rows _. simpl. by rewrite list_alter_alter_eq.
Qed.

Lemma bind_Returns {A B} (m : M A) (k : A -> M B) (w w' : world) (a : A) :
  m w = (Returns a, w') -> bind m k w = k a w'.
Proof. unfold bind. by intros ->. Qed.

Lemma bind_ret {A B} (a : A) (k : A -> M B) (w : world) :
  bind (ret a) k w = k a w.
Proof. done. Qed.

Lemma bind_Raises {A B} (m : M A) (k : A -> M B) (w w' : world) (e : exn) :
  m w = (Raises e, w') -> bind m k w = (Raises e, w').
Proof. unfold bind. by intros ->. Qed.

Lemma bind_inv_Returns {A B} (m : M A) (k : A -> M B) (w w' : world) (b : B) :
  bind m k w = (Returns b, w') ->
  exists a w1, m w = (Returns a, w1) /\ k a w1 = (Returns b, w').
Proof.
  unfold bind. destruct (m w) as [[a|e] w1]; [eauto | done].
Qed.

(** A loop over two lists in a row. *)
Lemma for_each_app {A S} (xs ys : list A) (body : A -> S -> M S) (s : S)
    (w : world) :
  for_each (xs ++ ys) body s w
  = (let* s' := for_each xs body s in for_each ys body s') w.
Proof.
  revert s w. induction xs as [|x xs IH]; intros s w; simpl; [reflexivity|].
  change ((let* s' := body x s in for_each (xs ++ ys) body s') w
          = (let* s' := (let* s1 := body x s in for_each xs body s1) in
             for_each ys body s') w).
  unfold bind.
  destruct (body x s w) as [[s1|e] w1]; [|reflexivity].
  apply IH.
Qed.

Lemma getitem_Some {V} (d : gmap string V) (key : string) (v : V) (w : world) :
  d !! key = Some v -> getitem d key w = (Returns v, w).
Proof. unfold getitem. by intros ->. Qed.

Lemma getitem_None {V} (d : gmap string V) (key : string) (w : world) :
  d !! key = None -> getitem d key w = (Raises (KeyError key), w).
Proof. unfold getitem. by intros ->. Qed.

Lemma np_data_Some (a : np.ndarray) (v : list float) (w : world) :
  np.buffer_row (heap w) a = Some v -> np.data a w = (Returns v, w).
Proof. unfold np.data. by intros ->. Qed.

Lemma np_get_Some (a : np.ndarray) (v : list float) (i : nat) (x : float)
    (w : world) :
  np.buffer_row (heap w) a = Some v -> v !! i = Some x ->
  np.get a i w = (Returns x, w).
Proof.
  intros Hv Hx. unfold np.get.
  rewrite (bind_Returns _ _ _ _ _ (np_data_Some _ _ _ Hv)). by rewrite Hx.
Qed.

Lemma np_set_Some (a : np.ndarray) (v : list float) (i : nat) (x : float)
    (w : world) :
  np.buffer_row (heap w) a = Some v -> i < length v ->
  np.set a i x w = (Returns tt, set_heap (np.write (heap w) a i x) w).
Proof.
  intros Hv Hi. unfold np.set.
  rewrite (bind_Returns _ _ _ _ _ (np_data_Some _ _ _ Hv)).
  by rewrite decide_True.
Qed.

Lemma np_size_Some (a : np.ndarray) (v : list float) (w : world) :
  np.buffer_row (heap w) a = Some v -> np.size a w = (Returns (length v), w).
Proof.
  intros Hv. unfold np.size.
  by rewrite (bind_Returns _ _ _ _ _ (np_data_Some _ _ _ Hv)).
Qed.

(** A write of the value that is already there changes nothing. *)
Lemma write_same (h : list ndarray2) (a : np.ndarray) (v : list float)
    (i : nat) (x : float) :
  np.buffer_row h a = Some v -> v !! i = Some x -> np.write h a i x = h.
Proof.
  intros Hv Hx. unfold np.write.
  apply (update_row_id _ _ _ v Hv). by apply list_insert_id.
Qed.

(** ** The cleanup loop *)

(** One pass of the loop body rewrites entry [istate] by the rule. *)
Lemma cleanup_body_step (ChargeStates : gmap string np.ndarray)
    (element : string) (a : np.ndarray) (v : list float) (istate : nat)
    (x : float) (w : world) :
  ChargeStates !! element = Some a ->
  np.buffer_row (heap w) a = Some v ->
  v !! istate = Some x ->
  cleanup_body ChargeStates element istate tt w
  = (Returns tt, set_heap (np.write (heap w) a istate (cleanup_rule x)) w).
Proof.
  intros Hcs Hv Hx.
  assert (Hi : istate < length v) by (by eapply lookup_lt_Some).
  assert (Hsame : w = set_heap (np.write (heap w) a istate x) w).
  { rewrite (write_same _ _ _ _ _ Hv Hx). by rewrite set_heap_id. }
  unfold cleanup_body, cleanup_rule.
  rewrite (bind_Returns _ _ _ _ _ (getitem_Some _ _ _ w Hcs)).
  rewrite (bind_Returns _ _ _ _ _ (np_get_Some _ _ _ _ _ Hv Hx)).
  destruct (x <? 1e-14)%float.
  { rewrite (bind_Returns _ _ _ _ _ (getitem_Some _ _ _ w Hcs)).
    by apply (np_set_Some _ v). }
  rewrite (bind_Returns _ _ _ _ _ (getitem_Some _ _ _ w Hcs)).
  rewrite (bind_Returns _ _ _ _ _ (np_get_Some _ _ _ _ _ Hv Hx)).
  destruct (1 <? x)%float; simpl; [|by rewrite <- Hsame].
  rewrite (bind_Returns _ _ _ _ _ (getitem_Some _ _ _ w Hcs)).
  rewrite (bind_Returns _ _ _ _ _ (np_get_Some _ _ _ _ _ Hv Hx)).
  match goal with
  | |- context [(x <? ?c)%float] => destruct (x <? c)%float
  end; simpl; [|by rewrite <- Hsame].
  rewrite (bind_Returns _ _ _ _ _ (getitem_Some _ _ _ w Hcs)).
  by apply (np_set_Some _ v).
Qed.

Lemma cleaned_from_step (k : nat) (v : list float) (x : float) :
  v !! k = Some x ->
  cleaned_from (S k) (<[k := cleanup_rule x]> v) = cleaned_from k v.
Proof.
  intros Hx. unfold cleaned_from.
  assert (Hk : k < length v) by (by eapply lookup_lt_Some).
  rewrite (drop_S v x k Hx), fmap_cons.
  rewrite drop_insert_lt by lia.
  rewrite (take_S_r _ _ (cleanup_rule x)).
  - rewrite take_insert_ge by lia. by rewrite <- app_assoc.
  - by rewrite list_lookup_insert_eq.
Qed.

(** A loop over [istate] whose body rewrites entry [istate] by the rule, as
    long as the entries it meets satisfy [good], maps the rule over the
    rest of the row, in place. *)
Lemma rule_loop_from (body : nat -> unit -> M unit) (a : np.ndarray)
    (good : float -> Prop) (m : nat) :
  (forall k w v x,
     np.buffer_row (heap w) a = Some v -> v !! k = Some x -> good x ->
     body k tt w
     = (Returns tt, set_heap (np.write (heap w) a k (cleanup_rule x)) w)) ->
  forall (k : nat) (w : world) (v : list float),
    np.buffer_row (heap w) a = Some v ->
    k + m = length v ->
    (forall i x, k <= i -> v !! i = Some x -> good x) ->
    for_each (seq k m) body tt w
    = (Returns tt, set_heap (np.update_row (cleaned_from k) a (heap w)) w).
Proof.
  intros Hbody. induction m as [|m IH]; intros k w v Hv Hlen Hgood; simpl.
  - unfold ret. rewrite (update_row_id _ _ _ v Hv), set_heap_id; [done|].
    unfold cleaned_from. rewrite drop_ge by lia.
    rewrite take_ge by lia. by rewrite app_nil_r.
  - destruct (lookup_lt_is_Some_2 v k) as [x Hx]; [lia|].
    rewrite (bind_Returns _ _ _ _ _
               (Hbody k w v x Hv Hx (Hgood k x ltac:(lia) Hx))).
    rewrite (IH (S k) _ (<[k := cleanup_rule x]> v)).
    + simpl. rewrite set_heap_set_heap. unfold np.write.
      rewrite update_row_compose. f_equal. f_equal.
      apply (update_row_ext _ _ _ _ v Hv). simpl.
      by apply cleaned_from_step.
    + simpl. unfold np.write. rewrite buffer_row_update.
      rewrite decide_True by done. by rewrite Hv.
    + rewrite length_insert. lia.
    + intros i y Hi Hy. rewrite list_lookup_insert_ne in Hy by lia.
      apply (Hgood i y); [lia | done].
Qed.

Lemma cleanup_loop_from (ChargeStates : gmap string np.ndarray)
    (element : string) (a : np.ndarray) (m : nat) :
  ChargeStates !! element = Some a ->
  forall (k : nat) (w : world) (v : list float),
    np.buffer_row (heap w) a = Some v ->
    k + m = length v ->
    for_each (seq k m) (cleanup_body ChargeStates element) tt w
    = (Returns tt, set_heap (np.update_row (cleaned_from k) a (heap w)) w).
Proof.
  intros Hcs k w v Hv Hlen.
  apply (rule_loop_from _ a (fun _ => True) m) with (v := v); try done.
  intros k' w' v' x Hv' Hx _. by apply (cleanup_body_step _ _ _ v').
Qed.

Lemma cleaned_from_0 (v : list float) : cleaned_from 0 v = cleanup_rule <$> v.
Proof. unfold cleaned_from. by rewrite take_0, drop_0. Qed.

(** The whole loop maps the rule over the row, in place. *)
Lemma cleanup_loop_spec (ChargeStates : gmap string np.ndarray)
    (element : string) (a : np.ndarray) (v : list float) (w : world) :
  ChargeStates !! element = Some a ->
  np.buffer_row (heap w) a = Some v ->
  cleanup_loop ChargeStates element (length v) w
  = (Returns tt, set_heap (np.update_row (fmap cleanup_rule) a (heap w)) w).
Proof.
  intros Hcs Hv. unfold cleanup_loop.
  rewrite (cleanup_loop_from _ _ _ _ Hcs 0 w v Hv) by done.
  by rewrite (update_row_ext (cleaned_from 0) (fmap cleanup_rule) a (heap w) v
                Hv (cleaned_from_0 v)).
Qed.

Lemma cleanup_rule_fixes_0 : cleanup_rule 0 = 0%float.
Proof. reflexivity. Qed.

Lemma cleanup_rule_fixes_1 : cleanup_rule 1 = 1%float.
Proof. reflexivity. Qed.

Lemma cleanup_rule_idempotent (x : float) :
  cleanup_rule (cleanup_rule x) = cleanup_rule x.
Proof.
  unfold cleanup_rule at 2 3.
  destruct (x <? 1e-14)%float eqn:Hlow; [apply cleanup_rule_fixes_0|].
  destruct ((1 <? x)%float && (x <? 1 + 9e-10)%float) eqn:Hup;
    [apply cleanup_rule_fixes_1|].
  unfold cleanup_rule. by rewrite Hlow, Hup.
Qed.

(** C4, as amended: the loop over [istate] sends every entry below [1e-14]
    to [0.0] and every entry strictly between [1.0] and [1.0 + 9e-10] to
    [1.0]; every other entry, the value [1.0 + 9e-10] included, keeps its
    value.  The first test is tried first.  Nothing else in the world
    changes. *)
Theorem cleanup_loop_entries (ChargeStates : gmap string np.ndarray)
    (element : string) (a : np.ndarray) (v : list float) (w : world) :
  ChargeStates !! element = Some a ->
  np.buffer_row (heap w) a = Some v ->
  exists (w' : world) (v' : list float),
    cleanup_loop ChargeStates element (length v) w = (Returns tt, w')
    /\ files w' = files w /\ opened w' = opened w
    /\ (forall b, b <> a -> np.buffer_row (heap w') b = np.buffer_row (heap w) b)
    /\ np.buffer_row (heap w') a = Some v'
    /\ length v' = length v
    /\ forall (i : nat) (x : float), v !! i = Some x ->
         ((x <? 1e-14)%float = true -> v' !! i = Some 0%float)
         /\ ((x <? 1e-14)%float = false -> (1 <? x)%float = true ->
             (x <? 1 + 9e-10)%float = true -> v' !! i = Some 1%float)
         /\ ((x <? 1e-14)%float = false ->
             (1 <? x)%float = false \/ (x <? 1 + 9e-10)%float = false ->
             v' !! i = Some x).
Proof.
  intros Hcs Hv.
  exists (set_heap (np.update_row (fmap cleanup_rule) a (heap w)) w),
         (cleanup_rule <$> v).
  split; [by apply cleanup_loop_spec|].
  split; [done|]. split; [done|]. simpl. split.
  { intros b Hb. rewrite buffer_row_update. by rewrite decide_False. }
  split.
  { rewrite buffer_row_update, decide_True by done. by rewrite Hv. }
  split; [by rewrite length_fmap|].
  intros i x Hx. rewrite list_lookup_fmap, Hx. simpl.
  unfold cleanup_rule. simpl. repeat split.
  - by intros ->.
  - by intros -> -> ->.
  - intros -> [-> | ->]; [done|]. by rewrite andb_false_r.
Qed.

(** C9: running the cleanup loop a second time leaves the world the first
    run produced: on every row the rule applied twice is the rule applied
    once. *)
Theorem cleanup_loop_idempotent (ChargeStates : gmap string np.ndarray)
    (element : string) (a : np.ndarray) (v : list float) (w : world) :
  ChargeStates !! element = Some a ->
  np.buffer_row (heap w) a = Some v ->
  (cleanup_loop ChargeStates element (length v) ;;;
   cleanup_loop ChargeStates element (length v)) w
  = cleanup_loop ChargeStates element (length v) w
  /\ cleanup_rule <$> (cleanup_rule <$> v) = cleanup_rule <$> v.
Proof.
  intros Hcs Hv.
  assert (Hidem : cleanup_rule <$> (cleanup_rule <$> v) = cleanup_rule <$> v).
  { rewrite <- list_fmap_compose. apply list_fmap_ext.
    intros i x _. apply cleanup_rule_idempotent. }
  split; [|done].
  rewrite (bind_Returns _ _ _ _ _ (cleanup_loop_spec _ _ _ _ _ Hcs Hv)).
  rewrite (cleanup_loop_spec _ _ _ _ _ Hcs Hv).
  assert (Hv1 : np.buffer_row
                  (heap (set_heap (np.update_row (fmap cleanup_rule) a (heap w)) w))
                  a = Some (cleanup_rule <$> v)).
  { simpl. rewrite buffer_row_update, decide_True by done. by rewrite Hv. }
  pose proof (cleanup_loop_spec _ _ _ _ _ Hcs Hv1) as Hrun.
  rewrite length_fmap in Hrun. rewrite Hrun. simpl.
  rewrite set_heap_set_heap, update_row_compose.
  by rewrite (update_row_ext (fmap cleanup_rule ∘ fmap cleanup_rule)
                (fmap cleanup_rule) a (heap w) v Hv Hidem).
Qed.

(** ** Inversion of the primitives *)

Lemma getitem_inv {V} (d : gmap string V) (key : string) (v : V)
    (w w' : world) :
  getitem d key w = (Returns v, w') -> d !! key = Some v /\ w' = w.
Proof.
  unfold getitem, of_option, ret, raise.
  destruct (d !! key); intros [= <- <-]; done.
Qed.

Lemma np_data_inv (a : np.ndarray) (v : list float) (w w' : world) :
  np.data a w = (Returns v, w') -> np.buffer_row (heap w) a = Some v /\ w' = w.
Proof.
  unfold np.data, of_option, ret, raise.
  destruct (np.buffer_row (heap w) a); intros [= <- <-]; done.
Qed.

Lemma np_size_inv (a : np.ndarray) (n : nat) (w w' : world) :
  np.size a w = (Returns n, w') ->
  exists v, np.buffer_row (heap w) a = Some v /\ n = length v /\ w' = w.
Proof.
  unfold np.size. intros H.
  apply bind_inv_Returns in H as (v & w1 & H1 & H2).
  apply np_data_inv in H1 as [Hv ->]. injection H2 as <- <-. eauto.
Qed.

Lemma row_view_inv (l : nat) (i : Z) (a : np.ndarray) (w w' : world) :
  np.row_view l i w = (Returns a, w') ->
  exists rows r, heap w !! l = Some rows
    /\ np.norm_index (length rows) i = Some r
    /\ a = np.RowView l r /\ w' = w.
Proof.
  unfold np.row_view. destruct (heap w !! l) as [rows|] eqn:Hrows; [|done].
  destruct (np.norm_index (length rows) i) as [r|] eqn:Hr; [|done].
  intros [= <- <-]. by exists rows, r.
Qed.

Lemma assert_inv (b : bool) (msg : string) (w w' : world) :
  assert b msg w = (Returns tt, w') -> b = true /\ w' = w.
Proof. unfold assert. destruct b; [|done]. by intros [= <-]. Qed.

(** ** The neutral block *)

Lemma neutral_body_Some (element : string) (Z : nat)
    (ChargeStates : gmap string np.ndarray) (w : world) :
  AtomicNumbers !! element = Some Z ->
  neutral_body element ChargeStates w
  = (Returns (<[element := np.RowView (length (heap w)) 0]> ChargeStates),
     set_heap (heap w ++ [[neutral Z]]) w).
Proof.
  intros HZ. unfold neutral_body.
  rewrite (bind_Returns _ _ _ _ _ (getitem_Some _ _ _ w HZ)).
  unfold np.zeros, np.alloc. unfold bind at 1 2. unfold ret at 1.
  rewrite (bind_Returns _ _ _ _ _ (getitem_Some _ _ _ _ (lookup_insert_eq _ _ _))).
  rewrite Nat.add_1_r.
  erewrite bind_Returns.
  2:{ apply (np_set_Some _ (replicate (S Z) 0%float)); [|simpl; lia].
      unfold np.buffer_row. simpl.
      rewrite lookup_app_r by lia. by rewrite Nat.sub_diag. }
  unfold ret. simpl. unfold set_heap; simpl. do 2 f_equal.
  unfold np.write, np.update_row. simpl.
  pose proof (alter_app_r (alter (<[0:=1%float]>) 0) (heap w)
                [[0%float :: replicate Z 0%float]] 0) as Happ.
  rewrite Nat.add_0_r in Happ. by rewrite Happ.
Qed.

Lemma neutral_body_None (element : string)
    (ChargeStates : gmap string np.ndarray) (w : world) :
  AtomicNumbers !! element = None ->
  neutral_body element ChargeStates w = (Raises (KeyError element), w).
Proof.
  intros HZ. unfold neutral_body.
  by rewrite (bind_Raises _ _ _ _ _ (getitem_None _ _ w HZ)).
Qed.

Lemma buffer_row_app (h extra : list ndarray2) (a : np.ndarray)
    (v : list float) :
  np.buffer_row h a = Some v -> np.buffer_row (h ++ extra) a = Some v.
Proof.
  unfold np.buffer_row. destruct (h !! np.base a) as [rows|] eqn:Hrows; [|done].
  by rewrite (lookup_app_l_Some _ _ _ _ Hrows).
Qed.

(** What a completed neutral loop leaves: no file opened, the heap extended,
    and a neutral array under every element of the list. *)
Lemma neutral_loop_inv (elements : list string) :
  forall (cs0 cs : gmap string np.ndarray) (w w' : world),
    for_each elements neutral_body cs0 w = (Returns cs, w') ->
    files w' = files w /\ opened w' = opened w
    /\ (exists extra, heap w' = heap w ++ extra)
    /\ (forall e, e ∈ elements ->
          exists Z a, AtomicNumbers !! e = Some Z /\ cs !! e = Some a
                      /\ np.buffer_row (heap w') a = Some (neutral Z))
    /\ (forall e, e ∉ elements -> cs !! e = cs0 !! e).
Proof.
  induction elements as [|e es IH]; intros cs0 cs w w' Hrun; simpl in Hrun.
  - injection Hrun as <- <-.
    split; [done|]. split; [done|].
    split; [exists []; by rewrite app_nil_r|]. split; [|done].
    intros e He. by apply elem_of_nil in He.
  - apply bind_inv_Returns in Hrun as (cs1 & w1 & Hbody & Hrest).
    destruct (AtomicNumbers !! e) as [Z|] eqn:HZ;
      [|by rewrite (neutral_body_None _ _ _ HZ) in Hbody].
    rewrite (neutral_body_Some _ _ _ _ HZ) in Hbody.
    injection Hbody as <- <-.
    destruct (IH _ _ _ _ Hrest) as (Hf & Ho & [extra Hh] & Hin & Hout).
    simpl in *. split; [done|]. split; [done|]. split; [|split].
    + exists ([[neutral Z]] ++ extra). by rewrite Hh, <- app_assoc.
    + intros e' He'. destruct (decide (e' ∈ es)) as [Hes|Hes]; [by apply Hin|].
      apply elem_of_cons in He' as [->|He']; [|done].
      exists Z, (np.RowView (length (heap w)) 0). split; [done|].
      split; [by rewrite (Hout _ Hes), lookup_insert_eq|].
      rewrite Hh. apply buffer_row_app. unfold np.buffer_row; simpl.
      rewrite lookup_app_r by lia. by rewrite Nat.sub_diag.
    + intros e' He'. apply not_elem_of_cons in He' as [Hne Hes].
      by rewrite (Hout _ Hes), lookup_insert_ne.
Qed.

(** The neutral loop completes when every element is in the registry. *)
Lemma neutral_loop_total (elements : list string) :
  Forall (fun e => is_Some (AtomicNumbers !! e)) elements ->
  forall (cs0 : gmap string np.ndarray) (w : world),
    exists cs w', for_each elements neutral_body cs0 w = (Returns cs, w').
Proof.
  induction 1 as [|e es [Z HZ] _ IH]; intros cs0 w; simpl.
  - by eexists _, _.
  - rewrite (bind_Returns _ _ _ _ _ (neutral_body_Some _ _ _ _ HZ)).
    apply IH.
Qed.

(** ** The test of the sums *)

Lemma sum_of_Some (ChargeStates : gmap string np.ndarray) (h : list ndarray2)
    (element : string) (val : float) :
  sum_of ChargeStates h element = Some val <->
  exists a v, ChargeStates !! element = Some a
              /\ np.buffer_row h a = Some v /\ val = np.sum_list v.
Proof.
  unfold sum_of. split.
  - destruct (ChargeStates !! element) as [a|] eqn:Ha; [|done].
    destruct (np.buffer_row h a) as [v|] eqn:Hv; [|done].
    intros [= <-]. by exists a, v.
  - intros (a & v & -> & -> & ->). done.
Qed.

Lemma check_body_readable (ChargeStates : gmap string np.ndarray)
    (element : string) (val : float) (w : world) :
  sum_of ChargeStates (heap w) element = Some val ->
  check_body ChargeStates element tt w
  = assert (sum_in_tolerance val) (msg_sum element) w.
Proof.
  intros (a & v & Hcs & Hv & ->)%sum_of_Some. unfold check_body.
  rewrite (bind_Returns _ _ _ _ _ (getitem_Some _ _ _ w Hcs)).
  unfold np.sum.
  by rewrite (bind_Returns _ _ _ _ _
                (bind_Returns _ _ _ _ _ (np_data_Some _ _ _ Hv))).
Qed.

Lemma check_body_inv (ChargeStates : gmap string np.ndarray)
    (element : string) (w w' : world) :
  check_body ChargeStates element tt w = (Returns tt, w') ->
  w' = w /\ exists val, sum_of ChargeStates (heap w) element = Some val
                        /\ sum_in_tolerance val = true.
Proof.
  unfold check_body. intros H.
  apply bind_inv_Returns in H as (a & w1 & [Hcs ->]%getitem_inv & H).
  apply bind_inv_Returns in H as (val & w1 & Hsum & [Htol ->]%assert_inv).
  unfold np.sum in Hsum.
  apply bind_inv_Returns in Hsum as (v & w2 & [Hv ->]%np_data_inv & Hret).
  injection Hret as <- <-. split; [done|]. exists (np.sum_list v).
  split; [|done]. apply sum_of_Some. by exists a, v.
Qed.

Lemma check_block_inv (elements : list string)
    (ChargeStates : gmap string np.ndarray) (w w' : world) :
  check_block elements ChargeStates w = (Returns tt, w') ->
  w' = w /\ forall e, e ∈ elements ->
              exists val, sum_of ChargeStates (heap w) e = Some val
                          /\ sum_in_tolerance val = true.
Proof.
  unfold check_block. revert w.
  induction elements as [|e es IH]; intros w Hrun; simpl in Hrun.
  - injection Hrun as <-. split; [done|]. intros e He.
    by apply elem_of_nil in He.
  - apply bind_inv_Returns in Hrun as ([] & w1 & [-> Hval]%check_body_inv & Hrest).
    destruct (IH _ Hrest) as [-> Hes]. split; [done|].
    intros e' [->|He']%elem_of_cons; [done | by apply Hes].
Qed.

Lemma check_block_ok (elements : list string)
    (ChargeStates : gmap string np.ndarray) (w : world) :
  (forall e, e ∈ elements ->
     exists val, sum_of ChargeStates (heap w) e = Some val
                 /\ sum_in_tolerance val = true) ->
  check_block elements ChargeStates w = (Returns tt, w).
Proof.
  unfold check_block.
  induction elements as [|e es IH]; intros Hall; simpl; [done|].
  destruct (Hall e) as (val & Hval & Htol); [by left|].
  unfold bind. rewrite (check_body_readable _ _ _ _ Hval), Htol. simpl.
  apply IH. intros e' He'. apply Hall. by right.
Qed.

(** When every array can be summed and some sum is out of tolerance, the
    test stops at the first such element and names it. *)
Lemma check_block_fails (elements : list string)
    (ChargeStates : gmap string np.ndarray) (w : world) :
  (forall e, e ∈ elements -> is_Some (sum_of ChargeStates (heap w) e)) ->
  (exists e val, e ∈ elements /\ sum_of ChargeStates (heap w) e = Some val
                 /\ sum_in_tolerance val = false) ->
  exists e val, e ∈ elements /\ sum_of ChargeStates (heap w) e = Some val
    /\ sum_in_tolerance val = false
    /\ check_block elements ChargeStates w
       = (Raises (AssertionError (msg_sum e)), w).
Proof.
  unfold check_block.
  induction elements as [|e es IH]; intros Hread (e0 & val0 & He0 & Hval0 & Hbad).
  - by apply elem_of_nil in He0.
  - destruct (Hread e) as [val Hval]; [by left|]. simpl.
    destruct (sum_in_tolerance val) eqn:Htol.
    + assert (He0' : e0 ∈ es).
      { apply elem_of_cons in He0 as [->|]; [congruence | done]. }
      destruct IH as (e1 & val1 & He1 & Hval1 & Hbad1 & Hrun).
      { intros e' He'. apply Hread. by right. }
      { by exists e0, val0. }
      exists e1, val1. split; [by right|]. split; [done|]. split; [done|].
      unfold bind. by rewrite (check_body_readable _ _ _ _ Hval), Htol.
    + exists e, val. split; [by left|]. split; [done|]. split; [done|].
      unfold bind. by rewrite (check_body_readable _ _ _ _ Hval), Htol.
Qed.

(** ** The neutral path *)

(** Adding to [-0.0] changes nothing. *)
Lemma neg_zero_add (x : float) : (np.neg_zero + x)%float = x.
Proof.
  apply Prim2SF_inj. rewrite add_spec.
  replace (Prim2SF np.neg_zero) with (S754_zero true) by (vm_compute; reflexivity).
  unfold SF64add, SFadd.
  destruct (Prim2SF x) as [s|s| |s m e]; try reflexivity.
  by destruct s.
Qed.

(** Adding further entries in index order. *)
Lemma foldl_sums_to (v : list float) :
  forall (acc : float) (u : list float),
    sums_to u acc -> sums_to (u ++ v) (foldl PrimFloat.add acc v).
Proof.
  induction v as [|x v IH]; intros acc u Hu; simpl.
  - by rewrite app_nil_r.
  - replace (u ++ x :: v) with ((u ++ [x]) ++ v) by (by rewrite <- app_assoc).
    apply IH. apply sums_app; [done | constructor].
Qed.

Lemma snoc_concat (us : list (list float)) :
  forall b : list float,
    length us = length b ->
    concat (zip_with (fun u a => u ++ [a]) us b) ≡ₚ concat us ++ b.
Proof.
  induction us as [|u us IH]; intros [|a b] Hlen; try done.
  simpl in *. rewrite IH by lia.
  rewrite <- !app_assoc. apply Permutation_app_head.
  simpl. by rewrite Permutation_middle.
Qed.

(** Each accumulator is the sum of the entries it has taken, and together
    with the entries left over these are all the entries. *)
Lemma unrolled_sums (n : nat) :
  forall (v : list float) (r r' : np.acc8) (rest : list float)
         (us : list (list float)),
    length v <= n ->
    Forall2 sums_to us (acc_list r) ->
    np.unrolled r v = (r', rest) ->
    exists us',
      Forall2 sums_to us' (acc_list r')
      /\ concat us ++ v ≡ₚ concat us' ++ rest.
Proof.
  induction n as [|n IH]; intros v r r' rest us Hlen Hus Hrun.
  - destruct v; [|simpl in Hlen; lia]. injection Hrun as <- <-. by exists us.
  - destruct v as [|a0 [|a1 [|a2 [|a3 [|a4 [|a5 [|a6 [|a7 v']]]]]]]];
      try (injection Hrun as <- <-; by exists us).
    destruct r as [[[[[[[r0 r1] r2] r3] r4] r5] r6] r7].
    cbn [np.unrolled] in Hrun.
    apply (IH _ _ _ _ (zip_with (fun u a => u ++ [a]) us
                         [a0; a1; a2; a3; a4; a5; a6; a7])) in Hrun
      as (us' & Hus' & Hperm).
    + exists us'. split; [done|]. rewrite <- Hperm.
      rewrite snoc_concat.
      * by rewrite <- app_assoc.
      * by rewrite (Forall2_length _ _ _ Hus).
    + simpl in Hlen. lia.
    + cbn [acc_list] in *.
      repeat (apply Forall2_cons_inv_r in Hus as (? & ? & ? & Hus & ->)).
      apply Forall2_nil_inv_r in Hus as ->. cbn [zip_with].
      repeat (apply Forall2_cons; split;
              [apply sums_app; [done | constructor]|]).
      constructor.
Qed.

Lemma block_sum_sums_to (v : list float) :
  v <> [] -> sums_to v (np.block_sum v).
Proof.
  intros Hne.
  assert (Hshort : forall x v', sums_to (x :: v')
                                  (foldl PrimFloat.add np.neg_zero (x :: v'))).
  { intros x v'. cbn [foldl]. rewrite neg_zero_add.
    apply (foldl_sums_to v' x [x]). constructor. }
  destruct v as [|a0 [|a1 [|a2 [|a3 [|a4 [|a5 [|a6 [|a7 v']]]]]]]];
    [done | apply Hshort ..|].
  unfold np.block_sum.
  destruct (np.unrolled (a0, a1, a2, a3, a4, a5, a6, a7) v')
    as [r' rest] eqn:Hrun.
  destruct (unrolled_sums (length v') v' (a0, a1, a2, a3, a4, a5, a6, a7) r' rest
              [[a0]; [a1]; [a2]; [a3]; [a4]; [a5]; [a6]; [a7]]
              (le_n _)) as (us' & Hus' & Hperm); [|exact Hrun|].
  { cbn [acc_list]. repeat (apply Forall2_cons; split; [constructor|]).
    constructor. }
  destruct r' as [[[[[[[r0 r1] r2] r3] r4] r5] r6] r7].
  cbn [acc_list] in Hus'.
  apply Forall2_cons_inv_r in Hus' as (u0 & us0 & H0 & Hus' & ->).
  apply Forall2_cons_inv_r in Hus' as (u1 & us1 & H1 & Hus' & ->).
  apply Forall2_cons_inv_r in Hus' as (u2 & us2 & H2 & Hus' & ->).
  apply Forall2_cons_inv_r in Hus' as (u3 & us3 & H3 & Hus' & ->).
  apply Forall2_cons_inv_r in Hus' as (u4 & us4 & H4 & Hus' & ->).
  apply Forall2_cons_inv_r in Hus' as (u5 & us5 & H5 & Hus' & ->).
  apply Forall2_cons_inv_r in Hus' as (u6 & us6 & H6 & Hus' & ->).
  apply Forall2_cons_inv_r in Hus' as (u7 & us7 & H7 & Hus' & ->).
  apply Forall2_nil_inv_r in Hus' as ->.
  apply (sums_perm (concat [u0; u1; u2; u3; u4; u5; u6; u7] ++ rest));
    [by rewrite <- Hperm|].
  apply foldl_sums_to.
  cbn [concat]. rewrite app_nil_r.
  replace (u0 ++ u1 ++ u2 ++ u3 ++ u4 ++ u5 ++ u6 ++ u7)
    with (((u0 ++ u1) ++ (u2 ++ u3)) ++ ((u4 ++ u5) ++ (u6 ++ u7)))
    by (by rewrite <- !app_assoc).
  repeat apply sums_app; done.
Qed.

(** The cut of more than 128 entries leaves two parts that are not
    empty. *)
Lemma cut_bounds (n : nat) :
  128 < n -> 0 < n / 2 - (n / 2) mod 8 < n.
Proof.
  intros Hn.
  pose proof (Nat.div_mod_eq n 2) as H2.
  pose proof (Nat.mod_upper_bound n 2 ltac:(lia)) as Hm2.
  pose proof (Nat.mod_upper_bound (n / 2) 8 ltac:(lia)) as Hm8.
  lia.
Qed.

Lemma pairwise_sum_sums_to (fuel : nat) :
  forall v : list float, v <> [] -> sums_to v (np.pairwise_sum fuel v).
Proof.
  induction fuel as [|fuel IH]; intros v Hne; cbn [np.pairwise_sum].
  - by apply block_sum_sums_to.
  - case_decide as Hlen; [by apply block_sum_sums_to|].
    destruct (cut_bounds (length v) ltac:(lia)) as [Hpos Hlt].
    rewrite <- (take_drop (length v / 2 - (length v / 2) mod 8) v) at 1.
    apply sums_app; apply IH.
    + intros Hnil. apply (f_equal length) in Hnil.
      rewrite length_take in Hnil. cbn [length] in Hnil. lia.
    + intros Hnil. apply (f_equal length) in Hnil.
      rewrite length_drop in Hnil. cbn [length] in Hnil. lia.
Qed.

(** Enough fuel: the recursion never runs out on fuel of at least the
    length. *)
Lemma pairwise_sum_fuel (fuel : nat) :
  forall (fuel' : nat) (v : list float),
    length v <= fuel -> length v <= fuel' ->
    np.pairwise_sum fuel v = np.pairwise_sum fuel' v.
Proof.
  induction fuel as [|fuel IH]; intros fuel' v Hf Hf'.
  - destruct v; [|simpl in Hf; lia]. by destruct fuel'.
  - destruct fuel' as [|fuel'].
    + destruct v; [|simpl in Hf'; lia]. done.
    + cbn [np.pairwise_sum]. case_decide as Hlen; [done|].
      destruct (cut_bounds (length v) ltac:(lia)) as [Hpos Hlt].
      f_equal; apply IH; rewrite ?length_take, ?length_drop; lia.
Qed.

Lemma pairwise_sum_unfold (v : list float) :
  np.pairwise_sum (length v) v
  = if decide (length v <= 128) then np.block_sum v
    else
      let n2 := length v / 2 - (length v / 2) mod 8 in
      (np.pairwise_sum n2 (take n2 v)
       + np.pairwise_sum (length v - n2) (drop n2 v))%float.
Proof.
  destruct (length v) as [|n] eqn:Hn.
  - by rewrite decide_True by lia.
  - cbn [np.pairwise_sum]. rewrite Hn. case_decide as Hlen; [done|].
    destruct (cut_bounds (S n) ltac:(lia)) as [Hpos Hlt]. cbv zeta.
    f_equal; apply pairwise_sum_fuel;
      rewrite ?length_take, ?length_drop; lia.
Qed.

(** [np.sum] is one of the ways of adding up the entries. *)
Lemma sum_list_sums_to (v : list float) : sums_to v (np.sum_list v).
Proof.
  destruct v as [|x v]; [constructor|].
  unfold np.sum_list. rewrite neg_zero_add.
  by apply pairwise_sum_sums_to.
Qed.

(** A list of zeros with at most one 1 adds up to that 1, or to 0, in
    every order. *)
Lemma sums_to_bits (l : list float) (s : float) :
  sums_to l s ->
  Forall (fun x => x = 0%float \/ x = 1%float) l ->
  positive_entries l <= 1 ->
  s = if decide (positive_entries l = 0) then 0%float else 1%float.
Proof.
  unfold positive_entries.
  induction 1 as [| x | u v a b Hu IHu Hv IHv | u v a Hperm Hu IH];
    intros Hall Hcount.
  - done.
  - apply Forall_singleton in Hall as [-> | ->]; done.
  - apply Forall_app in Hall as [Hallu Hallv].
    rewrite filter_app, length_app in *.
    rewrite (IHu Hallu) by lia. rewrite (IHv Hallv) by lia.
    repeat case_decide; try done; lia.
  - assert (Hlen : length (filter (fun x => (0 <? x)%float = true) v)
                   = length (filter (fun x => (0 <? x)%float = true) u))
      by (by rewrite Hperm).
    rewrite Hlen in *. apply IH; [by rewrite Hperm | done].
Qed.

Lemma positive_entries_neutral (Z : nat) : positive_entries (neutral Z) = 1.
Proof.
  unfold neutral, positive_entries.
  rewrite filter_cons_True by (vm_compute; reflexivity). simpl. f_equal.
  induction Z as [|Z IH]; [done|]. simpl.
  rewrite filter_cons_False; [exact IH|]. vm_compute. discriminate.
Qed.

(** The neutral distribution adds up to [1.0] in every order. *)
Lemma sums_to_neutral (Z : nat) (s : float) :
  sums_to (neutral Z) s -> s = 1%float.
Proof.
  intros Hs. rewrite (sums_to_bits _ _ Hs).
  - by rewrite positive_entries_neutral.
  - unfold neutral. apply Forall_cons. split; [by right|].
    apply Forall_replicate. by left.
  - by rewrite positive_entries_neutral.
Qed.

Lemma sum_list_neutral (Z : nat) : np.sum_list (neutral Z) = 1%float.
Proof. apply (sums_to_neutral Z), sum_list_sums_to. Qed.

(** [temperature <= 0] makes the test [temperature > 0] fail. *)
Lemma not_positive (temperature : float) :
  (temperature <=? 0)%float = true -> (0 <? temperature)%float = false.
Proof.
  rewrite leb_spec, ltb_spec. unfold SFleb, SFltb.
  change (Prim2SF 0) with (S754_zero false).
  destruct (Prim2SF temperature) as [s | s | | s m e]; simpl; try done;
    by destruct s.
Qed.

Lemma neutral_path (func_index_te : float -> list float -> Z)
    (elements : list string) (temperature : float)
    (AtomicData : option atomic_data) (w : world) :
  (0 <? temperature)%float = false ->
  Forall (fun e => is_Some (AtomicNumbers !! e)) elements ->
  exists cs w',
    create_ChargeStates_dictionary func_index_te elements temperature
      AtomicData w = (Returns cs, w')
    /\ files w' = files w /\ opened w' = opened w
    /\ (exists extra, heap w' = heap w ++ extra)
    /\ forall e, e ∈ elements ->
         exists Z a, AtomicNumbers !! e = Some Z /\ cs !! e = Some a
                     /\ np.buffer_row (heap w') a = Some (neutral Z).
Proof.
  intros HT Hreg.
  destruct (neutral_loop_total elements Hreg ∅ w) as (cs & w' & Hrun).
  destruct (neutral_loop_inv _ _ _ _ _ Hrun) as (Hf & Ho & Hh & Hin & _).
  exists cs, w'. split; [|done].
  unfold create_ChargeStates_dictionary, neutral_block, equilibrium_block.
  rewrite (bind_Returns _ _ _ _ _ Hrun), HT.
  unfold bind at 1. unfold ret at 1.
  rewrite (bind_Returns _ _ w' w' tt); [done|].
  apply check_block_ok. intros e He.
  destruct (Hin e He) as (Z & a & _ & Hcs & Hv).
  exists 1%float. split; [|done].
  apply sum_of_Some. exists a, (neutral Z).
  by rewrite sum_list_neutral.
Qed.

Section Neutral.

Variable func_index_te : float -> list float -> Z.

(** C8: without a positive temperature, every requested element of atomic
    number [Z] gets the array [1.0, 0.0, ..., 0.0] of [Z+1] entries: entry 0
    is [1.0], every other entry is [0.0], and the entries sum to [1.0], in
    whatever order they are added. *)
Theorem neutral_initialisation (elements : list string) (temperature : float)
    (AtomicData : option atomic_data) (w : world) :
  (0 <? temperature)%float = false ->
  Forall (fun e => is_Some (AtomicNumbers !! e)) elements ->
  exists cs w',
    create_ChargeStates_dictionary func_index_te elements temperature
      AtomicData w = (Returns cs, w')
    /\ forall e Z, e ∈ elements -> AtomicNumbers !! e = Some Z ->
         exists a v, cs !! e = Some a
           /\ np.buffer_row (heap w') a = Some v
           /\ length v = Z + 1
           /\ v !! 0 = Some 1%float
           /\ (forall i, 0 < i < Z + 1 -> v !! i = Some 0%float)
           /\ np.sum_list v = 1%float
           /\ (forall s, sums_to v s -> s = 1%float).
Proof.
  intros HT Hreg.
  destruct (neutral_path func_index_te elements temperature AtomicData w
              HT Hreg) as (cs & w' & Hrun & _ & _ & _ & Hin).
  exists cs, w'. split; [done|]. intros e Z He HZ.
  destruct (Hin e He) as (Z' & a & HZ' & Hcs & Hv).
  assert (Z' = Z) as -> by congruence.
  exists a, (neutral Z). split; [done|]. split; [done|].
  split; [unfold neutral; simpl; rewrite length_replicate; lia|].
  split; [done|].
  split; [|split; [apply sum_list_neutral | apply sums_to_neutral]].
  intros [|i] Hi; [lia|]. unfold neutral. simpl.
  apply lookup_replicate_2. lia.
Qed.

(** C10: for a temperature [<= 0] the function returns the neutral
    distributions, whatever was passed for [AtomicData]: it raises nothing,
    opens no file, and the arrays that existed before are untouched. *)
Theorem nonpositive_temperature_is_neutral (elements : list string)
    (temperature : float) (AtomicData : option atomic_data) (w : world) :
  (temperature <=? 0)%float = true ->
  Forall (fun e => is_Some (AtomicNumbers !! e)) elements ->
  exists cs w',
    create_ChargeStates_dictionary func_index_te elements temperature
      AtomicData w = (Returns cs, w')
    /\ files w' = files w /\ opened w' = opened w
    /\ (exists extra, heap w' = heap w ++ extra)
    /\ forall e, e ∈ elements ->
         exists Z a, AtomicNumbers !! e = Some Z /\ cs !! e = Some a
                     /\ np.buffer_row (heap w') a = Some (neutral Z).
Proof.
  intros HT Hreg. apply neutral_path; [by apply not_positive | done].
Qed.

End Neutral.

Lemma neutral_initialisation_witness :
  (0 <? 0)%float = false
  /\ Forall (fun e => is_Some (AtomicNumbers !! e)) ["H"; "He"]%string
  /\ exists cs w',
       create_ChargeStates_dictionary nearest_index ["H"; "He"]%string 0 None
         empty_world = (Returns cs, w')
       /\ forall e Z, e ∈ ["H"; "He"]%string -> AtomicNumbers !! e = Some Z ->
            exists a v, cs !! e = Some a
              /\ np.buffer_row (heap w') a = Some v
              /\ length v = Z + 1
              /\ v !! 0 = Some 1%float
              /\ (forall i, 0 < i < Z + 1 -> v !! i = Some 0%float)
              /\ np.sum_list v = 1%float
              /\ (forall s, sums_to v s -> s = 1%float).
Proof.
  assert (Hreg : Forall (fun e => is_Some (AtomicNumbers !! e))
                   ["H"; "He"]%string).
  { repeat constructor; by eexists. }
  split; [reflexivity|]. split; [exact Hreg|].
  exact (neutral_initialisation nearest_index ["H"; "He"]%string 0 None
           empty_world eq_refl Hreg).
Defined.

Lemma nonpositive_temperature_is_neutral_witness :
  (-3 <=? 0)%float = true
  /\ Forall (fun e => is_Some (AtomicNumbers !! e)) ["Fe"]%string
  /\ exists cs w',
       create_ChargeStates_dictionary nearest_index ["Fe"]%string (-3) None
         empty_world = (Returns cs, w')
       /\ files w' = files empty_world /\ opened w' = opened empty_world
       /\ (exists extra, heap w' = heap empty_world ++ extra)
       /\ forall e, e ∈ ["Fe"]%string ->
            exists Z a, AtomicNumbers !! e = Some Z /\ cs !! e = Some a
                        /\ np.buffer_row (heap w') a = Some (neutral Z).
Proof.
  assert (Hreg : Forall (fun e => is_Some (AtomicNumbers !! e)) ["Fe"]%string).
  { repeat constructor; by eexists. }
  split; [reflexivity|]. split; [exact Hreg|].
  exact (nonpositive_temperature_is_neutral nearest_index ["Fe"]%string (-3)
           None empty_world eq_refl Hreg).
Defined.

(** Two rows whose first entries a comparison with [1.0] separates are
    different. *)
Ltac first_entry_neq :=
  let H := fresh in
  intros H;
  apply (f_equal (fun o : option (list float) =>
                    match o with
                    | Some (z :: _) => (1 <? z)%float
                    | _ => false
                    end)) in H;
  vm_compute in H; discriminate.

Lemma cleanup_loop_entries_witness :
  let cs : gmap string np.ndarray := {[ "H"%string := np.RowView 0 0 ]} in
  let v := [upper_end; 0%float] in
  let w := hydrogen_world [v] in
  cs !! "H"%string = Some (np.RowView 0 0)
  /\ np.buffer_row (heap w) (np.RowView 0 0) = Some v
  /\ exists (w' : world) (v' : list float),
       cleanup_loop cs "H" (length v) w = (Returns tt, w')
       /\ files w' = files w /\ opened w' = opened w
       /\ (forall b, b <> np.RowView 0 0 ->
             np.buffer_row (heap w') b = np.buffer_row (heap w) b)
       /\ np.buffer_row (heap w') (np.RowView 0 0) = Some v'
       /\ length v' = length v
       /\ forall (i : nat) (x : float), v !! i = Some x ->
            ((x <? 1e-14)%float = true -> v' !! i = Some 0%float)
            /\ ((x <? 1e-14)%float = false -> (1 <? x)%float = true ->
                (x <? 1 + 9e-10)%float = true -> v' !! i = Some 1%float)
            /\ ((x <? 1e-14)%float = false ->
                (1 <? x)%float = false \/ (x <? 1 + 9e-10)%float = false ->
                v' !! i = Some x).
Proof.
  intros cs v w. split; [reflexivity|]. split; [reflexivity|].
  exact (cleanup_loop_entries cs "H" (np.RowView 0 0) v w eq_refl eq_refl).
Defined.

(** C4, as stated, fails at the upper end: the entry [1.0 + 9e-10] of a
    hydrogen table is returned as it is, where the stated rule gives
    [1.0]. *)
Lemma cleanup_keeps_upper_end :
  exists cs w',
    create_ChargeStates_dictionary nearest_index ["H"%string] 4
      (Some (hydrogen_data [4%float])) (hydrogen_world [[upper_end; 0%float]])
    = (Returns cs, w')
    /\ cs !! "H"%string = Some (np.RowView 0 0)
    /\ np.buffer_row (heap w') (np.RowView 0 0) = Some [upper_end; 0%float]
    /\ stated_cleanup_rule <$> [upper_end; 0%float] = [1%float; 0%float]
    /\ Some [upper_end; 0%float]
       <> Some (stated_cleanup_rule <$> [upper_end; 0%float]).
Proof.
  eexists _, _. split; [vm_compute; reflexivity|].
  split; [vm_compute; reflexivity|]. split; [vm_compute; reflexivity|].
  split; [vm_compute; reflexivity|].
  first_entry_neq.
Qed.

Lemma cleanup_loop_idempotent_witness :
  let cs : gmap string np.ndarray := {[ "H"%string := np.RowView 0 1 ]} in
  let v := [1.0000000001%float; 8.9e-16%float] in
  let w := hydrogen_world [[0.5%float; 0.5%float]; v] in
  cs !! "H"%string = Some (np.RowView 0 1)
  /\ np.buffer_row (heap w) (np.RowView 0 1) = Some v
  /\ (cleanup_loop cs "H" (length v) ;;; cleanup_loop cs "H" (length v)) w
     = cleanup_loop cs "H" (length v) w
  /\ cleanup_rule <$> (cleanup_rule <$> v) = cleanup_rule <$> v.
Proof.
  intros cs v w. split; [reflexivity|]. split; [reflexivity|].
  exact (cleanup_loop_idempotent cs "H" (np.RowView 0 1) v w eq_refl eq_refl).
Defined.

(** ** The equilibrium block *)

Lemma row_view_view_of (AtomicData : atomic_data) (TemperatureIndex : Z)
    (element : string) (t : element_data) (a : np.ndarray) (w w' : world) :
  tables AtomicData !! element = Some t ->
  np.row_view (equistate t) TemperatureIndex w = (Returns a, w') ->
  view_of (heap w) AtomicData TemperatureIndex element = Some a /\ w' = w.
Proof.
  intros Ht (rows & r & Hrows & Hr & -> & ->)%row_view_inv.
  unfold view_of. by rewrite Ht, Hrows, Hr.
Qed.

Lemma equilibrium_body_inv (AtomicData : atomic_data) (TemperatureIndex : Z)
    (element : string) (cs0 cs : gmap string np.ndarray) (w w' : world) :
  equilibrium_body AtomicData TemperatureIndex element cs0 w = (Returns cs, w') ->
  exists a v,
    view_of (heap w) AtomicData TemperatureIndex element = Some a
    /\ np.buffer_row (heap w) a = Some v
    /\ cs = <[element := a]> cs0
    /\ w' = set_heap (np.update_row (fmap cleanup_rule) a (heap w)) w.
Proof.
  unfold equilibrium_body. intros H.
  apply bind_inv_Returns in H as (Z & w1 & [_ ->]%getitem_inv & H).
  apply bind_inv_Returns in H as (t & w1 & [Ht ->]%getitem_inv & H).
  apply bind_inv_Returns in H as (a & w1 & Hview & H).
  apply (row_view_view_of _ _ _ _ _ _ _ Ht) in Hview as [Hview ->].
  apply bind_inv_Returns in H as (a' & w1 & [Ha' ->]%getitem_inv & H).
  rewrite lookup_insert_eq in Ha'. injection Ha' as <-.
  apply bind_inv_Returns in H as (n & w1 & (v & Hv & -> & ->)%np_size_inv & H).
  apply bind_inv_Returns in H as ([] & w1 & Hloop & H).
  injection H as <- <-.
  fold (cleanup_loop (<[element:=a]> cs0) element (length v)) in Hloop.
  rewrite (cleanup_loop_spec _ element a v w) in Hloop;
    [|by rewrite lookup_insert_eq | done].
  injection Hloop as <-. by exists a, v.
Qed.

Lemma view_of_update (f : list float -> list float) (a : np.ndarray)
    (h : list ndarray2) (AtomicData : atomic_data) (TemperatureIndex : Z)
    (element : string) :
  view_of (np.update_row f a h) AtomicData TemperatureIndex element
  = view_of h AtomicData TemperatureIndex element.
Proof.
  unfold view_of. destruct (tables AtomicData !! element) as [t|]; [|done].
  unfold np.update_row.
  destruct (decide (np.base a = equistate t)) as [Heq|Hne].
  - rewrite Heq, list_lookup_alter_eq.
    destruct (h !! equistate t) as [rows|]; [|done]. simpl.
    by rewrite length_alter.
  - by rewrite list_lookup_alter_ne.
Qed.

Lemma fmap_cleanup_idempotent (o : option (list float)) :
  fmap (M:=list) cleanup_rule <$> (fmap (M:=list) cleanup_rule <$> o)
  = fmap (M:=list) cleanup_rule <$> o.
Proof.
  destruct o as [v|]; [|done]. simpl. f_equal.
  rewrite <- list_fmap_compose. apply list_fmap_ext.
  intros i x _. apply cleanup_rule_idempotent.
Qed.

(** What a completed equilibrium loop leaves: every element of the list
    holds the view of its table row, and exactly the rows so viewed have the
    rule mapped over them. *)
Lemma equilibrium_loop_inv (AtomicData : atomic_data) (TemperatureIndex : Z)
    (elements : list string) :
  forall (cs0 cs : gmap string np.ndarray) (w w' : world),
    for_each elements (equilibrium_body AtomicData TemperatureIndex) cs0 w
    = (Returns cs, w') ->
    files w' = files w /\ opened w' = opened w
    /\ (forall e, e ∈ elements ->
          exists a v,
            view_of (heap w) AtomicData TemperatureIndex e = Some a
            /\ cs !! e = Some a /\ np.buffer_row (heap w) a = Some v)
    /\ (forall e, e ∉ elements -> cs !! e = cs0 !! e)
    /\ (forall b,
          np.buffer_row (heap w') b
          = if decide (Exists (fun e => view_of (heap w) AtomicData
                                          TemperatureIndex e = Some b) elements)
            then fmap (M:=list) cleanup_rule <$> np.buffer_row (heap w) b
            else np.buffer_row (heap w) b).
Proof.
  induction elements as [|e es IH]; intros cs0 cs w w' Hrun; simpl in Hrun.
  - injection Hrun as <- <-. split; [done|]. split; [done|].
    split; [intros e He; by apply elem_of_nil in He|]. split; [done|].
    intros b. rewrite decide_False; [done|]. by intros ?%Exists_nil.
  - apply bind_inv_Returns in Hrun as (cs1 & w1 & Hbody & Hrest).
    apply equilibrium_body_inv in Hbody as (a & v & Hview & Hv & -> & ->).
    destruct (IH _ _ _ _ Hrest) as (Hf & Ho & Hin & Hout & Hrows).
    simpl in *. split; [done|]. split; [done|]. split; [|split].
    + intros e' He'. destruct (decide (e' ∈ es)) as [Hes|Hes].
      * destruct (Hin e' Hes) as (a' & v' & Hview' & Hcs' & Hv').
        rewrite view_of_update in Hview'.
        rewrite buffer_row_update in Hv'.
        exists a'. destruct (np.buffer_row (heap w) a') as [v0|] eqn:Hv0;
          [by exists v0 | by destruct (decide _)].
      * apply elem_of_cons in He' as [->|He']; [|done].
        exists a, v. by rewrite (Hout _ Hes), lookup_insert_eq.
    + intros e' [Hne Hes]%not_elem_of_cons.
      by rewrite (Hout _ Hes), lookup_insert_ne.
    + intros b. rewrite Hrows, buffer_row_update.
      assert (Hiff : Exists (fun e0 => view_of (np.update_row (fmap cleanup_rule) a (heap w))
                                    AtomicData TemperatureIndex e0 = Some b) es
                     <-> Exists (fun e0 => view_of (heap w) AtomicData
                                    TemperatureIndex e0 = Some b) es).
      { split; intros Hex; (eapply Exists_impl; [exact Hex|]);
          intros e0; simpl; by rewrite view_of_update. }
      destruct (decide (Exists _ es)) as [Hex|Hex];
        destruct (decide (b = a)) as [->|Hb].
      * rewrite decide_True by (by apply Exists_cons; left).
        apply fmap_cleanup_idempotent.
      * rewrite decide_True; [done|]. apply Exists_cons. right. by apply Hiff.
      * by rewrite decide_True by (by apply Exists_cons; left).
      * rewrite decide_False; [done|].
        intros [Hhd|Htl]%Exists_cons; [congruence|]. by apply Hex, Hiff.
Qed.

Lemma buffer_row_app_lt (h extra : list ndarray2) (a : np.ndarray) :
  np.base a < length h ->
  np.buffer_row (h ++ extra) a = np.buffer_row h a.
Proof. intros Hlt. unfold np.buffer_row. by rewrite lookup_app_l. Qed.

Lemma view_of_app (h extra : list ndarray2) (AtomicData : atomic_data)
    (TemperatureIndex : Z) (element : string) :
  (forall e t, tables AtomicData !! e = Some t -> equistate t < length h) ->
  view_of (h ++ extra) AtomicData TemperatureIndex element
  = view_of h AtomicData TemperatureIndex element.
Proof.
  intros Hwf. unfold view_of.
  destruct (tables AtomicData !! element) as [t|] eqn:Ht; [|done].
  by rewrite lookup_app_l by eauto.
Qed.

Section Equilibrium.

Variable func_index_te : float -> list float -> Z.

Lemma create_inv (elements : list string) (temperature : float)
    (AtomicData : option atomic_data) (cs : gmap string np.ndarray)
    (w w' : world) :
  create_ChargeStates_dictionary func_index_te elements temperature
    AtomicData w = (Returns cs, w') ->
  exists cs1 w1,
    neutral_block elements w = (Returns cs1, w1)
    /\ equilibrium_block func_index_te elements temperature AtomicData cs1 w1
       = (Returns cs, w')
    /\ check_block elements cs w' = (Returns tt, w').
Proof.
  unfold create_ChargeStates_dictionary. intros H.
  apply bind_inv_Returns in H as (cs1 & w1 & Hneutral & H).
  apply bind_inv_Returns in H as (cs2 & w2 & Hequil & H).
  apply bind_inv_Returns in H as ([] & w3 & Hcheck & H).
  injection H as <- <-.
  destruct (check_block_inv _ _ _ _ Hcheck) as [-> _].
  by exists cs1, w1.
Qed.

(** C1, as amended: in equilibrium initialisation with a dictionary passed
    by the caller, the distribution returned for an element is a view of the
    row of that element's equilibrium table at the resolved index, not a
    copy.  After the call that row of the table holds the cleaned values,
    every row that no requested element resolves to is unchanged, and a
    write to the returned distribution is read back from the table. *)
Theorem equilibrium_returns_views (elements : list string)
    (temperature : float) (AtomicData : atomic_data)
    (cs : gmap string np.ndarray) (w w' : world) :
  (0 <? temperature)%float = true ->
  (forall e t, tables AtomicData !! e = Some t -> equistate t < length (heap w)) ->
  create_ChargeStates_dictionary func_index_te elements temperature
    (Some AtomicData) w = (Returns cs, w') ->
  exists grid,
    temperatures AtomicData = Some grid
    /\ (forall e, e ∈ elements ->
          exists t r v,
            tables AtomicData !! e = Some t
            /\ view_of (heap w) AtomicData (func_index_te temperature grid) e
               = Some (np.RowView (equistate t) r)
            /\ cs !! e = Some (np.RowView (equistate t) r)
            /\ np.buffer_row (heap w) (np.RowView (equistate t) r) = Some v
            /\ np.buffer_row (heap w') (np.RowView (equistate t) r)
               = Some (cleanup_rule <$> v)
            /\ forall i x, i < length v ->
                 exists w'',
                   np.set (np.RowView (equistate t) r) i x w' = (Returns tt, w'')
                   /\ table_entry (heap w'') t r i = Some x)
    /\ (forall b v,
          np.buffer_row (heap w) b = Some v ->
          ~ Exists (fun e => view_of (heap w) AtomicData
                               (func_index_te temperature grid) e = Some b)
              elements ->
          np.buffer_row (heap w') b = Some v).
Proof.
  intros HT Hwf Hrun.
  apply create_inv in Hrun as (cs1 & w1 & Hneutral & Hequil & _).
  apply neutral_loop_inv in Hneutral as (_ & _ & [extra Hh1] & _ & _).
  unfold equilibrium_block in Hequil. rewrite HT in Hequil.
  apply bind_inv_Returns in Hequil as (ad & w2 & Had & Hequil).
  injection Had as <- <-.
  apply bind_inv_Returns in Hequil as (grid & w2 & Hgrid & Hloop).
  destruct (temperatures AtomicData) as [grid'|] eqn:Hgrid'; [|done].
  injection Hgrid as <- <-. exists grid'. split; [done|].
  set (idx := func_index_te temperature grid') in *.
  apply equilibrium_loop_inv in Hloop as (_ & _ & Hin & _ & Hrows).
  assert (Hview : forall e, view_of (heap w1) AtomicData idx e
                            = view_of (heap w) AtomicData idx e).
  { intros e. rewrite Hh1. by apply view_of_app. }
  assert (Hex : forall b,
             Exists (fun e => view_of (heap w1) AtomicData idx e = Some b) elements
             <-> Exists (fun e => view_of (heap w) AtomicData idx e = Some b) elements).
  { intros b. split; intros H; (eapply Exists_impl; [exact H|]);
      intros e; simpl; by rewrite Hview. }
  split.
  - intros e He. destruct (Hin e He) as (a & v & Ha & Hcs & Hv).
    rewrite Hview in Ha. pose proof Ha as Ha'. unfold view_of in Ha'.
    destruct (tables AtomicData !! e) as [t|] eqn:Ht; [|done].
    destruct (heap w !! equistate t) as [rows|] eqn:Htable; [|done].
    destruct (np.norm_index (length rows) idx) as [r|]; [|done].
    injection Ha' as <-. exists t, r, v.
    assert (Hv0 : np.buffer_row (heap w) (np.RowView (equistate t) r) = Some v).
    { rewrite <- Hv, Hh1. symmetry. apply buffer_row_app_lt. simpl. eauto. }
    assert (Hv' : np.buffer_row (heap w') (np.RowView (equistate t) r)
                  = Some (cleanup_rule <$> v)).
    { rewrite Hrows. rewrite decide_True; [by rewrite Hv|].
      apply Exists_exists. exists e. split; [done | by rewrite Hview]. }
    split; [done|]. split; [done|]. split; [done|]. split; [done|].
    split; [done|]. intros i x Hi.
    eexists. split.
    + apply (np_set_Some _ _ _ _ _ Hv'). by rewrite length_fmap.
    + unfold table_entry. simpl. unfold np.write, np.update_row. simpl.
      unfold np.buffer_row in Hv'. simpl in Hv'.
      rewrite list_lookup_alter_eq.
      destruct (heap w' !! equistate t) as [rows'|]; [|done]. simpl in *.
      rewrite list_lookup_alter_eq, Hv'. simpl.
      apply list_lookup_insert_eq. by rewrite length_fmap.
  - intros b v Hv Hnot. rewrite Hrows.
    rewrite decide_False by (by rewrite Hex).
    rewrite Hh1. by apply buffer_row_app.
Qed.

End Equilibrium.

Lemma hydrogen_table_in_heap (grid : list float) (rows : list (list float)) :
  forall e t, tables (hydrogen_data grid) !! e = Some t ->
              equistate t < length (heap (hydrogen_world rows)).
Proof.
  intros e t. unfold hydrogen_data; simpl.
  intros [_ <-]%lookup_singleton_Some. simpl. lia.
Qed.

Lemma equilibrium_returns_views_witness :
  let AtomicData := hydrogen_data [4; 5]%float in
  let w := hydrogen_world roundoff_rows in
  let idx := nearest_index 5.2 [4; 5]%float in
  exists cs w',
    (0 <? 5.2)%float = true
    /\ (forall e t, tables AtomicData !! e = Some t ->
                    equistate t < length (heap w))
    /\ create_ChargeStates_dictionary nearest_index ["H"%string] 5.2
         (Some AtomicData) w = (Returns cs, w')
    /\ exists grid,
         temperatures AtomicData = Some grid
         /\ (forall e, e ∈ ["H"%string] ->
               exists t r v,
                 tables AtomicData !! e = Some t
                 /\ view_of (heap w) AtomicData (nearest_index 5.2 grid) e
                    = Some (np.RowView (equistate t) r)
                 /\ cs !! e = Some (np.RowView (equistate t) r)
                 /\ np.buffer_row (heap w) (np.RowView (equistate t) r) = Some v
                 /\ np.buffer_row (heap w') (np.RowView (equistate t) r)
                    = Some (cleanup_rule <$> v)
                 /\ forall i x, i < length v ->
                      exists w'',
                        np.set (np.RowView (equistate t) r) i x w'
                        = (Returns tt, w'')
                        /\ table_entry (heap w'') t r i = Some x)
         /\ (forall b v,
               np.buffer_row (heap w) b = Some v ->
               ~ Exists (fun e => view_of (heap w) AtomicData
                                    (nearest_index 5.2 grid) e = Some b)
                   ["H"%string] ->
               np.buffer_row (heap w') b = Some v).
Proof.
  intros AtomicData w idx. eexists _, _.
  split; [reflexivity|].
  split; [apply hydrogen_table_in_heap|].
  assert (Hrun : create_ChargeStates_dictionary nearest_index ["H"%string] 5.2
                   (Some AtomicData) w
                 = (Returns {[ "H"%string := np.RowView 0 1 ]},
                    World ∅ [] [[[0.5; 0.5]; [0.999999999991; 0]];
                                [[1; 0]]]%float)).
  { vm_compute. reflexivity. }
  split; [exact Hrun|].
  exact (equilibrium_returns_views nearest_index ["H"%string] 5.2 AtomicData
           _ w _ eq_refl (hydrogen_table_in_heap _ _) Hrun).
Defined.

(** C1, as stated, fails: after an equilibrium call on a hydrogen table
    whose row has an entry below [1e-14], that entry of the caller's table
    reads [0.0], and a later write to the returned distribution shows in the
    table. *)
Lemma equilibrium_call_writes_table :
  let AtomicData := hydrogen_data [4; 5]%float in
  let w := hydrogen_world roundoff_rows in
  exists cs w' a w'',
    create_ChargeStates_dictionary nearest_index ["H"%string] 5.2
      (Some AtomicData) w = (Returns cs, w')
    /\ cs !! "H"%string = Some a
    /\ table_entry (heap w) hydrogen_table 1 1 = Some 8.9e-16%float
    /\ table_entry (heap w') hydrogen_table 1 1 = Some 0%float
    /\ heap w' !! 0 <> heap w !! 0
    /\ np.set a 0 0.25 w' = (Returns tt, w'')
    /\ table_entry (heap w') hydrogen_table 1 0 = Some 0.999999999991%float
    /\ table_entry (heap w'') hydrogen_table 1 0 = Some 0.25%float.
Proof.
  intros AtomicData w. eexists _, _, _, _.
  split; [vm_compute; reflexivity|].
  split; [vm_compute; reflexivity|].
  split; [vm_compute; reflexivity|].
  split; [vm_compute; reflexivity|].
  split.
  { intros H.
    apply (f_equal (fun o : option (list (list float)) =>
                      match o with
                      | Some [_; [_; z]] => (0 <? z)%float
                      | _ => false
                      end)) in H.
    vm_compute in H. discriminate. }
  split; [vm_compute; reflexivity|].
  split; vm_compute; reflexivity.
Qed.

Section SumTest.

Variable func_index_te : float -> list float -> Z.





End SumTest.


(** The unnormalised hydrogen table is refused, and the message names
    hydrogen. *)
Example unnormalised_table_refused :
  fst (create_ChargeStates_dictionary nearest_index ["H"%string] 4
         (Some (hydrogen_data [4%float])) (hydrogen_world unnormalised_rows))
  = Raises (AssertionError "Initial charge states do not sum to one for H").
Proof. vm_compute. reflexivity. Qed.

(** The order of the additions decides the test on rows of eight entries or
    more.  The first oxygen row is returned: its sum in NumPy's order is
    above [1 - 1e-9], where the entries added in index order are not. *)
Example oxygen_row_returned :
  fst (create_ChargeStates_dictionary nearest_index ["O"%string] 4
         (Some oxygen_data) (oxygen_world oxygen_row_in))
  = Returns {[ "O"%string := np.RowView 0 0 ]}
  /\ sum_in_tolerance (np.sum_list oxygen_row_in) = true
  /\ sum_in_tolerance (foldl PrimFloat.add 0%float oxygen_row_in) = false.
Proof. split; [|split]; vm_compute; reflexivity. Qed.

(** The second oxygen row is refused: its sum in NumPy's order is not above
    [1 - 1e-9], where the entries added in index order are. *)
Example oxygen_row_refused :
  fst (create_ChargeStates_dictionary nearest_index ["O"%string] 4
         (Some oxygen_data) (oxygen_world oxygen_row_out))
  = Raises (AssertionError "Initial charge states do not sum to one for O")
  /\ sum_in_tolerance (np.sum_list oxygen_row_out) = false
  /\ sum_in_tolerance (foldl PrimFloat.add 0%float oxygen_row_out) = true.
Proof. split; [|split]; vm_compute; reflexivity. Qed.

(** ** Computations that open no file *)

Lemma quiet_ret {A} (a : A) : quiet (ret a).
Proof. by intros w. Qed.

Lemma quiet_raise {A} (e : exn) : quiet (raise (A:=A) e).
Proof. by intros w. Qed.

Lemma quiet_bind {A B} (m : M A) (k : A -> M B) :
  quiet m -> (forall a, quiet (k a)) -> quiet (bind m k).
Proof.
  intros Hm Hk w. unfold bind. specialize (Hm w).
  destruct (m w) as [[a|e] w1]; simpl in *; [|done].
  destruct (Hk a w1) as [Hf Ho]. by rewrite Hf, Ho.
Qed.

Lemma quiet_for_each {A S} (xs : list A) (body : A -> S -> M S) (s : S) :
  (forall x s', quiet (body x s')) -> quiet (for_each xs body s).
Proof.
  intros Hbody. revert s. induction xs as [|x xs IH]; intros s; simpl.
  - apply quiet_ret.
  - apply quiet_bind; [apply Hbody | apply IH].
Qed.

Lemma quiet_of_option {A} (o : option A) (e : exn) : quiet (of_option o e).
Proof. destruct o; [apply quiet_ret | apply quiet_raise]. Qed.

Lemma quiet_getitem {V} (d : gmap string V) (key : string) :
  quiet (getitem d key).
Proof. apply quiet_of_option. Qed.

Lemma quiet_assert (b : bool) (msg : string) : quiet (assert b msg).
Proof. destruct b; [apply quiet_ret | apply quiet_raise]. Qed.

Lemma quiet_heap_write {A} (a : A) (f : world -> list (list (list float))) :
  quiet (fun w => (Returns a, set_heap (f w) w)).
Proof. by intros w. Qed.

Lemma quiet_data (a : np.ndarray) : quiet (np.data a).
Proof.
  intros w. unfold np.data. by destruct (np.buffer_row (heap w) a).
Qed.

Lemma quiet_row_view (l : nat) (i : Z) : quiet (np.row_view l i).
Proof.
  intros w. unfold np.row_view. destruct (heap w !! l) as [rows|]; [|done].
  by destruct (np.norm_index (length rows) i).
Qed.

Create HintDb quiet.
#[export] Hint Resolve quiet_ret quiet_raise quiet_of_option quiet_getitem
  quiet_assert quiet_data quiet_row_view : quiet.

(** Walks a monadic term: a bind splits, a test or a match is decided. *)
Ltac quiet_step :=
  match goal with
  | |- quiet (bind _ _) => apply quiet_bind; [|intros ?]
  | |- quiet (for_each _ _ _) => apply quiet_for_each; intros ? ?
  | |- quiet (fun w => (Returns _, set_heap _ w)) => apply quiet_heap_write
  | |- quiet (if ?b then _ else _) => destruct b
  | |- quiet (match ?x with _ => _ end) => destruct x
  | |- quiet _ => solve [auto with quiet]
  end.

Ltac quiet_tac := repeat quiet_step.

Lemma quiet_size (a : np.ndarray) : quiet (np.size a).
Proof. unfold np.size. quiet_tac. Qed.

Lemma quiet_get (a : np.ndarray) (i : nat) : quiet (np.get a i).
Proof. unfold np.get. quiet_tac. Qed.

Lemma quiet_set (a : np.ndarray) (i : nat) (x : float) : quiet (np.set a i x).
Proof. unfold np.set. quiet_tac. Qed.

Lemma quiet_get_str (a : np.ndarray) (key : string) : quiet (np.get_str a key).
Proof. apply quiet_raise. Qed.

Lemma quiet_alloc (a : list (list float)) : quiet (np.alloc a).
Proof. by intros w. Qed.

#[export] Hint Resolve quiet_size quiet_get quiet_set quiet_get_str
  quiet_alloc : quiet.

(** ** EquilChargeStates *)

(** On specification floats: above a positive number, hence not below a
    positive number of smaller exponent. *)
Lemma SFltb_exponents (m1 m2 : positive) (e1 e2 : Z) (X : spec_float) :
  (e2 < e1)%Z ->
  SFltb (S754_finite false m1 e1) X = true ->
  SFltb X (S754_finite false m2 e2) = false.
Proof.
  intros He. unfold SFltb. destruct X as [s | s | | s m e]; simpl; try done.
  - by destruct s.
  - destruct s; [done|].
    destruct (Z.compare_spec e1 e) as [<- | Hlt | Hgt]; try done.
    + destruct (Z.compare_spec e1 e2) as [-> | Hlt' | Hgt']; [lia | lia | done].
    + destruct (Z.compare_spec e e2) as [-> | Hlt' | Hgt']; [lia | lia | done].
Qed.

(** An entry above [1.0] is not below [1e-14]. *)
Lemma above_one_not_small (x : float) :
  (1 <? x)%float = true -> (x <? 1e-14)%float = false.
Proof.
  rewrite !ltb_spec.
  replace (Prim2SF 1) with (S754_finite false 4503599627370496 (-52))
    by (vm_compute; reflexivity).
  replace (Prim2SF 1e-14) with (S754_finite false 6338253001141147 (-99))
    by (vm_compute; reflexivity).
  by apply SFltb_exponents.
Qed.

Section Equil.

Variable func_index_te : float -> list float -> Z.

Lemma EquilChargeStates_body_small (ChargeStates : np.ndarray)
    (element : string) (v : list float) (istate : nat) (x : float)
    (w : world) :
  np.buffer_row (heap w) ChargeStates = Some v ->
  v !! istate = Some x ->
  (x <? 1e-14)%float = true ->
  EquilChargeStates_body ChargeStates element istate tt w
  = (Returns tt, set_heap (np.write (heap w) ChargeStates istate 0) w).
Proof.
  intros Hv Hx Hsmall. unfold EquilChargeStates_body.
  rewrite (bind_Returns _ _ _ _ _ (np_get_Some _ _ _ _ _ Hv Hx)), Hsmall.
  apply (np_set_Some _ v); [done | by eapply lookup_lt_Some].
Qed.

Lemma EquilChargeStates_body_above_one (ChargeStates : np.ndarray)
    (element : string) (v : list float) (istate : nat) (x : float)
    (w : world) :
  np.buffer_row (heap w) ChargeStates = Some v ->
  v !! istate = Some x ->
  (1 <? x)%float = true ->
  EquilChargeStates_body ChargeStates element istate tt w
  = (Raises IndexError, w).
Proof.
  intros Hv Hx Habove. unfold EquilChargeStates_body.
  rewrite (bind_Returns _ _ _ _ _ (np_get_Some _ _ _ _ _ Hv Hx)).
  rewrite (above_one_not_small _ Habove).
  rewrite (bind_Returns _ _ _ _ _ (np_get_Some _ _ _ _ _ Hv Hx)), Habove.
  done.
Qed.

Lemma EquilChargeStates_body_kept (ChargeStates : np.ndarray)
    (element : string) (v : list float) (istate : nat) (x : float)
    (w : world) :
  np.buffer_row (heap w) ChargeStates = Some v ->
  v !! istate = Some x ->
  (x <? 1e-14)%float = false -> (1 <? x)%float = false ->
  EquilChargeStates_body ChargeStates element istate tt w = (Returns tt, w).
Proof.
  intros Hv Hx Hsmall Habove. unfold EquilChargeStates_body.
  rewrite (bind_Returns _ _ _ _ _ (np_get_Some _ _ _ _ _ Hv Hx)), Hsmall.
  by rewrite (bind_Returns _ _ _ _ _ (np_get_Some _ _ _ _ _ Hv Hx)), Habove.
Qed.

(** The loop stops with [IndexError] as soon as it meets an entry above
    [1.0]. *)
Lemma EquilChargeStates_loop_raises (ChargeStates : np.ndarray)
    (element : string) (m : nat) :
  forall (k : nat) (w : world) (v : list float),
    np.buffer_row (heap w) ChargeStates = Some v ->
    k + m = length v ->
    (exists i x, k <= i /\ v !! i = Some x /\ (1 <? x)%float = true) ->
    exists w',
      for_each (seq k m) (EquilChargeStates_body ChargeStates element) tt w
      = (Raises IndexError, w').
Proof.
  induction m as [|m IH]; intros k w v Hv Hlen (i & x & Hi & Hx & Habove).
  - apply lookup_lt_Some in Hx. lia.
  - simpl. destruct (lookup_lt_is_Some_2 v k) as [y Hy]; [lia|].
    destruct (1 <? y)%float eqn:Hy1.
    { exists w. by rewrite (bind_Raises _ _ _ _ _
          (EquilChargeStates_body_above_one _ element _ _ _ _ Hv Hy Hy1)). }
    assert (Hik : i <> k) by (intros ->; congruence).
    destruct (y <? 1e-14)%float eqn:Hy0.
    + rewrite (bind_Returns _ _ _ _ _
          (EquilChargeStates_body_small _ element _ _ _ _ Hv Hy Hy0)).
      apply (IH (S k) _ (<[k := 0%float]> v)).
      * simpl. unfold np.write. rewrite buffer_row_update.
        rewrite decide_True by done. by rewrite Hv.
      * rewrite length_insert. lia.
      * exists i, x. split; [lia|]. split; [|done].
        by rewrite list_lookup_insert_ne.
    + rewrite (bind_Returns _ _ _ _ _
          (EquilChargeStates_body_kept _ element _ _ _ _ Hv Hy Hy0 Hy1)).
      apply (IH (S k) _ v); [done | lia |].
      exists i, x. split; [lia | done].
Qed.

(** With no entry above [1.0] the body rewrites the entry by the rule. *)
Lemma EquilChargeStates_body_rule (ChargeStates : np.ndarray)
    (element : string) (v : list float) (istate : nat) (x : float)
    (w : world) :
  np.buffer_row (heap w) ChargeStates = Some v ->
  v !! istate = Some x ->
  (1 <? x)%float = false ->
  EquilChargeStates_body ChargeStates element istate tt w
  = (Returns tt,
     set_heap (np.write (heap w) ChargeStates istate (cleanup_rule x)) w).
Proof.
  intros Hv Hx Habove. unfold cleanup_rule. rewrite Habove. simpl.
  destruct (x <? 1e-14)%float eqn:Hsmall.
  - by apply (EquilChargeStates_body_small _ _ v _ x).
  - rewrite (write_same _ _ _ _ _ Hv Hx), set_heap_id.
    by apply (EquilChargeStates_body_kept _ _ v _ x).
Qed.

(** On a row with no entry above [1.0], [EquilChargeStates] returns the
    view of the row, in which the entries below [1e-14] now read [0.0] and
    the others are unchanged. *)
Lemma EquilChargeStates_returns_below_one (temperature : float)
    (element : string) (AtomicData : atomic_data) (grid v : list float)
    (a : np.ndarray) (w : world) :
  temperatures AtomicData = Some grid ->
  view_of (heap w) AtomicData (func_index_te temperature grid) element = Some a ->
  np.buffer_row (heap w) a = Some v ->
  Forall (fun x => (1 <? x)%float = false) v ->
  EquilChargeStates func_index_te temperature element (Some AtomicData) w
  = (Returns a, set_heap (np.update_row (fmap cleanup_rule) a (heap w)) w)
  /\ forall i x, v !! i = Some x ->
       cleanup_rule x = if (x <? 1e-14)%float then 0%float else x.
Proof.
  intros Hgrid Hview Hv Hall. split.
  - unfold EquilChargeStates. rewrite bind_ret.
    unfold bind at 1. rewrite Hgrid. simpl.
    unfold view_of in Hview.
    destruct (tables AtomicData !! element) as [t|] eqn:Ht; [|done].
    rewrite (bind_Returns _ _ _ _ _ (getitem_Some _ _ _ w Ht)).
    destruct (heap w !! equistate t) as [rows|] eqn:Hrows; [|done].
    destruct (np.norm_index (length rows) (func_index_te temperature grid))
      as [r|] eqn:Hr; [|done].
    injection Hview as <-.
    erewrite bind_Returns; [|unfold np.row_view; by rewrite Hrows, Hr].
    rewrite (bind_Returns _ _ _ _ _ (np_size_Some _ _ _ Hv)).
    erewrite bind_Returns.
    2:{ apply (rule_loop_from _ (np.RowView (equistate t) r)
                 (fun x => (1 <? x)%float = false) (length v))
          with (v := v); [|done|done|].
        - intros k w' v' x Hv' Hx Hgood.
          by apply (EquilChargeStates_body_rule _ _ v').
        - intros i x _ Hx.
          exact (Forall_lookup_1 (fun x => (1 <? x)%float = false) v i x Hall Hx). }
    unfold ret.
    by rewrite (update_row_ext (cleaned_from 0) (fmap cleanup_rule) _ (heap w) v
                  Hv (cleaned_from_0 v)).
  - intros i x Hx. unfold cleanup_rule.
    by rewrite (Forall_lookup_1 (fun x => (1 <? x)%float = false) v i x Hall Hx).
Qed.

(** C3, where the code departs from it: when the row looked up has an entry
    above [1.0] (in particular one in the interval the rule sends to [1.0]),
    [EquilChargeStates] does not return; it raises [IndexError]. *)
Theorem EquilChargeStates_raises_above_one (temperature : float)
    (element : string) (AtomicData : atomic_data) (grid v : list float)
    (a : np.ndarray) (i : nat) (x : float) (w : world) :
  temperatures AtomicData = Some grid ->
  view_of (heap w) AtomicData (func_index_te temperature grid) element = Some a ->
  np.buffer_row (heap w) a = Some v ->
  v !! i = Some x ->
  (1 <? x)%float = true ->
  exists w',
    EquilChargeStates func_index_te temperature element (Some AtomicData) w
    = (Raises IndexError, w').
Proof.
  intros Hgrid Hview Hv Hx Habove. unfold EquilChargeStates.
  unfold bind at 1. unfold ret at 1. unfold bind at 1.
  rewrite Hgrid. simpl.
  unfold view_of in Hview.
  destruct (tables AtomicData !! element) as [t|] eqn:Ht; [|done].
  rewrite (bind_Returns _ _ _ _ _ (getitem_Some _ _ _ w Ht)).
  destruct (heap w !! equistate t) as [rows|] eqn:Hrows; [|done].
  destruct (np.norm_index (length rows) (func_index_te temperature grid))
    as [r|] eqn:Hr; [|done].
  injection Hview as <-.
  erewrite bind_Returns; [|unfold np.row_view; by rewrite Hrows, Hr].
  rewrite (bind_Returns _ _ _ _ _ (np_size_Some _ _ _ Hv)).
  destruct (EquilChargeStates_loop_raises (np.RowView (equistate t) r)
              element (length v) 0 w v Hv eq_refl) as [w' Hloop].
  { exists i, x. split; [lia | done]. }
  exists w'. by rewrite (bind_Raises _ _ _ _ _ Hloop).
Qed.

End Equil.

Lemma EquilChargeStates_raises_above_one_witness :
  let AtomicData := hydrogen_data [4%float] in
  let w := hydrogen_world above_one_rows in
  temperatures AtomicData = Some [4%float]
  /\ view_of (heap w) AtomicData (nearest_index 4 [4%float]) "H"
     = Some (np.RowView 0 0)
  /\ np.buffer_row (heap w) (np.RowView 0 0) = Some [1.0000000001; 0]%float
  /\ [1.0000000001; 0]%float !! 0 = Some 1.0000000001%float
  /\ (1 <? 1.0000000001)%float = true
  /\ exists w',
       EquilChargeStates nearest_index 4 "H" (Some AtomicData) w
       = (Raises IndexError, w').
Proof.
  intros AtomicData w.
  split; [reflexivity|]. split; [reflexivity|]. split; [reflexivity|].
  split; [reflexivity|]. split; [reflexivity|].
  exact (EquilChargeStates_raises_above_one nearest_index 4 "H" AtomicData
           [4%float] [1.0000000001; 0]%float (np.RowView 0 0) 0
           1.0000000001%float w eq_refl eq_refl eq_refl eq_refl eq_refl).
Defined.

(** On the same table the initialiser clamps the entry and returns. *)
Example create_clamps_above_one :
  exists cs w',
    create_ChargeStates_dictionary nearest_index ["H"%string] 4
      (Some (hydrogen_data [4%float])) (hydrogen_world above_one_rows)
    = (Returns cs, w')
    /\ cs !! "H"%string = Some (np.RowView 0 0)
    /\ np.buffer_row (heap w') (np.RowView 0 0) = Some [1; 0]%float.
Proof.
  eexists _, _. split; [vm_compute; reflexivity|].
  split; vm_compute; reflexivity.
Qed.

Example EquilChargeStates_above_one :
  EquilChargeStates nearest_index 4 "H" (Some (hydrogen_data [4%float]))
    (hydrogen_world above_one_rows)
  = (Raises IndexError, hydrogen_world above_one_rows).
Proof. vm_compute. reflexivity. Qed.

(** ** Which files a call opens *)

Lemma quiet_reshape2 (v : list float) (n0 : Z) (n1 : nat) :
  quiet (np.reshape2 v n0 n1).
Proof. unfold np.reshape2. quiet_tac. Qed.

Lemma quiet_reshape3 (v : list float) (n0 : Z) (n1 n2 : nat) :
  quiet (np.reshape3 v n0 n1 n2).
Proof. unfold np.reshape3. quiet_tac. Qed.

Lemma quiet_read_ints (H : list record) : quiet (FortranFile.read_ints H).
Proof. unfold FortranFile.read_ints. quiet_tac. Qed.

Lemma quiet_read_reals (H : list record) : quiet (FortranFile.read_reals H).
Proof. unfold FortranFile.read_reals. quiet_tac. Qed.

Lemma quiet_unpack2 (ints : list Z) : quiet (unpack2 ints).
Proof. unfold unpack2. quiet_tac. Qed.

Lemma quiet_allclose (a b : list float) : quiet (np.allclose a b).
Proof. unfold np.allclose. quiet_tac. Qed.

#[export] Hint Resolve quiet_reshape2 quiet_reshape3 quiet_read_ints
  quiet_read_reals quiet_unpack2 quiet_allclose : quiet.

Lemma quiet_adopt_or_check (element : string) (f : element_file)
    (st : atomic_data * bool) : quiet (adopt_or_check element f st).
Proof. unfold adopt_or_check. quiet_tac. Qed.

Lemma opens_bind {A B} (filename : string) (m : M A) (k : A -> M B) :
  opens filename m -> (forall a, quiet (k a)) -> opens filename (bind m k).
Proof.
  intros Hm Hk w. unfold bind. specialize (Hm w).
  destruct (m w) as [[a|e] w1]; simpl in *; [|done].
  destruct (Hk a w1) as [Hf Ho]. destruct Hm as [Hf1 Ho1].
  by rewrite Hf, Ho, Hf1, Ho1.
Qed.

Lemma opens_open (filename : string) : opens filename (FortranFile.open filename).
Proof.
  intros w. unfold FortranFile.open. by destruct (files w !! filename).
Qed.

Lemma opens_read_element_file (filename : string) (n : nat) :
  opens filename (read_element_file filename n).
Proof.
  unfold read_element_file. apply opens_bind; [apply opens_open|].
  intros H. unfold parse_element_file. quiet_tac.
Qed.

Lemma opens_read_atomic_data_body (data_directory element : string) (Z : nat)
    (st : atomic_data * bool) :
  AtomicNumbers !! element = Some Z ->
  opens (eigen_filename data_directory element)
    (read_atomic_data_body data_directory element st).
Proof.
  intros HZ w. unfold read_atomic_data_body.
  rewrite (bind_Returns _ _ _ _ _ (getitem_Some _ _ _ w HZ)).
  revert w. apply opens_bind; [apply opens_read_element_file|].
  intros f. pose proof (quiet_adopt_or_check element f st). quiet_tac.
Qed.

Lemma opens_read_atomic_data_one (element : string) (Z : nat) :
  AtomicNumbers !! element = Some Z ->
  opens (eigen_filename default_data_directory element)
    (read_atomic_data [element]).
Proof.
  intros HZ. unfold read_atomic_data, read_atomic_data_in. simpl.
  apply opens_bind; [|intros [ad first]; quiet_tac].
  apply opens_bind; [by eapply opens_read_atomic_data_body|].
  intros st. quiet_tac.
Qed.

Section Absent.

Variable func_index_te : float -> list float -> Z.

Lemma quiet_EquilChargeStates_body (ChargeStates : np.ndarray)
    (element : string) (istate : nat) (u : unit) :
  quiet (EquilChargeStates_body ChargeStates element istate u).
Proof. unfold EquilChargeStates_body. quiet_tac. Qed.

(** With a dictionary in hand the lookup opens no file. *)
Lemma quiet_EquilChargeStates (temperature : float) (element : string)
    (AtomicData : atomic_data) :
  quiet (EquilChargeStates func_index_te temperature element (Some AtomicData)).
Proof.
  unfold EquilChargeStates.
  pose proof quiet_EquilChargeStates_body. quiet_tac.
Qed.

(** C2, as amended: [EquilChargeStates] does fall back to loading.  Called
    without [AtomicData] it runs [read_atomic_data([element])], which opens
    the element's file, and goes on with what was loaded: its outcome is
    that of the call with the loaded dictionary, or the loader's own
    exception.  Called with a dictionary it opens no file, and a dictionary
    without the temperature grid or without the element raises [KeyError]. *)
Theorem EquilChargeStates_loads_when_absent (temperature : float)
    (element : string) (Z : nat) (w : world) :
  AtomicNumbers !! element = Some Z ->
  (forall r w',
     EquilChargeStates func_index_te temperature element None w = (r, w') ->
     opened w' = opened w ++ [eigen_filename default_data_directory element])
  /\ (forall ad w1,
        read_atomic_data [element] w = (Returns ad, w1) ->
        EquilChargeStates func_index_te temperature element None w
        = EquilChargeStates func_index_te temperature element (Some ad) w1)
  /\ (forall e w1,
        read_atomic_data [element] w = (Raises e, w1) ->
        EquilChargeStates func_index_te temperature element None w
        = (Raises e, w1))
  /\ (forall ad r w',
        EquilChargeStates func_index_te temperature element (Some ad) w
        = (r, w') ->
        opened w' = opened w)
  /\ (forall ad,
        temperatures ad = None ->
        EquilChargeStates func_index_te temperature element (Some ad) w
        = (Raises (KeyError "temperatures"), w))
  /\ (forall ad grid,
        temperatures ad = Some grid -> tables ad !! element = None ->
        EquilChargeStates func_index_te temperature element (Some ad) w
        = (Raises (KeyError element), w)).
Proof.
  intros HZ.
  assert (Hload : forall ad w1,
             read_atomic_data [element] w = (Returns ad, w1) ->
             EquilChargeStates func_index_te temperature element None w
             = EquilChargeStates func_index_te temperature element (Some ad) w1).
  { intros ad w1 Hread. unfold EquilChargeStates.
    by rewrite (bind_Returns _ _ _ _ _ Hread). }
  assert (Hfail : forall e w1,
             read_atomic_data [element] w = (Raises e, w1) ->
             EquilChargeStates func_index_te temperature element None w
             = (Raises e, w1)).
  { intros e w1 Hread. unfold EquilChargeStates.
    by rewrite (bind_Raises _ _ _ _ _ Hread). }
  split; [|split; [exact Hload | split; [exact Hfail | split; [|split]]]].
  - intros r w' Hrun.
    destruct (opens_read_atomic_data_one element Z HZ w) as [_ Hopened].
    destruct (read_atomic_data [element] w) as [[ad|e] w1] eqn:Hread;
      simpl in Hopened.
    + rewrite (Hload _ _ eq_refl) in Hrun.
      destruct (quiet_EquilChargeStates temperature element ad w1) as [_ Ho].
      rewrite Hrun in Ho. simpl in Ho. by rewrite Ho.
    + rewrite (Hfail _ _ eq_refl) in Hrun. by injection Hrun as <- <-.
  - intros ad r w' Hrun.
    destruct (quiet_EquilChargeStates temperature element ad w) as [_ Ho].
    by rewrite Hrun in Ho.
  - intros ad Hgrid. unfold EquilChargeStates.
    unfold bind at 1. unfold ret at 1. unfold bind at 1. by rewrite Hgrid.
  - intros ad grid Hgrid Htable. unfold EquilChargeStates.
    unfold bind at 1. unfold ret at 1. unfold bind at 1. rewrite Hgrid. simpl.
    by rewrite (bind_Raises _ _ _ _ _ (getitem_None _ _ w Htable)).
Qed.

End Absent.

Lemma EquilChargeStates_loads_when_absent_witness :
  AtomicNumbers !! "H"%string = Some 1
  /\ (forall r w',
        EquilChargeStates nearest_index 5.2 "H" None disk_world = (r, w') ->
        opened w' = opened disk_world
                    ++ [eigen_filename default_data_directory "H"])
  /\ (forall ad w1,
        read_atomic_data ["H"%string] disk_world = (Returns ad, w1) ->
        EquilChargeStates nearest_index 5.2 "H" None disk_world
        = EquilChargeStates nearest_index 5.2 "H" (Some ad) w1)
  /\ (forall e w1,
        read_atomic_data ["H"%string] disk_world = (Raises e, w1) ->
        EquilChargeStates nearest_index 5.2 "H" None disk_world
        = (Raises e, w1))
  /\ (forall ad r w',
        EquilChargeStates nearest_index 5.2 "H" (Some ad) disk_world
        = (r, w') ->
        opened w' = opened disk_world)
  /\ (forall ad,
        temperatures ad = None ->
        EquilChargeStates nearest_index 5.2 "H" (Some ad) disk_world
        = (Raises (KeyError "temperatures"), disk_world))
  /\ (forall ad grid,
        temperatures ad = Some grid -> tables ad !! "H"%string = None ->
        EquilChargeStates nearest_index 5.2 "H" (Some ad) disk_world
        = (Raises (KeyError "H"), disk_world)).
Proof.
  split; [reflexivity|].
  exact (EquilChargeStates_loads_when_absent nearest_index 5.2 "H" 1
           disk_world eq_refl).
Defined.

(** C2, as stated, fails: called without [AtomicData] on a disk that holds
    the hydrogen file, [EquilChargeStates] opens that file and returns a
    distribution; no exception is raised. *)
Lemma EquilChargeStates_absent_returns :
  exists a w',
    EquilChargeStates nearest_index 5.2 "H" None disk_world = (Returns a, w')
    /\ opened disk_world = []
    /\ opened w' = ["sunnei/AtomicData/heigen.dat"%string]
    /\ np.buffer_row (heap w') a = Some [0.999999999991; 0]%float.
Proof.
  eexists _, _. split; [vm_compute; reflexivity|].
  split; [reflexivity|]. split; vm_compute; reflexivity.
Qed.

(** ** Computations that do not depend on the world *)

Lemma stateless_ret {A} (a : A) : stateless (ret a).
Proof. by intros w1 w2. Qed.

Lemma stateless_raise {A} (e : exn) : stateless (raise (A:=A) e).
Proof. by intros w1 w2. Qed.

Lemma stateless_bind {A B} (m : M A) (k : A -> M B) :
  stateless m -> (forall a, stateless (k a)) -> stateless (bind m k).
Proof.
  intros Hm Hk w1 w2. unfold bind.
  destruct (Hm w1 w2) as [Hfst Hsnd1]. destruct (Hm w2 w2) as [_ Hsnd2].
  destruct (m w1) as [[a|e] w1'], (m w2) as [[a'|e'] w2']; simpl in *;
    subst; try done.
  - injection Hfst as <-. apply Hk.
  - by injection Hfst as <-.
Qed.

Lemma stateless_of_option {A} (o : option A) (e : exn) :
  stateless (of_option o e).
Proof. destruct o; [apply stateless_ret | apply stateless_raise]. Qed.

Lemma stateless_assert (b : bool) (msg : string) : stateless (assert b msg).
Proof. destruct b; [apply stateless_ret | apply stateless_raise]. Qed.

Create HintDb stateless.
#[export] Hint Resolve stateless_ret stateless_raise stateless_of_option
  stateless_assert : stateless.

Ltac stateless_step :=
  match goal with
  | |- stateless (bind _ _) => apply stateless_bind; [|intros ?]
  | |- stateless (if ?b then _ else _) => destruct b
  | |- stateless (match ?x with _ => _ end) => destruct x
  | |- stateless _ => solve [auto with stateless]
  end.

Ltac stateless_tac := repeat stateless_step.

Lemma stateless_parse_element_file (H : list record) (nstates : nat) :
  stateless (parse_element_file H nstates).
Proof.
  unfold parse_element_file, FortranFile.read_ints, FortranFile.read_reals,
    unpack2, np.reshape2, np.reshape3.
  stateless_tac.
Qed.

(** ** read_atomic_data *)

(** What a file reads as depends on the disk alone; reading logs the
    opening. *)
Lemma read_element_file_run (filename : string) (nstates : nat) (w : world) :
  snd (read_element_file filename nstates w) = log_open filename w.
Proof.
  unfold read_element_file, bind, FortranFile.open.
  destruct (files w !! filename) as [H|]; [|done].
  destruct (stateless_parse_element_file H nstates (log_open filename w)
              (log_open filename w)) as [_ Hsnd].
  by destruct (parse_element_file H nstates (log_open filename w)) as [[f|e] w'].
Qed.

Lemma read_element_file_files (filename : string) (nstates : nat)
    (w1 w2 : world) :
  files w1 = files w2 ->
  fst (read_element_file filename nstates w1)
  = fst (read_element_file filename nstates w2).
Proof.
  intros Hfiles. unfold read_element_file, bind, FortranFile.open.
  rewrite Hfiles. destruct (files w2 !! filename) as [H|]; [|done].
  destruct (stateless_parse_element_file H nstates (log_open filename w1)
              (log_open filename w2)) as [Hfst _].
  destruct (parse_element_file H nstates (log_open filename w1)) as [[f1|e1] w1'],
    (parse_element_file H nstates (log_open filename w2)) as [[f2|e2] w2'];
    simpl in *; congruence.
Qed.

Lemma loads_files (data_directory : string) (w1 w2 : world)
    (element : string) (f : element_file) :
  files w1 = files w2 ->
  loads data_directory w1 element f -> loads data_directory w2 element f.
Proof.
  intros Hfiles (Z & HZ & Hread & Hlen). exists Z. split; [done|].
  split; [|done]. by rewrite <- (read_element_file_files _ _ w1 w2).
Qed.

Lemma consistent_true (f0 f : element_file) :
  consistent f0 f = true <->
  f_nte f = f_nte f0 /\ f_nelems f = f_nelems f0
  /\ np.all_isclose (f_temperatures f0) (f_temperatures f) = true.
Proof.
  unfold consistent. rewrite !andb_true_iff, !Z.eqb_eq. tauto.
Qed.

Lemma consistent_false (f0 f : element_file) :
  consistent f0 f = false <->
  f_nte f <> f_nte f0 \/ f_nelems f <> f_nelems f0
  \/ np.all_isclose (f_temperatures f0) (f_temperatures f) = false.
Proof.
  unfold consistent. rewrite !andb_false_iff, !Z.eqb_neq. tauto.
Qed.

(** The check of a later element against the adopted values. *)
Lemma adopt_or_check_later (element : string) (f0 f : element_file)
    (ad : atomic_data) (w : world) :
  nte ad = Some (f_nte f0) ->
  nelems ad = Some (f_nelems f0) ->
  temperatures ad = Some (f_temperatures f0) ->
  Z.of_nat (length (f_temperatures f0)) = f_nte f0 ->
  Z.of_nat (length (f_temperatures f)) = f_nte f ->
  adopt_or_check element f (ad, false) w
  = if consistent f0 f then (Returns (ad, false), w)
    else (Raises (AssertionError (grid_error f0 f element)), w).
Proof.
  intros Hnte Hnelems Htemps Hlen0 Hlen.
  unfold adopt_or_check, consistent, grid_error.
  rewrite Hnte, Hnelems, Htemps. unfold of_option.
  unfold bind at 1. unfold ret at 1.
  destruct (f_nte f =? f_nte f0)%Z eqn:Hn; simpl; [|done].
  unfold bind at 1. unfold ret at 1. unfold bind at 1. unfold ret at 1.
  destruct (f_nelems f =? f_nelems f0)%Z eqn:Hm; simpl; [|done].
  unfold bind at 1. unfold ret at 1. unfold bind at 1. unfold ret at 1.
  unfold np.allclose. apply Z.eqb_eq in Hn.
  rewrite decide_True by lia.
  unfold bind at 1. unfold ret at 1.
  by destruct (np.all_isclose (f_temperatures f0) (f_temperatures f)).
Qed.

(** One pass of the loop for a later element. *)
Lemma read_atomic_data_body_later (data_directory element : string)
    (f0 f : element_file) (ad : atomic_data) (w : world) :
  nte ad = Some (f_nte f0) ->
  nelems ad = Some (f_nelems f0) ->
  temperatures ad = Some (f_temperatures f0) ->
  Z.of_nat (length (f_temperatures f0)) = f_nte f0 ->
  loads data_directory w element f ->
  if consistent f0 f
  then exists ad' w',
      read_atomic_data_body data_directory element (ad, false) w
      = (Returns (ad', false), w')
      /\ files w' = files w
      /\ nte ad' = nte ad /\ nelems ad' = nelems ad
      /\ temperatures ad' = temperatures ad
      /\ is_Some (tables ad' !! element)
      /\ (forall e, is_Some (tables ad !! e) -> is_Some (tables ad' !! e))
  else exists w',
      read_atomic_data_body data_directory element (ad, false) w
      = (Raises (AssertionError (grid_error f0 f element)), w').
Proof.
  intros Hnte Hnelems Htemps Hlen0 (Z & HZ & Hread & Hlen).
  unfold read_atomic_data_body.
  rewrite (bind_Returns _ _ _ _ _ (getitem_Some _ _ _ w HZ)).
  pose proof (read_element_file_run
                (eigen_filename data_directory element) (Z + 1) w) as Hsnd.
  destruct (read_element_file (eigen_filename data_directory element)
              (Z + 1) w) as [r w1] eqn:Hrun.
  simpl in Hread, Hsnd. subst r w1.
  rewrite (bind_Returns _ _ _ _ _ Hrun).
  pose proof (adopt_or_check_later element f0 f ad
                (log_open (eigen_filename data_directory element) w)
                Hnte Hnelems Htemps Hlen0 Hlen) as Hcheck.
  destruct (consistent f0 f).
  - rewrite (bind_Returns _ _ _ _ _ Hcheck).
    eexists _, _. split; [reflexivity|]. simpl.
    split; [done|]. split; [done|]. split; [done|]. split; [done|].
    split; [by rewrite lookup_insert_eq|].
    intros e He. destruct (decide (element = e)) as [->|Hne].
    + by rewrite lookup_insert_eq.
    + by rewrite lookup_insert_ne.
  - eexists. by rewrite (bind_Raises _ _ _ _ _ Hcheck).
Qed.

(** The loop over the later elements, the first element's values adopted. *)
Lemma read_atomic_data_later (data_directory : string) (f0 : element_file)
    (file_of : string -> element_file) (rest : list string) :
  Z.of_nat (length (f_temperatures f0)) = f_nte f0 ->
  forall (ad : atomic_data) (w : world),
    nte ad = Some (f_nte f0) ->
    nelems ad = Some (f_nelems f0) ->
    temperatures ad = Some (f_temperatures f0) ->
    (forall e, e ∈ rest -> loads data_directory w e (file_of e)) ->
    (Forall (fun e => consistent f0 (file_of e) = true) rest ->
     exists ad' w',
       for_each rest (read_atomic_data_body data_directory) (ad, false) w
       = (Returns (ad', false), w')
       /\ nte ad' = nte ad /\ nelems ad' = nelems ad
       /\ temperatures ad' = temperatures ad
       /\ (forall e, e ∈ rest -> is_Some (tables ad' !! e))
       /\ (forall e, is_Some (tables ad !! e) -> is_Some (tables ad' !! e)))
    /\ (forall pre e post,
          rest = pre ++ e :: post ->
          Forall (fun e => consistent f0 (file_of e) = true) pre ->
          consistent f0 (file_of e) = false ->
          exists w',
            for_each rest (read_atomic_data_body data_directory) (ad, false) w
            = (Raises (AssertionError (grid_error f0 (file_of e) e)), w')).
Proof.
  intros Hlen0. induction rest as [|e1 rest IH];
    intros ad w Hnte Hnelems Htemps Hloads.
  - split.
    + intros _. exists ad, w. split; [done|]. split; [done|].
      split; [done|]. split; [done|]. split; [|done].
      intros e He. by apply elem_of_nil in He.
    + intros pre e post Heq. by destruct pre.
  - pose proof (read_atomic_data_body_later data_directory e1 f0 (file_of e1)
                  ad w Hnte Hnelems Htemps Hlen0
                  (Hloads e1 ltac:(by left))) as Hbody.
    split.
    + intros Hall. apply Forall_cons in Hall as [Hc1 Hall].
      rewrite Hc1 in Hbody.
      destruct Hbody as (ad1 & w1 & Hrun & Hfiles & Hn1 & Hm1 & Ht1 & Hin1 & Hkeep1).
      destruct (IH ad1 w1) as [Hok _]; try congruence.
      { intros e He. apply (loads_files _ w); [done|]. apply Hloads. by right. }
      destruct (Hok Hall) as (ad' & w' & Hrest & Hn & Hm & Ht & Hin & Hkeep).
      exists ad', w'. simpl. rewrite (bind_Returns _ _ _ _ _ Hrun).
      split; [done|]. split; [congruence|]. split; [congruence|].
      split; [congruence|]. split; [|by auto].
      intros e [->|He]%elem_of_cons; [by apply Hkeep | by apply Hin].
    + intros pre e post Heq Hpre Hbad. simpl.
      destruct pre as [|e1' pre]; simpl in Heq; injection Heq as <- Heq.
      * rewrite Hbad in Hbody. destruct Hbody as [w' Hrun].
        exists w'. by rewrite (bind_Raises _ _ _ _ _ Hrun).
      * apply Forall_cons in Hpre as [Hc1 Hpre].
        rewrite Hc1 in Hbody.
        destruct Hbody as (ad1 & w1 & Hrun & Hfiles & Hn1 & Hm1 & Ht1 & _).
        rewrite (bind_Returns _ _ _ _ _ Hrun).
        destruct (IH ad1 w1) as [_ Hfail]; try congruence.
        { intros e' He'. apply (loads_files _ w); [done|]. apply Hloads.
          by right. }
        by apply (Hfail pre e post).
Qed.

Lemma first_inconsistent {A} (P : A -> bool) (l : list A) :
  (exists x, x ∈ l /\ P x = false) ->
  exists pre x post,
    l = pre ++ x :: post /\ Forall (fun y => P y = true) pre /\ P x = false.
Proof.
  induction l as [|y l IH]; intros (x & Hx & HP).
  - by apply elem_of_nil in Hx.
  - destruct (P y) eqn:Hy.
    + destruct IH as (pre & x' & post & -> & Hpre & HP').
      { exists x. apply elem_of_cons in Hx as [->|Hx]; [congruence | done]. }
      exists (y :: pre), x', post. split; [done|]. split; [|done].
      by apply Forall_cons.
    + by exists [], y, l.
Qed.

(** C6: when every requested file reads, the loader succeeds exactly when
    the values of every later element agree with those of the first, which
    it stores at top level; otherwise it stops at the first later element
    whose grid length, element count or temperature grid (by [np.allclose])
    disagrees, with the assertion error of that test. *)
Theorem read_atomic_data_grid_check (data_directory : string)
    (e0 : string) (rest : list string) (file_of : string -> element_file)
    (w : world) :
  (forall e, e ∈ e0 :: rest -> loads data_directory w e (file_of e)) ->
  (Forall (fun e => consistent (file_of e0) (file_of e) = true) rest ->
   exists ad w',
     read_atomic_data_in data_directory (e0 :: rest) w = (Returns ad, w')
     /\ nte ad = Some (f_nte (file_of e0))
     /\ nelems ad = Some (f_nelems (file_of e0))
     /\ temperatures ad = Some (f_temperatures (file_of e0))
     /\ forall e, e ∈ e0 :: rest -> is_Some (tables ad !! e))
  /\ (forall pre e post,
        rest = pre ++ e :: post ->
        Forall (fun e' => consistent (file_of e0) (file_of e') = true) pre ->
        f_nte (file_of e) <> f_nte (file_of e0)
        \/ f_nelems (file_of e) <> f_nelems (file_of e0)
        \/ np.all_isclose (f_temperatures (file_of e0))
             (f_temperatures (file_of e)) = false ->
        exists w',
          read_atomic_data_in data_directory (e0 :: rest) w
          = (Raises (AssertionError (grid_error (file_of e0) (file_of e) e)),
             w'))
  /\ ((exists e, e ∈ rest /\ consistent (file_of e0) (file_of e) = false) ->
      exists e w',
        e ∈ rest /\ consistent (file_of e0) (file_of e) = false
        /\ read_atomic_data_in data_directory (e0 :: rest) w
           = (Raises (AssertionError (grid_error (file_of e0) (file_of e) e)),
              w')).
Proof.
  intros Hloads.
  destruct (Hloads e0 ltac:(by left)) as (Z0 & HZ0 & Hread0 & Hlen0).
  pose proof (read_element_file_run
                (eigen_filename data_directory e0) (Z0 + 1) w) as Hsnd.
  destruct (read_element_file (eigen_filename data_directory e0)
              (Z0 + 1) w) as [r w1] eqn:Hrun0.
  simpl in Hread0, Hsnd. subst r w1.
  set (f0 := file_of e0) in *.
  set (ad1 := set_table e0
                (ElementData e0 Z0 (Z0 + 1)
                   (length (heap w)) (f_eigenvalues f0) (f_eigenvector f0)
                   (f_eigenvector_inv f0) (f_c_rate f0) (f_r_rate f0))
                (AtomicData (Some (f_nte f0)) (Some (f_nelems f0))
                   (Some (f_temperatures f0)) ∅)).
  set (w1 := set_heap (heap w ++ [f_equistate f0])
               (log_open (eigen_filename data_directory e0) w)).
  assert (Hfirst : read_atomic_data_body data_directory e0
                     (empty_atomic_data, true) w = (Returns (ad1, false), w1)).
  { unfold read_atomic_data_body.
    rewrite (bind_Returns _ _ _ _ _ (getitem_Some _ _ _ w HZ0)).
    by rewrite (bind_Returns _ _ _ _ _ Hrun0). }
  destruct (read_atomic_data_later data_directory f0 file_of rest Hlen0
              ad1 w1 eq_refl eq_refl eq_refl) as [Hok Hfail].
  { intros e He. apply (loads_files _ w); [done|]. apply Hloads. by right. }
  assert (Hfail' : forall pre e post,
             rest = pre ++ e :: post ->
             Forall (fun e' => consistent f0 (file_of e') = true) pre ->
             consistent f0 (file_of e) = false ->
             exists w',
               read_atomic_data_in data_directory (e0 :: rest) w
               = (Raises (AssertionError (grid_error f0 (file_of e) e)), w')).
  { intros pre e post Heq Hpre Hbad.
    destruct (Hfail pre e post Heq Hpre Hbad) as [w' Hrest].
    exists w'. unfold read_atomic_data_in. simpl.
    erewrite bind_Raises; [done|].
    by rewrite (bind_Returns _ _ _ _ _ Hfirst). }
  split; [|split].
  - intros Hall. destruct (Hok Hall) as (ad & w' & Hrest & Hn & Hm & Ht & Hin & Hkeep).
    exists ad, w'. unfold read_atomic_data_in. simpl.
    erewrite bind_Returns;
      [|by rewrite (bind_Returns _ _ _ _ _ Hfirst)].
    split; [done|]. split; [by rewrite Hn|]. split; [by rewrite Hm|].
    split; [by rewrite Ht|].
    intros e [->|He]%elem_of_cons; [|by apply Hin].
    apply Hkeep. subst ad1. simpl. by rewrite lookup_insert_eq.
  - intros pre e post Heq Hpre Hbad.
    apply (Hfail' pre e post Heq Hpre). by apply consistent_false.
  - intros Hex.
    destruct (first_inconsistent (fun e => consistent f0 (file_of e)) rest Hex)
      as (pre & e & post & Heq & Hpre & Hbad).
    destruct (Hfail' pre e post Heq Hpre Hbad) as [w' Hrun].
    exists e, w'. split; [|done]. rewrite Heq. apply elem_of_app. right. by left.
Qed.

Lemma read_atomic_data_grid_check_witness :
  let w := two_files (helium_file [4; 5.1]%float 1) in
  let file_of := file_in "data" w in
  (forall e, e ∈ ["H"; "He"]%string -> loads "data" w e (file_of e))
  /\ (Forall (fun e => consistent (file_of "H"%string) (file_of e) = true)
        ["He"%string] ->
      exists ad w',
        read_atomic_data_in "data" ["H"; "He"]%string w = (Returns ad, w')
        /\ nte ad = Some (f_nte (file_of "H"%string))
        /\ nelems ad = Some (f_nelems (file_of "H"%string))
        /\ temperatures ad = Some (f_temperatures (file_of "H"%string))
        /\ forall e, e ∈ ["H"; "He"]%string -> is_Some (tables ad !! e))
  /\ (forall pre e post,
        ["He"%string] = pre ++ e :: post ->
        Forall (fun e' => consistent (file_of "H"%string) (file_of e') = true)
          pre ->
        f_nte (file_of e) <> f_nte (file_of "H"%string)
        \/ f_nelems (file_of e) <> f_nelems (file_of "H"%string)
        \/ np.all_isclose (f_temperatures (file_of "H"%string))
             (f_temperatures (file_of e)) = false ->
        exists w',
          read_atomic_data_in "data" ["H"; "He"]%string w
          = (Raises (AssertionError
                       (grid_error (file_of "H"%string) (file_of e) e)), w'))
  /\ ((exists e, e ∈ ["He"%string]
                 /\ consistent (file_of "H"%string) (file_of e) = false) ->
      exists e w',
        e ∈ ["He"%string]
        /\ consistent (file_of "H"%string) (file_of e) = false
        /\ read_atomic_data_in "data" ["H"; "He"]%string w
           = (Raises (AssertionError
                        (grid_error (file_of "H"%string) (file_of e) e)), w')).
Proof.
  intros w file_of.
  assert (Hloads : forall e, e ∈ ["H"; "He"]%string ->
                             loads "data" w e (file_of e)).
  { intros e [->|[->|He]%elem_of_cons]%elem_of_cons.
    - exists 1. split; [reflexivity|]. split; vm_compute; reflexivity.
    - exists 2. split; [reflexivity|]. split; vm_compute; reflexivity.
    - by apply elem_of_nil in He. }
  split; [exact Hloads|].
  exact (read_atomic_data_grid_check "data" "H" ["He"%string] file_of w Hloads).
Defined.

(** Two grids of equal length: a difference within the tolerance of
    [np.allclose] is accepted, a larger one is refused, and so is a
    different element count. *)
Example grids_within_tolerance :
  exists ad w',
    read_atomic_data_in "data" ["H"; "He"]%string
      (two_files (helium_file [4; 5.00001]%float 1)) = (Returns ad, w')
    /\ temperatures ad = Some [4; 5]%float.
Proof. eexists _, _. split; vm_compute; reflexivity. Qed.

Example grids_beyond_tolerance :
  fst (read_atomic_data_in "data" ["H"; "He"]%string
         (two_files (helium_file [4; 5.1]%float 1)))
  = Raises (AssertionError "Atomic data files have different temperature bins").
Proof. vm_compute. reflexivity. Qed.

Example element_counts_differ :
  fst (read_atomic_data_in "data" ["H"; "He"]%string
         (two_files (helium_file [4; 5]%float 2)))
  = Raises (AssertionError
              "Atomic data files have different number of elements: He").
Proof. vm_compute. reflexivity. Qed.

(** ** ReformatChargeStateList *)

(** The row assignment: accepted exactly when the distribution fits. *)
Lemma broadcast_take (ncharge : nat) (dist : list float) (w : world) :
  0 < ncharge ->
  broadcast_to ncharge (take ncharge dist) w
  = if fits ncharge dist then (Returns (row_of ncharge dist), w)
    else (Raises ValueError, w).
Proof.
  intros Hpos. unfold broadcast_to, fits, row_of.
  rewrite length_take.
  destruct (decide (ncharge <= length dist)) as [Hle|Hgt].
  - rewrite decide_True by lia.
    by replace (ncharge <=? length dist) with true
      by (symmetry; by apply Nat.leb_le).
  - rewrite decide_False by lia.
    replace (ncharge <=? length dist) with false
      by (symmetry; apply Nat.leb_gt; lia).
    rewrite take_ge by lia. simpl.
    destruct dist as [|x [|y dist]]; simpl; done.
Qed.

Lemma reformat_step_run (ChargeStateList : list (gmap string (list float)))
    (element : string) (ncharge istep : nat) (dest : list (list float))
    (step : gmap string (list float)) (dist : list float) (w : world) :
  0 < ncharge ->
  ChargeStateList !! istep = Some step ->
  step !! element = Some dist ->
  reformat_step ChargeStateList element ncharge istep dest w
  = if fits ncharge dist
    then (Returns (<[istep := row_of ncharge dist]> dest), w)
    else (Raises ValueError, w).
Proof.
  intros Hpos Hstep Hdist. unfold reformat_step.
  rewrite Hstep. unfold of_option. unfold bind at 1. unfold ret at 1.
  rewrite (bind_Returns _ _ _ _ _ (getitem_Some _ _ _ w Hdist)).
  unfold bind. rewrite (broadcast_take _ _ _ Hpos).
  by destruct (fits ncharge dist).
Qed.

(** The loop over the steps for one element: either every distribution
    fits and each row is stored, or one does not and [ValueError] is
    raised. *)
Lemma reformat_steps (ChargeStateList : list (gmap string (list float)))
    (element : string) (ncharge : nat) (w : world) (m : nat) :
  0 < ncharge ->
  forall (k : nat) (dest : list (list float)),
    k + m <= length dest ->
    (forall istep, k <= istep < k + m ->
       exists step dist, ChargeStateList !! istep = Some step
                         /\ step !! element = Some dist) ->
    (exists dest',
       for_each (seq k m) (reformat_step ChargeStateList element ncharge)
         dest w = (Returns dest', w)
       /\ length dest' = length dest
       /\ (forall i, i < k -> dest' !! i = dest !! i)
       /\ forall istep step dist,
            k <= istep < k + m ->
            ChargeStateList !! istep = Some step ->
            step !! element = Some dist ->
            fits ncharge dist = true
            /\ dest' !! istep = Some (row_of ncharge dist))
    \/ (for_each (seq k m) (reformat_step ChargeStateList element ncharge)
          dest w = (Raises ValueError, w)
        /\ exists istep step dist,
             k <= istep < k + m
             /\ ChargeStateList !! istep = Some step
             /\ step !! element = Some dist
             /\ fits ncharge dist = false).
Proof.
  intros Hpos. induction m as [|m IH]; intros k dest Hlen Hkeys.
  - left. exists dest. split; [done|]. split; [done|]. split; [done|].
    intros; lia.
  - destruct (Hkeys k ltac:(lia)) as (step & dist & Hstep & Hdist).
    simpl. pose proof (reformat_step_run ChargeStateList element ncharge k
                         dest step dist w Hpos Hstep Hdist) as Hrun.
    destruct (fits ncharge dist) eqn:Hfits.
    + rewrite (bind_Returns _ _ _ _ _ Hrun).
      destruct (IH (S k) (<[k := row_of ncharge dist]> dest)) as
        [(dest' & Hrest & Hlen' & Hframe & Hrows)
        | (Hrest & (i & s & d & Hi & Hs & Hd & Hbad))].
      { rewrite length_insert. lia. }
      { intros istep Hi. apply Hkeys. lia. }
      * left. exists dest'. split; [done|].
        split; [by rewrite Hlen', length_insert|]. split.
        { intros i Hi. rewrite Hframe by lia.
          apply list_lookup_insert_ne. lia. }
        intros istep step' dist' Hi Hstep' Hdist'.
        destruct (decide (istep = k)) as [->|Hne].
        -- assert (step' = step) as -> by congruence.
           assert (dist' = dist) as -> by congruence.
           split; [done|]. rewrite Hframe by lia.
           apply list_lookup_insert_eq. lia.
        -- apply (Hrows istep step' dist'); [lia | done | done].
      * right. split; [done|]. exists i, s, d. split; [lia | done].
    + right. rewrite (bind_Raises _ _ _ _ _ Hrun). split; [done|].
      exists k, step, dist. split; [lia | done].
Qed.



Section Reformat.

Variable ChargeStateList : list (gmap string (list float)).
Variable nsteps : Z.
Variable w : world.

Hypothesis nsteps_ok : (0 <= nsteps + 1)%Z.




End Reformat.


(** The three-step hydrogen series of the specification is stacked row by
    row. *)
Example reformat_three_steps :
  fst (ReformatChargeStateList
         [ {[ "H"%string := [1; 0]%float ]};
           {[ "H"%string := [0.5; 0.5]%float ]};
           {[ "H"%string := [0; 1]%float ]} ] ["H"%string] 2 empty_world)
  = Returns {[ "H"%string := [[1; 0]; [0.5; 0.5]; [0; 1]]%float ]}.
Proof. vm_compute. reflexivity. Qed.


(** * Further properties of the module *)

(** ** The registry *)

Lemma registry_positions (i : nat) (e : string) :
  element_symbols !! i = Some e -> AtomicNumbers !! e = Some (i + 1).
Proof.
  unfold element_symbols.
  do 28 (destruct i as [|i]; [intros [= <-]; vm_compute; reflexivity|]).
  done.
Qed.

Lemma registry_lookup (e : string) (Z : nat) :
  AtomicNumbers !! e = Some Z ->
  1 <= Z <= 28 /\ element_symbols !! (Z - 1) = Some e.
Proof.
  intros H. apply elem_of_list_to_map_2 in H.
  unfold element_symbols in H. simpl in H.
  repeat (apply elem_of_cons in H as [[= -> ->]|H];
          [split; [lia | reflexivity]|]).
  by apply elem_of_nil in H.
Qed.

(** X1: the registry is a bijection between its 28 symbols and the numbers
    1 to 28, in the order the symbols are listed: the symbol at position [i]
    has atomic number [i+1], every number looked up is between 1 and 28, two
    symbols with the same number are the same, and every number from 1 to 28
    belongs to a symbol. *)
Theorem AtomicNumbers_bijection :
  (forall i e, element_symbols !! i = Some e -> AtomicNumbers !! e = Some (i + 1))
  /\ (forall e Z, AtomicNumbers !! e = Some Z -> 1 <= Z <= 28)
  /\ (forall e1 e2 Z,
        AtomicNumbers !! e1 = Some Z -> AtomicNumbers !! e2 = Some Z -> e1 = e2)
  /\ (forall Z, 1 <= Z <= 28 -> exists e, AtomicNumbers !! e = Some Z).
Proof.
  split; [exact registry_positions|]. split; [|split].
  - intros e Z H. by apply registry_lookup in H as [? _].
  - intros e1 e2 Z H1 H2.
    apply registry_lookup in H1 as [_ H1].
    apply registry_lookup in H2 as [_ H2]. congruence.
  - intros Z HZ.
    destruct (lookup_lt_is_Some_2 element_symbols (Z - 1)) as [e He].
    { unfold element_symbols. simpl. lia. }
    exists e. apply registry_positions in He.
    by replace (Z - 1 + 1) with Z in He by lia.
Qed.

(** ** create_ChargeStates_dictionary: errors, keys, files *)

Lemma quiet_zeros (n : nat) : quiet (np.zeros n).
Proof. unfold np.zeros. quiet_tac. Qed.

Lemma quiet_sum (a : np.ndarray) : quiet (np.sum a).
Proof. unfold np.sum. quiet_tac. Qed.

#[export] Hint Resolve quiet_zeros quiet_sum : quiet.

Lemma quiet_neutral_body (element : string)
    (ChargeStates : gmap string np.ndarray) :
  quiet (neutral_body element ChargeStates).
Proof. unfold neutral_body. quiet_tac. Qed.

Lemma quiet_cleanup_body (ChargeStates : gmap string np.ndarray)
    (element : string) (istate : nat) (u : unit) :
  quiet (cleanup_body ChargeStates element istate u).
Proof. unfold cleanup_body. quiet_tac. Qed.

Lemma quiet_equilibrium_body (AtomicData : atomic_data) (TemperatureIndex : Z)
    (element : string) (ChargeStates : gmap string np.ndarray) :
  quiet (equilibrium_body AtomicData TemperatureIndex element ChargeStates).
Proof.
  unfold equilibrium_body. pose proof quiet_cleanup_body. quiet_tac.
Qed.

Lemma quiet_check_block (elements : list string)
    (ChargeStates : gmap string np.ndarray) :
  quiet (check_block elements ChargeStates).
Proof. unfold check_block, check_body. quiet_tac. Qed.

Lemma quiet_neutral_block (elements : list string) :
  quiet (neutral_block elements).
Proof.
  unfold neutral_block. pose proof quiet_neutral_body. quiet_tac.
Qed.

Section Create.

Variable func_index_te : float -> list float -> Z.

(** X2: an element that is not in the registry makes
    [create_ChargeStates_dictionary] raise [KeyError] with that symbol,
    whatever the temperature and whatever was passed for [AtomicData]: the
    first loop fails on it, before any file is opened and without touching
    an array that existed. *)
Theorem create_unknown_element (pre post : list string) (e : string)
    (temperature : float) (AtomicData : option atomic_data) (w : world) :
  Forall (fun e' => is_Some (AtomicNumbers !! e')) pre ->
  AtomicNumbers !! e = None ->
  exists w',
    create_ChargeStates_dictionary func_index_te (pre ++ e :: post)
      temperature AtomicData w = (Raises (KeyError e), w')
    /\ files w' = files w /\ opened w' = opened w
    /\ exists extra, heap w' = heap w ++ extra.
Proof.
  intros Hpre He.
  destruct (neutral_loop_total pre Hpre ∅ w) as (cs1 & w1 & Hrun).
  destruct (neutral_loop_inv _ _ _ _ _ Hrun) as (Hf & Ho & Hh & _).
  exists w1. split; [|done].
  unfold create_ChargeStates_dictionary, neutral_block.
  apply bind_Raises. rewrite for_each_app.
  rewrite (bind_Returns _ _ _ _ _ Hrun). simpl.
  by rewrite (bind_Raises _ _ _ _ _ (neutral_body_None _ _ _ He)).
Qed.

(** X3: the dictionary that [create_ChargeStates_dictionary] returns has
    the requested elements as its keys, and no other. *)
Theorem create_keys (elements : list string) (temperature : float)
    (AtomicData : option atomic_data) (cs : gmap string np.ndarray)
    (w w' : world) :
  create_ChargeStates_dictionary func_index_te elements temperature
    AtomicData w = (Returns cs, w') ->
  forall e, is_Some (cs !! e) <-> e ∈ elements.
Proof.
  intros Hrun e.
  apply create_inv in Hrun as (cs1 & w1 & Hneutral & Hequil & _).
  apply neutral_loop_inv in Hneutral as (_ & _ & _ & Hin1 & Hout1).
  assert (Hcs1 : is_Some (cs1 !! e) <-> e ∈ elements).
  { split.
    - intros Hsome. destruct (decide (e ∈ elements)) as [|Hnot]; [done|].
      rewrite (Hout1 _ Hnot), lookup_empty in Hsome. by destruct Hsome.
    - intros He. destruct (Hin1 e He) as (Z & a & _ & Ha & _). by exists a. }
  unfold equilibrium_block in Hequil.
  destruct (0 <? temperature)%float.
  - apply bind_inv_Returns in Hequil as (ad & w2 & _ & Hequil).
    apply bind_inv_Returns in Hequil as (grid & w3 & _ & Hloop).
    apply equilibrium_loop_inv in Hloop as (_ & _ & Hin & Hout & _).
    split.
    + intros Hsome. destruct (decide (e ∈ elements)) as [|Hnot]; [done|].
      rewrite (Hout _ Hnot) in Hsome. by apply Hcs1.
    + intros He. destruct (Hin e He) as (a & v & _ & Ha & _). by exists a.
  - by injection Hequil as <- <-.
Qed.

(** X4: with a dictionary passed for [AtomicData] the function opens no
    file, at any temperature and whatever its outcome. *)
Theorem create_with_data_opens_nothing (elements : list string)
    (temperature : float) (AtomicData : atomic_data) (w : world) :
  opened (snd (create_ChargeStates_dictionary func_index_te elements
                 temperature (Some AtomicData) w)) = opened w
  /\ files (snd (create_ChargeStates_dictionary func_index_te elements
                   temperature (Some AtomicData) w)) = files w.
Proof.
  assert (Hq : quiet (create_ChargeStates_dictionary func_index_te elements
                        temperature (Some AtomicData))).
  { unfold create_ChargeStates_dictionary, equilibrium_block.
    pose proof quiet_neutral_block. pose proof quiet_check_block.
    pose proof quiet_equilibrium_body. quiet_tac. }
  destruct (Hq w) as [Hf Ho]. by split.
Qed.

(** X5: with no element requested, a positive temperature and no
    [AtomicData], the loader returns an empty dictionary and the lookup of
    ['temperatures'] in it raises [KeyError]; without a positive temperature
    the empty dictionary is returned.  Nothing is opened or allocated. *)
Theorem create_no_elements (temperature : float) (w : world) :
  create_ChargeStates_dictionary func_index_te [] temperature None w
  = if (0 <? temperature)%float then (Raises (KeyError "temperatures"), w)
    else (Returns ∅, w).
Proof.
  unfold create_ChargeStates_dictionary, equilibrium_block, neutral_block.
  simpl. rewrite bind_ret. by destruct (0 <? temperature)%float.
Qed.

End Create.

Lemma create_unknown_element_witness :
  Forall (fun e' => is_Some (AtomicNumbers !! e')) ["H"%string]
  /\ AtomicNumbers !! "Xx"%string = None
  /\ exists w',
       create_ChargeStates_dictionary nearest_index
         (["H"%string] ++ "Xx"%string :: ["He"%string]) 5 None disk_world
       = (Raises (KeyError "Xx"), w')
       /\ files w' = files disk_world /\ opened w' = opened disk_world
       /\ exists extra, heap w' = heap disk_world ++ extra.
Proof.
  assert (Hreg : Forall (fun e' => is_Some (AtomicNumbers !! e')) ["H"%string]).
  { repeat constructor; by eexists. }
  split; [exact Hreg|]. split; [reflexivity|].
  exact (create_unknown_element nearest_index ["H"%string] ["He"%string]
           "Xx" 5 None disk_world Hreg eq_refl).
Defined.

Lemma create_keys_witness :
  exists cs w',
    create_ChargeStates_dictionary nearest_index ["H"%string] 5.2
      (Some (hydrogen_data [4; 5]%float)) (hydrogen_world roundoff_rows)
    = (Returns cs, w')
    /\ forall e, is_Some (cs !! e) <-> e ∈ ["H"%string].
Proof.
  eexists _, _.
  assert (Hrun : create_ChargeStates_dictionary nearest_index ["H"%string] 5.2
                   (Some (hydrogen_data [4; 5]%float))
                   (hydrogen_world roundoff_rows)
                 = (Returns {[ "H"%string := np.RowView 0 1 ]},
                    World ∅ [] [[[0.5; 0.5]; [0.999999999991; 0]];
                                [[1; 0]]]%float)).
  { vm_compute. reflexivity. }
  split; [exact Hrun|].
  exact (create_keys nearest_index ["H"%string] 5.2 _ _ _ _ Hrun).
Defined.

(** ** What the cleanup guarantees of the returned distributions *)

(** On specification floats: below zero, hence below a positive number. *)
Lemma SFltb_negative (m : positive) (e : Z) (X : spec_float) :
  SFltb X (S754_zero false) = true ->
  SFltb X (S754_finite false m e) = true.
Proof.
  unfold SFltb. destruct X as [s | s | | s m' e']; simpl; try done;
    by destruct s.
Qed.

Lemma not_small_not_negative (x : float) :
  (x <? 1e-14)%float = false -> (x <? 0)%float = false.
Proof.
  intros Hsmall. destruct (x <? 0)%float eqn:Hneg; [|done].
  rewrite ltb_spec in Hsmall, Hneg.
  replace (Prim2SF 1e-14) with (S754_finite false 6338253001141147 (-99))
    in Hsmall by (vm_compute; reflexivity).
  replace (Prim2SF 0) with (S754_zero false) in Hneg
    by (vm_compute; reflexivity).
  by rewrite (SFltb_negative _ _ _ Hneg) in Hsmall.
Qed.

Lemma cleanup_rule_cleaned (x : float) : cleaned_entry (cleanup_rule x).
Proof.
  unfold cleaned_entry, cleanup_rule.
  destruct (x <? 1e-14)%float eqn:Hsmall; [done|].
  destruct ((1 <? x)%float && (x <? 1 + 9e-10)%float) eqn:Hup; [done|].
  split; [by apply not_small_not_negative|]. split; [|done].
  by rewrite Hsmall.
Qed.

Section Cleaned.

Variable func_index_te : float -> list float -> Z.

(** X6: every distribution returned by equilibrium initialisation,
    whether the data were passed or loaded, has only entries the rule
    leaves alone: none is negative, none is below [1e-14] except [0.0], and
    none lies strictly between [1.0] and [1.0 + 9e-10]. *)
Theorem equilibrium_entries_cleaned (elements : list string)
    (temperature : float) (AtomicData : option atomic_data)
    (cs : gmap string np.ndarray) (w w' : world) :
  (0 <? temperature)%float = true ->
  create_ChargeStates_dictionary func_index_te elements temperature
    AtomicData w = (Returns cs, w') ->
  forall e, e ∈ elements ->
    exists a v, cs !! e = Some a
      /\ np.buffer_row (heap w') a = Some v
      /\ Forall cleaned_entry v.
Proof.
  intros HT Hrun e He.
  apply create_inv in Hrun as (cs1 & w1 & _ & Hequil & _).
  unfold equilibrium_block in Hequil. rewrite HT in Hequil.
  apply bind_inv_Returns in Hequil as (ad & w2 & _ & Hequil).
  apply bind_inv_Returns in Hequil as (grid & w3 & _ & Hloop).
  apply equilibrium_loop_inv in Hloop as (_ & _ & Hin & _ & Hrows).
  destruct (Hin e He) as (a & v & Hview & Hcs & Hv).
  exists a, (cleanup_rule <$> v). split; [done|]. split.
  - rewrite Hrows, decide_True; [by rewrite Hv|].
    apply Exists_exists. by exists e.
  - apply Forall_fmap, Forall_true. intros x. apply cleanup_rule_cleaned.
Qed.

End Cleaned.

Lemma equilibrium_entries_cleaned_witness :
  exists cs w',
    (0 <? 5.2)%float = true
    /\ create_ChargeStates_dictionary nearest_index ["H"%string] 5.2 None
         disk_world = (Returns cs, w')
    /\ forall e, e ∈ ["H"%string] ->
         exists a v, cs !! e = Some a
           /\ np.buffer_row (heap w') a = Some v
           /\ Forall cleaned_entry v.
Proof.
  eexists _, _. split; [reflexivity|].
  assert (Hrun : create_ChargeStates_dictionary nearest_index ["H"%string] 5.2
                   None disk_world
                 = (Returns {[ "H"%string := np.RowView 1 1 ]},
                    World (files disk_world) ["sunnei/AtomicData/heigen.dat"%string]
                      [[[1; 0]]; [[0.5; 0.5]; [0.999999999991; 0]]]%float)).
  { vm_compute. reflexivity. }
  split; [exact Hrun|].
  exact (equilibrium_entries_cleaned nearest_index ["H"%string] 5.2 None _ _ _
           eq_refl Hrun).
Defined.

(** ** read_atomic_data: files opened, tables stored *)

(** Whatever the outcome, the loader has opened the files of the first
    elements of the list, in order, and of all of them when it returns. *)
Lemma read_loop_opened (data_directory : string) (elements : list string) :
  forall (st : atomic_data * bool) (w : world),
    files (snd (for_each elements (read_atomic_data_body data_directory) st w))
    = files w
    /\ exists n,
         opened (snd (for_each elements
                        (read_atomic_data_body data_directory) st w))
         = opened w ++ (eigen_filename data_directory <$> take n elements)
         /\ forall st',
              fst (for_each elements (read_atomic_data_body data_directory)
                     st w) = Returns st' ->
              n = length elements.
Proof.
  induction elements as [|e es IH]; intros st w.
  - split; [done|]. exists 0. split; [by rewrite app_nil_r | done].
  - change (for_each (e :: es) (read_atomic_data_body data_directory) st w)
      with ((let* s' := read_atomic_data_body data_directory e st in
             for_each es (read_atomic_data_body data_directory) s') w).
    destruct (AtomicNumbers !! e) as [Z|] eqn:HZ.
    + destruct (opens_read_atomic_data_body data_directory e Z st HZ w)
        as [Hf Ho].
      unfold bind.
      destruct (read_atomic_data_body data_directory e st w)
        as [[st1|ex] w1].
      * destruct (IH st1 w1) as (Hf' & n & Ho' & Hn).
        cbn [snd] in Hf, Ho.
        split; [congruence|]. exists (S n). split.
        { rewrite Ho', Ho. rewrite firstn_cons, fmap_cons.
          by rewrite <- app_assoc. }
        intros st' Hret. cbn [length]. f_equal. by eapply Hn.
      * cbn [snd fst] in *. split; [done|]. exists 1. split; [|done].
        rewrite Ho. by rewrite firstn_cons, take_0.
    + assert (Hbody : read_atomic_data_body data_directory e st w
                      = (Raises (KeyError e), w)).
      { unfold read_atomic_data_body.
        by rewrite (bind_Raises _ _ _ _ _ (getitem_None _ _ w HZ)). }
      rewrite (bind_Raises _ _ _ _ _ Hbody). cbn [snd fst].
      split; [done|]. exists 0. split; [by rewrite take_0, app_nil_r | done].
Qed.

(** X7: [read_atomic_data] only reads: it leaves the files as they are,
    and the files it has opened are those of the leading elements of the
    list, [<directory>/<lower-cased symbol>eigen.dat], one per element and in
    the order requested; when it returns, those of all the elements. *)
Theorem read_atomic_data_opens (data_directory : string)
    (elements : list string) (w : world) :
  files (snd (read_atomic_data_in data_directory elements w)) = files w
  /\ exists n,
       opened (snd (read_atomic_data_in data_directory elements w))
       = opened w ++ (eigen_filename data_directory <$> take n elements)
       /\ forall ad,
            fst (read_atomic_data_in data_directory elements w) = Returns ad ->
            n = length elements.
Proof.
  destruct (read_loop_opened data_directory elements (empty_atomic_data, true) w)
    as (Hf & n & Ho & Hn).
  unfold read_atomic_data_in, bind.
  destruct (for_each elements (read_atomic_data_body data_directory)
              (empty_atomic_data, true) w) as [[[ad b]|ex] w1];
    cbn [fst snd] in *.
  - split; [done|]. exists n. split; [done|]. intros ad' _. by eapply Hn.
  - split; [done|]. exists n. split; [done|]. done.
Qed.

Section Loads.

Variable func_index_te : float -> list float -> Z.

(** X8: called with a positive temperature and without [AtomicData], a
    call that returns has loaded the data of exactly the requested
    elements: it has opened their files in the default directory, one per
    element in the order given, and no other; the files are unchanged. *)
Theorem create_loads_requested (elements : list string) (temperature : float)
    (cs : gmap string np.ndarray) (w w' : world) :
  (0 <? temperature)%float = true ->
  create_ChargeStates_dictionary func_index_te elements temperature None w
  = (Returns cs, w') ->
  opened w'
  = opened w ++ (eigen_filename default_data_directory <$> elements)
  /\ files w' = files w.
Proof.
  intros HT Hrun.
  apply create_inv in Hrun as (cs1 & w1 & Hneutral & Hequil & _).
  apply neutral_loop_inv in Hneutral as (Hf1 & Ho1 & _).
  unfold equilibrium_block in Hequil. rewrite HT in Hequil.
  apply bind_inv_Returns in Hequil as (ad & w2 & Hread & Hequil).
  apply bind_inv_Returns in Hequil as (grid & w3 & Hgrid & Hloop).
  assert (w3 = w2) as ->.
  { unfold of_option in Hgrid. destruct (temperatures ad); [|done].
    by injection Hgrid as _ <-. }
  pose proof (quiet_for_each elements
                (equilibrium_body ad (func_index_te temperature grid)) cs1
                (fun x s => quiet_equilibrium_body _ _ x s) w2) as [Hf3 Ho3].
  rewrite Hloop in Hf3, Ho3. cbn [snd] in Hf3, Ho3.
  unfold read_atomic_data, read_atomic_data_in in Hread.
  apply bind_inv_Returns in Hread as ([ad' b] & w2' & Hfor & Hret).
  injection Hret as <- <-.
  destruct (read_loop_opened default_data_directory elements
              (empty_atomic_data, true) w1) as (Hf2 & n & Ho2 & Hn).
  rewrite Hfor in Hf2, Ho2, Hn. cbn [fst snd] in Hf2, Ho2, Hn.
  rewrite (Hn _ eq_refl), firstn_all in Ho2.
  split; congruence.
Qed.

End Loads.

Lemma create_loads_requested_witness :
  exists cs w',
    (0 <? 5.2)%float = true
    /\ create_ChargeStates_dictionary nearest_index ["H"%string] 5.2 None
         disk_world = (Returns cs, w')
    /\ opened w'
       = opened disk_world
         ++ (eigen_filename default_data_directory <$> ["H"%string])
    /\ files w' = files disk_world.
Proof.
  eexists _, _. split; [reflexivity|].
  assert (Hrun : create_ChargeStates_dictionary nearest_index ["H"%string] 5.2
                   None disk_world
                 = (Returns {[ "H"%string := np.RowView 1 1 ]},
                    World (files disk_world) ["sunnei/AtomicData/heigen.dat"%string]
                      [[[1; 0]]; [[0.5; 0.5]; [0.999999999991; 0]]]%float)).
  { vm_compute. reflexivity. }
  split; [exact Hrun|].
  exact (create_loads_requested nearest_index ["H"%string] 5.2 _ _ _
           eq_refl Hrun).
Defined.

(** ** Reshaping *)

Lemma chunks_length {A} (rows width : nat) (v : list A) :
  length (np.chunks rows width v) = rows.
Proof.
  revert v. induction rows as [|rows IH]; intros v; simpl; [done|].
  by rewrite IH.
Qed.

Lemma chunks_rows {A} (rows width : nat) (v : list A) :
  rows * width = length v ->
  Forall (fun r => length r = width) (np.chunks rows width v)
  /\ concat (np.chunks rows width v) = v.
Proof.
  revert v. induction rows as [|rows IH]; intros v Hlen; simpl in *.
  - split; [done|]. symmetry. by apply nil_length_inv.
  - destruct (IH (drop width v)) as [Hall Hcat].
    { rewrite length_drop. lia. }
    split.
    + apply Forall_cons. split; [|done]. rewrite length_take. lia.
    + rewrite Hcat. apply take_drop.
Qed.

Lemma infer_dim_Some (n0 : Z) (inner len rows : nat) :
  np.infer_dim n0 inner len = Some rows ->
  rows * inner = len /\ ((0 <= n0)%Z -> rows = Z.to_nat n0).
Proof.
  unfold np.infer_dim. repeat case_decide; try done; intros [= <-].
  - split; [|lia]. destruct H0 as [Hne Hmod].
    pose proof (Nat.div_mod_eq len inner). lia.
  - split; [done | lia].
Qed.

(** A reshaped record has the rows asked for, each of the width asked
    for, and flattens back to the record. *)
Lemma reshape2_inv (v : list float) (n0 : Z) (n1 : nat)
    (a : list (list float)) (w w' : world) :
  np.reshape2 v n0 n1 w = (Returns a, w') ->
  w' = w
  /\ Forall (fun r => length r = n1) a
  /\ concat a = v
  /\ ((0 <= n0)%Z -> length a = Z.to_nat n0).
Proof.
  unfold np.reshape2.
  destruct (np.infer_dim n0 n1 (length v)) as [rows|] eqn:Hdim; [|done].
  intros [= <- <-]. apply infer_dim_Some in Hdim as [Hlen Hrows].
  destruct (chunks_rows rows n1 v Hlen) as [Hall Hcat].
  split; [done|]. split; [done|]. split; [done|].
  intros Hn. rewrite chunks_length. by apply Hrows.
Qed.

Lemma reshape3_inv (v : list float) (n0 : Z) (n1 n2 : nat)
    (a : list (list (list float))) (w w' : world) :
  np.reshape3 v n0 n1 n2 w = (Returns a, w') -> w' = w.
Proof.
  unfold np.reshape3.
  destruct (np.infer_dim n0 (n1 * n2) (length v)); [|done].
  by intros [= _ <-].
Qed.

Lemma read_ints_inv (H H' : list record) (r : list Z) (w w' : world) :
  FortranFile.read_ints H w = (Returns (r, H'), w') ->
  H = IntRecord r :: H' /\ w' = w.
Proof.
  unfold FortranFile.read_ints. destruct H as [|[r0|r0] H0]; try done.
  by intros [= <- <- <-].
Qed.

Lemma read_reals_inv (H H' : list record) (r : list float) (w w' : world) :
  FortranFile.read_reals H w = (Returns (r, H'), w') ->
  H = RealRecord r :: H' /\ w' = w.
Proof.
  unfold FortranFile.read_reals. destruct H as [|[r0|r0] H0]; try done.
  by intros [= <- <- <-].
Qed.

Lemma unpack2_inv (ints : list Z) (a b : Z) (w w' : world) :
  unpack2 ints w = (Returns (a, b), w') -> ints = [a; b] /\ w' = w.
Proof.
  unfold unpack2. destruct ints as [|a0 [|b0 [|c0 ints]]]; try done.
  by intros [= <- <- <-].
Qed.

(** What a file that parses holds: its first record is the pair
    [nte, nelems], its second the temperatures, and its third, row by row,
    the equilibrium table, whose rows have one entry per state. *)
Lemma parse_element_file_inv (H : list record) (nstates : nat)
    (f : element_file) (w w' : world) :
  parse_element_file H nstates w = (Returns f, w') ->
  w' = w
  /\ (exists rest,
        H = IntRecord [f_nte f; f_nelems f]
            :: RealRecord (f_temperatures f)
            :: RealRecord (concat (f_equistate f)) :: rest)
  /\ Forall (fun r => length r = nstates) (f_equistate f)
  /\ ((0 <= f_nte f)%Z -> length (f_equistate f) = Z.to_nat (f_nte f)).
Proof.
  unfold parse_element_file. intros Hrun.
  apply bind_inv_Returns in Hrun as ([ints H1] & w1 & [-> ->]%read_ints_inv & Hrun).
  apply bind_inv_Returns in Hrun as ([a b] & w1 & [-> ->]%unpack2_inv & Hrun).
  apply bind_inv_Returns in Hrun as ([temps H2] & w1 & [-> ->]%read_reals_inv & Hrun).
  apply bind_inv_Returns in Hrun as ([v3 H3] & w1 & [-> ->]%read_reals_inv & Hrun).
  apply bind_inv_Returns in Hrun
    as (equi & w1 & (-> & Hall & Hcat & Hrows)%reshape2_inv & Hrun).
  apply bind_inv_Returns in Hrun as ([v4 H4] & w1 & [-> ->]%read_reals_inv & Hrun).
  apply bind_inv_Returns in Hrun as (a4 & w1 & (-> & _)%reshape2_inv & Hrun).
  apply bind_inv_Returns in Hrun as ([v5 H5] & w1 & [-> ->]%read_reals_inv & Hrun).
  apply bind_inv_Returns in Hrun as (a5 & w1 & ->%reshape3_inv & Hrun).
  apply bind_inv_Returns in Hrun as ([v6 H6] & w1 & [-> ->]%read_reals_inv & Hrun).
  apply bind_inv_Returns in Hrun as (a6 & w1 & ->%reshape3_inv & Hrun).
  apply bind_inv_Returns in Hrun as ([v7 H7] & w1 & [-> ->]%read_reals_inv & Hrun).
  apply bind_inv_Returns in Hrun as (a7 & w1 & (-> & _)%reshape2_inv & Hrun).
  apply bind_inv_Returns in Hrun as ([v8 H8] & w1 & [-> ->]%read_reals_inv & Hrun).
  apply bind_inv_Returns in Hrun as (a8 & w1 & (-> & _)%reshape2_inv & Hrun).
  injection Hrun as <- <-. cbn [f_nte f_nelems f_temperatures f_equistate].
  split; [done|]. split; [|done]. rewrite Hcat. by eexists.
Qed.

Lemma read_element_file_inv (filename : string) (nstates : nat)
    (f : element_file) (w w' : world) :
  read_element_file filename nstates w = (Returns f, w') ->
  w' = log_open filename w
  /\ (exists rest,
        files w !! filename
        = Some (IntRecord [f_nte f; f_nelems f]
                :: RealRecord (f_temperatures f)
                :: RealRecord (concat (f_equistate f)) :: rest))
  /\ Forall (fun r => length r = nstates) (f_equistate f)
  /\ ((0 <= f_nte f)%Z -> length (f_equistate f) = Z.to_nat (f_nte f)).
Proof.
  unfold read_element_file, FortranFile.open. intros Hrun.
  apply bind_inv_Returns in Hrun as (H & w1 & Hopen & Hparse).
  destruct (files w !! filename) as [H0|] eqn:Hfile; [|done].
  injection Hopen as <- <-.
  apply parse_element_file_inv in Hparse as (-> & [rest ->] & Hall & Hrows).
  split; [done|]. split; [by exists rest | done].
Qed.

Lemma stateless_allclose (a b : list float) : stateless (np.allclose a b).
Proof. unfold np.allclose. stateless_tac. Qed.

(** What a check that passes leaves: the tables untouched, the flag down,
    and the top-level values those of the file: adopted from it if it is the
    first, found equal to it otherwise (the temperatures then being kept). *)
Lemma adopt_or_check_inv (element : string) (f : element_file)
    (ad ad1 : atomic_data) (first first1 : bool) (w w' : world) :
  adopt_or_check element f (ad, first) w = (Returns (ad1, first1), w') ->
  w' = w /\ first1 = false
  /\ tables ad1 = tables ad
  /\ nte ad1 = Some (f_nte f) /\ nelems ad1 = Some (f_nelems f)
  /\ (if first then temperatures ad1 = Some (f_temperatures f)
      else ad1 = ad).
Proof.
  unfold adopt_or_check. destruct first.
  - by intros [= <- <- <-].
  - intros Hrun.
    apply bind_inv_Returns in Hrun as (n0 & w1 & Hn & Hrun).
    apply bind_inv_Returns in Hrun as ([] & w2 & [Hnte ->]%assert_inv & Hrun).
    apply bind_inv_Returns in Hrun as (m0 & w3 & Hm & Hrun).
    apply bind_inv_Returns in Hrun as ([] & w4 & [Hnelems ->]%assert_inv & Hrun).
    apply bind_inv_Returns in Hrun as (t0 & w5 & Ht & Hrun).
    apply bind_inv_Returns in Hrun as (close & w6 & Hclose & Hrun).
    destruct (stateless_allclose t0 (f_temperatures f) w5 w5) as [_ Hw].
    rewrite Hclose in Hw. cbn [snd] in Hw. subst w6. clear Hclose.
    apply bind_inv_Returns in Hrun as ([] & w7 & [_ ->]%assert_inv & Hrun).
    injection Hrun as <- <- <-.
    unfold of_option in Hn, Hm, Ht.
    destruct (nte ad) as [n|] eqn:Hnte0; [|done]. injection Hn as <- <-.
    destruct (nelems ad) as [m|] eqn:Hnel0; [|done]. injection Hm as <- <-.
    destruct (temperatures ad) as [t|] eqn:Htemp0; [|done]. injection Ht as <- <-.
    apply Z.eqb_eq in Hnte, Hnelems. split; [done|]. split; [done|].
    split; [done|]. by rewrite Hnte, Hnelems.
Qed.

(** ** read_atomic_data: what one pass of the loop stores *)

Lemma read_atomic_data_body_inv (data_directory : string) (e : string)
    (ad0 ad1 : atomic_data) (b0 b1 : bool) (w w1 : world) :
  read_atomic_data_body data_directory e (ad0, b0) w
  = (Returns (ad1, b1), w1) ->
  exists (Z : nat) (f : element_file) (t : element_data),
    AtomicNumbers !! e = Some Z
    /\ (exists rest,
          files w !! eigen_filename data_directory e
          = Some (IntRecord [f_nte f; f_nelems f]
                  :: RealRecord (f_temperatures f)
                  :: RealRecord (concat (f_equistate f)) :: rest))
    /\ Forall (fun r => length r = Z + 1) (f_equistate f)
    /\ ((0 <= f_nte f)%Z -> length (f_equistate f) = Z.to_nat (f_nte f))
    /\ b1 = false
    /\ files w1 = files w
    /\ heap w1 = heap w ++ [f_equistate f]
    /\ tables ad1 = <[e := t]> (tables ad0)
    /\ element t = e /\ AtomicNumber t = Z /\ nstates t = Z + 1
    /\ equistate t = length (heap w)
    /\ nte ad1 = Some (f_nte f) /\ nelems ad1 = Some (f_nelems f)
    /\ (if b0 then temperatures ad1 = Some (f_temperatures f)
        else nte ad1 = nte ad0 /\ nelems ad1 = nelems ad0
             /\ temperatures ad1 = temperatures ad0).
Proof.
  unfold read_atomic_data_body. intros Hrun.
  apply bind_inv_Returns in Hrun as (Z & w0 & [HZ ->]%getitem_inv & Hrun).
  apply bind_inv_Returns in Hrun as (f & w2 & Hread & Hrun).
  apply read_element_file_inv in Hread as (-> & Hfile & Hall & Hrows).
  apply bind_inv_Returns in Hrun as ([ad2 b2] & w3 & Hadopt & Hrun).
  apply adopt_or_check_inv in Hadopt
    as (-> & -> & Htab & Hnte & Hnelems & Hfirst).
  unfold bind, np.alloc, ret in Hrun. injection Hrun as <- <- <-.
  exists Z, f. eexists. cbn.
  repeat split; try done.
  - rewrite Htab. reflexivity.
  - done.
  - done.
  - done.
  - done.
  - destruct b0; [done|]. by subst ad2.
Qed.

Lemma stored_lo (data_directory : string) (fs : gmap string (list record))
    (h : list ndarray2) (lo : nat) (n : option Z) (e : string)
    (t : element_data) :
  stored data_directory fs h lo n e t -> lo <= equistate t.
Proof. by intros (? & ? & ? & ? & ? & ? & ? & ? & ? & ? & Hlo & ?). Qed.

Lemma read_loop_inv (data_directory : string) (elements : list string) :
  forall (ad0 ad : atomic_data) (b0 b : bool) (w w' : world),
    for_each elements (read_atomic_data_body data_directory) (ad0, b0) w
    = (Returns (ad, b), w') ->
    files w' = files w
    /\ (exists extra, heap w' = heap w ++ extra
                      /\ length extra = length elements)
    /\ (forall e, e ∉ elements -> tables ad !! e = tables ad0 !! e)
    /\ (forall e, e ∈ elements ->
          exists t, tables ad !! e = Some t
                    /\ stored data_directory (files w) (heap w')
                         (length (heap w)) (nte ad) e t)
    /\ (forall e1 e2 t1 t2,
          e1 <> e2 -> e1 ∈ elements -> e2 ∈ elements ->
          tables ad !! e1 = Some t1 -> tables ad !! e2 = Some t2 ->
          equistate t1 <> equistate t2)
    /\ (elements = [] -> ad = ad0)
    /\ (b0 = false ->
          nte ad = nte ad0 /\ nelems ad = nelems ad0
          /\ temperatures ad = temperatures ad0)
    /\ (forall e0 es, elements = e0 :: es -> b0 = true ->
          exists n m temps rest,
            files w !! eigen_filename data_directory e0
            = Some (IntRecord [n; m] :: RealRecord temps :: rest)
            /\ nte ad = Some n /\ nelems ad = Some m
            /\ temperatures ad = Some temps).
Proof.
  induction elements as [|e es IH]; intros ad0 ad b0 b w w' Hrun.
  - injection Hrun as <- <- <-.
    split; [done|]. split; [exists []; by rewrite app_nil_r|].
    split; [done|]. split; [intros e He; by apply elem_of_nil in He|].
    split; [intros e1 e2 t1 t2 _ He; by apply elem_of_nil in He|].
    repeat split; done.
  - change (for_each (e :: es) (read_atomic_data_body data_directory)
              (ad0, b0) w)
      with ((let* s' := read_atomic_data_body data_directory e (ad0, b0) in
             for_each es (read_atomic_data_body data_directory) s') w)
      in Hrun.
    apply bind_inv_Returns in Hrun as ([ad1 b1] & w1 & Hbody & Hrest).
    apply read_atomic_data_body_inv in Hbody
      as (Z & f & t & HZ & [rest Hfile] & Hall & Hrows & -> & Hfs & Hheap
          & Htab & Hel & HA & Hns & Hloc & Hnte & Hnelems & Hfirst).
    apply IH in Hrest
      as (Hfs' & (extra & Hheap' & Hlen) & Hout & Hin & Hdist & _ & Hkeep & _).
    assert (Hhead : tables ad !! e = Some t -> forall e' t',
              e' ∈ es -> tables ad !! e' = Some t' ->
              equistate t <> equistate t').
    { intros _ e' t' He' Ht'.
      destruct (Hin e' He') as (t'' & Ht'' & Hlo%stored_lo).
      assert (t'' = t') as -> by congruence.
      rewrite Hheap, length_app in Hlo. cbn [length] in Hlo. lia. }
    destruct (Hkeep eq_refl) as (Knte & Knelems & Ktemps).
    split; [congruence|].
    split.
    { exists (f_equistate f :: extra). split.
      - rewrite Hheap', Hheap. by rewrite <- app_assoc.
      - cbn [length]. by rewrite Hlen. }
    split.
    { intros e' [Hne Hnin]%not_elem_of_cons.
      rewrite (Hout e' Hnin), Htab. by apply lookup_insert_ne. }
    split.
    { intros e' He'.
      destruct (decide (e' ∈ es)) as [Hes|Hes].
      - destruct (Hin e' Hes) as (t' & Ht' & Hst).
        exists t'. split; [done|].
        rewrite Hfs in Hst.
        destruct Hst as (Z' & n0 & m & temps & rows & rest' & ? & ? & ? & ?
                         & Hlo & ? & ? & ? & ? & ?).
        exists Z', n0, m, temps, rows, rest'.
        repeat split; try done.
        rewrite Hheap, length_app in Hlo. lia.
      - apply elem_of_cons in He' as [->|He']; [|done].
        exists t. split.
        { rewrite (Hout e Hes), Htab. by apply lookup_insert_eq. }
        exists Z, (f_nte f), (f_nelems f), (f_temperatures f),
               (f_equistate f), rest.
        repeat split; try done.
        + lia.
        + rewrite Hheap', Hheap, Hloc. rewrite <- app_assoc.
          by apply list_lookup_middle.
        + congruence. }
    split.
    { intros e1 e2 t1 t2 Hne He1 He2 Ht1 Ht2.
      destruct (decide (e1 ∈ es)) as [H1|H1];
        destruct (decide (e2 ∈ es)) as [H2|H2].
      - by apply (Hdist e1 e2).
      - apply elem_of_cons in He2 as [->|He2]; [|done].
        rewrite (Hout e H2), Htab, lookup_insert_eq in Ht2.
        injection Ht2 as <-.
        intros Heq. eapply Hhead; [|exact H1|exact Ht1|by symmetry].
        rewrite (Hout e H2), Htab. by apply lookup_insert_eq.
      - apply elem_of_cons in He1 as [->|He1]; [|done].
        rewrite (Hout e H1), Htab, lookup_insert_eq in Ht1.
        injection Ht1 as <-.
        eapply Hhead; [|exact H2|exact Ht2].
        rewrite (Hout e H1), Htab. by apply lookup_insert_eq.
      - apply elem_of_cons in He1 as [->|He1]; [|done].
        apply elem_of_cons in He2 as [->|He2]; done. }
    split; [done|]. split.
    { intros ->. destruct Hfirst as (? & ? & ?).
      repeat split; congruence. }
    intros e0 es0 [= <- <-] ->.
    exists (f_nte f), (f_nelems f), (f_temperatures f),
           (RealRecord (concat (f_equistate f)) :: rest).
    repeat split; congruence.
Qed.

Lemma read_atomic_data_in_inv (data_directory : string)
    (elements : list string) (ad : atomic_data) (w w' : world) :
  read_atomic_data_in data_directory elements w = (Returns ad, w') ->
  exists b,
    for_each elements (read_atomic_data_body data_directory)
      (empty_atomic_data, true) w = (Returns (ad, b), w').
Proof.
  unfold read_atomic_data_in. intros Hrun.
  apply bind_inv_Returns in Hrun as ([ad' b] & w1 & Hfor & Hret).
  injection Hret as <- <-. by exists b.
Qed.

(** X9: the dictionary that [read_atomic_data] returns has a table for each
    requested element and for no other.  The table of an element holds its
    symbol, its atomic number [Z] from the registry and [Z+1] as the number
    of states; its equilibrium table is the third record of the element's
    file cut into rows of [Z+1] entries, as many rows as the grid length of
    the first record, which is the grid length kept at top level; and the
    array is one created by this call. *)
Theorem read_atomic_data_tables (data_directory : string)
    (elements : list string) (ad : atomic_data) (w w' : world) :
  read_atomic_data_in data_directory elements w = (Returns ad, w') ->
  (forall e, is_Some (tables ad !! e) <-> e ∈ elements)
  /\ forall e t, tables ad !! e = Some t ->
       stored data_directory (files w) (heap w') (length (heap w)) (nte ad) e t.
Proof.
  intros [b Hrun]%read_atomic_data_in_inv.
  apply read_loop_inv in Hrun as (_ & _ & Hout & Hin & _).
  assert (Hkeys : forall e, is_Some (tables ad !! e) <-> e ∈ elements).
  { intros e. split.
    - intros Hsome. destruct (decide (e ∈ elements)) as [|Hnot]; [done|].
      rewrite (Hout e Hnot) in Hsome. cbn in Hsome.
      rewrite lookup_empty in Hsome. by destruct Hsome.
    - intros He. destruct (Hin e He) as (t & Ht & _). by exists t. }
  split; [done|]. intros e t Ht.
  destruct (Hin e) as (t' & Ht' & Hst); [apply Hkeys; by exists t|].
  by assert (t' = t) as -> by congruence.
Qed.

Lemma read_atomic_data_tables_witness :
  exists ad w',
    read_atomic_data_in "data" ["H"; "He"]%string
      (two_files (helium_file [4; 5]%float 1)) = (Returns ad, w')
    /\ (forall e, is_Some (tables ad !! e) <-> e ∈ ["H"; "He"]%string)
    /\ forall e t, tables ad !! e = Some t ->
         stored "data" (files (two_files (helium_file [4; 5]%float 1)))
           (heap w') (length (heap (two_files (helium_file [4; 5]%float 1))))
           (nte ad) e t.
Proof.
  eexists _, _.
  match goal with
  | |- ?A /\ _ => assert (Hrun : A) by (vm_compute; reflexivity)
  end.
  split; [exact Hrun|].
  exact (read_atomic_data_tables "data" ["H"; "He"]%string _ _ _ Hrun).
Defined.

(** X10: a call of [read_atomic_data] that returns has created one array
    per element of the list, after the arrays that existed, which it leaves
    as they were; the tables of two different elements are different
    arrays. *)
Theorem read_atomic_data_allocates (data_directory : string)
    (elements : list string) (ad : atomic_data) (w w' : world) :
  read_atomic_data_in data_directory elements w = (Returns ad, w') ->
  (exists extra, heap w' = heap w ++ extra /\ length extra = length elements)
  /\ forall e1 e2 t1 t2,
       e1 <> e2 ->
       tables ad !! e1 = Some t1 -> tables ad !! e2 = Some t2 ->
       equistate t1 <> equistate t2.
Proof.
  intros [b Hrun]%read_atomic_data_in_inv.
  apply read_loop_inv in Hrun as (_ & Hheap & Hout & _ & Hdist & _).
  split; [done|]. intros e1 e2 t1 t2 Hne Ht1 Ht2.
  apply (Hdist e1 e2); try done.
  - destruct (decide (e1 ∈ elements)) as [|Hnot]; [done|].
    rewrite (Hout e1 Hnot) in Ht1. cbn in Ht1. by rewrite lookup_empty in Ht1.
  - destruct (decide (e2 ∈ elements)) as [|Hnot]; [done|].
    rewrite (Hout e2 Hnot) in Ht2. cbn in Ht2. by rewrite lookup_empty in Ht2.
Qed.

Lemma read_atomic_data_allocates_witness :
  exists ad w',
    read_atomic_data_in "data" ["H"; "He"; "H"]%string
      (two_files (helium_file [4; 5]%float 1)) = (Returns ad, w')
    /\ (exists extra,
          heap w' = heap (two_files (helium_file [4; 5]%float 1)) ++ extra
          /\ length extra = length ["H"; "He"; "H"]%string)
    /\ forall e1 e2 t1 t2,
         e1 <> e2 ->
         tables ad !! e1 = Some t1 -> tables ad !! e2 = Some t2 ->
         equistate t1 <> equistate t2.
Proof.
  eexists _, _.
  match goal with
  | |- ?A /\ _ => assert (Hrun : A) by (vm_compute; reflexivity)
  end.
  split; [exact Hrun|].
  exact (read_atomic_data_allocates "data" ["H"; "He"; "H"]%string _ _ _ Hrun).
Defined.

(** X11: the grid length, the element count and the temperature grid that
    [read_atomic_data] keeps at top level are those of the file of the first
    element of the list: its first record and its second. *)
Theorem read_atomic_data_grid_of_first (data_directory : string)
    (e0 : string) (es : list string) (ad : atomic_data) (w w' : world) :
  read_atomic_data_in data_directory (e0 :: es) w = (Returns ad, w') ->
  exists n m temps rest,
    files w !! eigen_filename data_directory e0
    = Some (IntRecord [n; m] :: RealRecord temps :: rest)
    /\ nte ad = Some n /\ nelems ad = Some m /\ temperatures ad = Some temps.
Proof.
  intros [b Hrun]%read_atomic_data_in_inv.
  apply read_loop_inv in Hrun as (_ & _ & _ & _ & _ & _ & _ & Hfirst).
  by apply (Hfirst e0 es).
Qed.

Lemma read_atomic_data_grid_of_first_witness :
  exists ad w',
    read_atomic_data_in "data" ["He"; "H"]%string
      (two_files (helium_file [4; 5]%float 1)) = (Returns ad, w')
    /\ exists n m temps rest,
         files (two_files (helium_file [4; 5]%float 1))
           !! eigen_filename "data" "He"
         = Some (IntRecord [n; m] :: RealRecord temps :: rest)
         /\ nte ad = Some n /\ nelems ad = Some m
         /\ temperatures ad = Some temps.
Proof.
  eexists _, _.
  match goal with
  | |- ?A /\ _ => assert (Hrun : A) by (vm_compute; reflexivity)
  end.
  split; [exact Hrun|].
  exact (read_atomic_data_grid_of_first "data" "He" ["H"%string] _ _ _ Hrun).
Defined.

Lemma read_loop_next (data_directory : string) (pre post : list string)
    (e : string) (ad : atomic_data) (b : bool) (w w1 w2 : world) (ex : exn) :
  for_each pre (read_atomic_data_body data_directory)
    (empty_atomic_data, true) w = (Returns (ad, b), w1) ->
  read_atomic_data_body data_directory e (ad, b) w1 = (Raises ex, w2) ->
  read_atomic_data_in data_directory (pre ++ e :: post) w = (Raises ex, w2).
Proof.
  intros Hrun Hbody. unfold read_atomic_data_in. apply bind_Raises.
  rewrite for_each_app, (bind_Returns _ _ _ _ _ Hrun).
  change (for_each (e :: post) (read_atomic_data_body data_directory)
            (ad, b) w1)
    with ((let* s' := read_atomic_data_body data_directory e (ad, b) in
           for_each post (read_atomic_data_body data_directory) s') w1).
  by apply bind_Raises.
Qed.

(** X12: the loader stops at the first symbol that is not in the registry:
    when the elements before it load, it raises [KeyError] with that symbol,
    having opened the files of the elements before it and no other; nothing
    after it is looked at. *)
Theorem read_atomic_data_unknown_element (data_directory : string)
    (pre post : list string) (e : string) (ad : atomic_data) (w w1 : world) :
  read_atomic_data_in data_directory pre w = (Returns ad, w1) ->
  AtomicNumbers !! e = None ->
  read_atomic_data_in data_directory (pre ++ e :: post) w
  = (Raises (KeyError e), w1).
Proof.
  intros [b Hrun]%read_atomic_data_in_inv He.
  apply (read_loop_next _ _ _ _ _ _ _ _ _ _ Hrun).
  unfold read_atomic_data_body.
  by rewrite (bind_Raises _ _ _ _ _ (getitem_None _ _ w1 He)).
Qed.

Lemma read_atomic_data_unknown_element_witness :
  exists ad w1,
    read_atomic_data_in "data" ["H"%string]
      (two_files (helium_file [4; 5]%float 1)) = (Returns ad, w1)
    /\ AtomicNumbers !! "Xx"%string = None
    /\ read_atomic_data_in "data" (["H"%string] ++ "Xx"%string :: ["He"%string])
         (two_files (helium_file [4; 5]%float 1))
       = (Raises (KeyError "Xx"), w1).
Proof.
  eexists _, _.
  match goal with
  | |- ?A /\ _ => assert (Hrun : A) by (vm_compute; reflexivity)
  end.
  split; [exact Hrun|]. split; [reflexivity|].
  exact (read_atomic_data_unknown_element "data" ["H"%string] ["He"%string]
           "Xx" _ _ _ Hrun eq_refl).
Defined.

(** X13: a registered element whose file is not in the directory makes the
    loader raise [FileNotFoundError] with the file's name, when the elements
    before it load; the open of the missing file is the last thing it does,
    and no array is created for the element. *)
Theorem read_atomic_data_missing_file (data_directory : string)
    (pre post : list string) (e : string) (ad : atomic_data) (w w1 : world) :
  read_atomic_data_in data_directory pre w = (Returns ad, w1) ->
  is_Some (AtomicNumbers !! e) ->
  files w !! eigen_filename data_directory e = None ->
  read_atomic_data_in data_directory (pre ++ e :: post) w
  = (Raises (FileNotFoundError (eigen_filename data_directory e)),
     log_open (eigen_filename data_directory e) w1).
Proof.
  intros [b Hrun]%read_atomic_data_in_inv [Z HZ] Hfile.
  pose proof (read_loop_inv _ _ _ _ _ _ _ _ Hrun) as (Hfs & _).
  apply (read_loop_next _ _ _ _ _ _ _ _ _ _ Hrun).
  unfold read_atomic_data_body.
  rewrite (bind_Returns _ _ _ _ _ (getitem_Some _ _ _ w1 HZ)).
  apply bind_Raises. unfold read_element_file. apply bind_Raises.
  unfold FortranFile.open. by rewrite Hfs, Hfile.
Qed.

Lemma read_atomic_data_missing_file_witness :
  exists ad w1,
    read_atomic_data_in "data" ["H"%string]
      (two_files (helium_file [4; 5]%float 1)) = (Returns ad, w1)
    /\ is_Some (AtomicNumbers !! "Li"%string)
    /\ files (two_files (helium_file [4; 5]%float 1))
         !! eigen_filename "data" "Li" = None
    /\ read_atomic_data_in "data" (["H"%string] ++ "Li"%string :: ["He"%string])
         (two_files (helium_file [4; 5]%float 1))
       = (Raises (FileNotFoundError (eigen_filename "data" "Li")),
          log_open (eigen_filename "data" "Li") w1).
Proof.
  eexists _, _.
  match goal with
  | |- ?A /\ _ => assert (Hrun : A) by (vm_compute; reflexivity)
  end.
  split; [exact Hrun|].
  assert (Hreg : is_Some (AtomicNumbers !! "Li"%string))
    by (exists 3; reflexivity).
  assert (Hfile : files (two_files (helium_file [4; 5]%float 1))
                    !! eigen_filename "data" "Li" = None)
    by (vm_compute; reflexivity).
  split; [exact Hreg|]. split; [exact Hfile|].
  exact (read_atomic_data_missing_file "data" ["H"%string] ["He"%string]
           "Li" _ _ _ Hrun Hreg Hfile).
Defined.

(** ** Equilibrium initialisation from the files *)

Section FromFiles.

Variable func_index_te : float -> list float -> Z.

(** X14: equilibrium initialisation without [AtomicData], end to end.  The
    temperature index is resolved on the grid in the second record of the
    first element's file.  For every requested element, of atomic number
    [Z], the distribution returned is the row at that index (negative
    indices counting from the end) of the table in the third record of the
    element's own file, cut into rows of [Z+1] entries, with the cleanup
    rule applied to each entry. *)
Theorem create_from_files (e0 : string) (es : list string)
    (temperature : float) (cs : gmap string np.ndarray) (w w' : world) :
  (0 <? temperature)%float = true ->
  create_ChargeStates_dictionary func_index_te (e0 :: es) temperature None w
  = (Returns cs, w') ->
  exists n m temps rest0,
    files w !! eigen_filename default_data_directory e0
    = Some (IntRecord [n; m] :: RealRecord temps :: rest0)
    /\ forall e, e ∈ e0 :: es ->
         exists (Z : nat) m' temps' rows rest r v a,
           AtomicNumbers !! e = Some Z
           /\ files w !! eigen_filename default_data_directory e
              = Some (IntRecord [n; m'] :: RealRecord temps'
                      :: RealRecord (concat rows) :: rest)
           /\ Forall (fun row => length row = Z + 1) rows
           /\ np.norm_index (length rows) (func_index_te temperature temps)
              = Some r
           /\ rows !! r = Some v
           /\ cs !! e = Some a
           /\ np.buffer_row (heap w') a = Some (cleanup_rule <$> v).
Proof.
  intros HT Hrun.
  apply create_inv in Hrun as (cs1 & w1 & Hneutral & Hequil & _).
  apply neutral_loop_inv in Hneutral as (Hf1 & _).
  unfold equilibrium_block in Hequil. rewrite HT in Hequil.
  apply bind_inv_Returns in Hequil as (ad & w2 & Hread & Hequil).
  apply bind_inv_Returns in Hequil as (grid & w3 & Hgrid & Hloop).
  assert (temperatures ad = Some grid /\ w3 = w2) as [Hgrid' ->].
  { unfold of_option in Hgrid. destruct (temperatures ad); [|done].
    by injection Hgrid as -> <-. }
  apply read_atomic_data_in_inv in Hread as [b Hread].
  apply read_loop_inv in Hread
    as (_ & _ & _ & Hstored & _ & _ & _ & Hfirst).
  destruct (Hfirst e0 es eq_refl eq_refl)
    as (n & m & temps & rest0 & Hfile0 & Hnte & _ & Htemps).
  assert (grid = temps) as -> by congruence.
  rewrite Hf1 in Hfile0, Hstored.
  exists n, m, temps, rest0. split; [done|]. intros e He.
  apply equilibrium_loop_inv in Hloop as (_ & _ & Hin & _ & Hrows).
  destruct (Hin e He) as (a & v & Hview & Hcs & Hv).
  destruct (Hstored e He)
    as (t & Ht & Z & n' & m' & temps' & rows & rest & HZ & _ & _ & _ & _
        & Hloc & Hall & _ & Hn' & Hfile).
  assert (n' = n) as -> by congruence.
  unfold view_of in Hview. rewrite Ht, Hloc in Hview.
  destruct (np.norm_index (length rows) (func_index_te temperature temps))
    as [r|] eqn:Hr; [|done].
  injection Hview as <-.
  unfold np.buffer_row in Hv. cbn in Hv. rewrite Hloc in Hv. cbn in Hv.
  exists Z, m', temps', rows, rest, r, v, (np.RowView (equistate t) r).
  repeat split; try done.
  rewrite Hrows, decide_True.
  - unfold np.buffer_row at 1. cbn. rewrite Hloc. cbn. by rewrite Hv.
  - apply Exists_exists. exists e. split; [done|].
    unfold view_of. by rewrite Ht, Hloc, Hr.
Qed.

End FromFiles.

Lemma create_from_files_witness :
  exists cs w',
    (0 <? 5.2)%float = true
    /\ create_ChargeStates_dictionary nearest_index ("H"%string :: []) 5.2 None
         disk_world = (Returns cs, w')
    /\ exists n m temps rest0,
         files disk_world !! eigen_filename default_data_directory "H"
         = Some (IntRecord [n; m] :: RealRecord temps :: rest0)
         /\ forall e, e ∈ "H"%string :: [] ->
              exists (Z : nat) m' temps' rows rest r v a,
                AtomicNumbers !! e = Some Z
                /\ files disk_world !! eigen_filename default_data_directory e
                   = Some (IntRecord [n; m'] :: RealRecord temps'
                           :: RealRecord (concat rows) :: rest)
                /\ Forall (fun row => length row = Z + 1) rows
                /\ np.norm_index (length rows) (nearest_index 5.2 temps)
                   = Some r
                /\ rows !! r = Some v
                /\ cs !! e = Some a
                /\ np.buffer_row (heap w') a = Some (cleanup_rule <$> v).
Proof.
  eexists _, _. split; [reflexivity|].
  match goal with
  | |- ?A /\ _ => assert (Hrun : A) by (vm_compute; reflexivity)
  end.
  split; [exact Hrun|].
  exact (create_from_files nearest_index "H" [] 5.2 _ _ _ eq_refl Hrun).
Defined.

(** ** ReformatChargeStateList: what a call that returns has read *)

Lemma reformat_step_inv (ChargeStateList : list (gmap string (list float)))
    (element : string) (ncharge istep : nat) (dest dest' : list (list float))
    (w w' : world) :
  0 < ncharge ->
  reformat_step ChargeStateList element ncharge istep dest w
  = (Returns dest', w') ->
  w' = w
  /\ exists step dist,
       ChargeStateList !! istep = Some step
       /\ step !! element = Some dist
       /\ fits ncharge dist = true
       /\ dest' = <[istep := row_of ncharge dist]> dest.
Proof.
  intros Hpos Hrun.
  destruct (ChargeStateList !! istep) as [step|] eqn:Hstep;
    [|unfold reformat_step in Hrun; by rewrite Hstep in Hrun].
  destruct (step !! element) as [dist|] eqn:Hdist.
  - rewrite (reformat_step_run _ _ _ _ _ step dist w Hpos Hstep Hdist) in Hrun.
    destruct (fits ncharge dist) eqn:Hfits; [|done].
    injection Hrun as <- <-. split; [done|]. by exists step, dist.
  - unfold reformat_step in Hrun. rewrite Hstep in Hrun.
    unfold of_option in Hrun. unfold bind at 1 in Hrun. unfold ret at 1 in Hrun.
    by rewrite (bind_Raises _ _ _ _ _ (getitem_None _ _ w Hdist)) in Hrun.
Qed.

Lemma reformat_steps_inv (ChargeStateList : list (gmap string (list float)))
    (element : string) (ncharge : nat) (m : nat) :
  0 < ncharge ->
  forall (k : nat) (dest dest' : list (list float)) (w w' : world),
    for_each (seq k m) (reformat_step ChargeStateList element ncharge) dest w
    = (Returns dest', w') ->
    w' = w
    /\ length dest' = length dest
    /\ (forall i, i < k -> dest' !! i = dest !! i)
    /\ forall istep, k <= istep < k + m ->
         exists step dist,
           ChargeStateList !! istep = Some step
           /\ step !! element = Some dist
           /\ fits ncharge dist = true
           /\ (istep < length dest ->
               dest' !! istep = Some (row_of ncharge dist)).
Proof.
  intros Hpos. induction m as [|m IH]; intros k dest dest' w w' Hrun.
  - injection Hrun as <- <-. repeat split; try done. intros istep Hi. lia.
  - change (for_each (seq k (S m))
              (reformat_step ChargeStateList element ncharge) dest w)
      with ((let* d := reformat_step ChargeStateList element ncharge k dest in
             for_each (seq (S k) m)
               (reformat_step ChargeStateList element ncharge) d) w) in Hrun.
    apply bind_inv_Returns in Hrun as (d1 & w1 & Hstep & Hrest).
    apply (reformat_step_inv _ _ _ _ _ _ _ _ Hpos) in Hstep
      as (-> & step & dist & Hs & Hd & Hfits & ->).
    apply IH in Hrest as (-> & Hlen & Hbefore & Hin).
    rewrite length_insert in Hlen.
    split; [done|]. split; [done|]. split.
    + intros i Hi. rewrite Hbefore by lia.
      apply list_lookup_insert_ne. lia.
    + intros istep Hi. destruct (decide (istep = k)) as [->|Hne].
      * exists step, dist. repeat split; try done.
        intros Hk. rewrite Hbefore by lia.
        by apply list_lookup_insert_eq.
      * destruct (Hin istep) as (step' & dist' & ? & ? & ? & Hrow); [lia|].
        exists step', dist'. repeat split; try done.
        intros Hk. apply Hrow. by rewrite length_insert.
Qed.

Lemma reformat_body_inv (ChargeStateList : list (gmap string (list float)))
    (nsteps : Z) (element : string) (cs0 cs : gmap string (list (list float)))
    (w w' : world) :
  reformat_body ChargeStateList nsteps element cs0 w = (Returns cs, w') ->
  w' = w
  /\ (0 <= nsteps + 1)%Z
  /\ has_steps ChargeStateList nsteps element
  /\ exists rows,
       cs = <[element := rows]> cs0
       /\ rows_for ChargeStateList nsteps element rows.
Proof.
  unfold reformat_body. intros Hrun.
  apply bind_inv_Returns in Hrun as (Z & w1 & [HZ ->]%getitem_inv & Hrun).
  apply bind_inv_Returns in Hrun as (d0 & w1 & Hzeros & Hrun).
  unfold zeros2 in Hzeros.
  destruct (decide (0 <= nsteps + 1)%Z) as [Hn|]; [|done].
  injection Hzeros as <- <-.
  apply bind_inv_Returns in Hrun as (d1 & w1 & Hloop & Hrun).
  injection Hrun as <- <-.
  unfold range in Hloop.
  apply reformat_steps_inv in Hloop as (-> & Hlen & _ & Hin); [|lia].
  rewrite length_replicate in Hlen.
  split; [done|]. split; [done|]. split.
  - intros istep Hi.
    destruct (Hin istep) as (step & dist & ? & ? & _); [lia|].
    by exists step, dist.
  - exists d1. split; [done|]. exists Z. split; [done|]. split; [done|].
    intros istep step dist Hi Hs Hd.
    destruct (Hin istep) as (step' & dist' & Hs' & Hd' & Hfits & Hrow); [lia|].
    assert (step' = step) as -> by congruence.
    assert (dist' = dist) as -> by congruence.
    split; [done|]. apply Hrow. by rewrite length_replicate.
Qed.

Lemma reformat_elements_inv
    (ChargeStateList : list (gmap string (list float))) (nsteps : Z)
    (elements : list string) :
  forall (cs0 cs : gmap string (list (list float))) (w w' : world),
    for_each elements (reformat_body ChargeStateList nsteps) cs0 w
    = (Returns cs, w') ->
    w' = w
    /\ (forall e, e ∉ elements -> cs !! e = cs0 !! e)
    /\ forall e, e ∈ elements ->
         (0 <= nsteps + 1)%Z
         /\ has_steps ChargeStateList nsteps e
         /\ exists rows, cs !! e = Some rows
                         /\ rows_for ChargeStateList nsteps e rows.
Proof.
  induction elements as [|e es IH]; intros cs0 cs w w' Hrun.
  - injection Hrun as <- <-. split; [done|]. split; [done|].
    intros e' He; by apply elem_of_nil in He.
  - change (for_each (e :: es) (reformat_body ChargeStateList nsteps) cs0 w)
      with ((let* c := reformat_body ChargeStateList nsteps e cs0 in
             for_each es (reformat_body ChargeStateList nsteps) c) w) in Hrun.
    apply bind_inv_Returns in Hrun as (cs1 & w1 & Hbody & Hrest).
    apply reformat_body_inv in Hbody as (-> & Hn & Hsteps & rows & -> & Hrows).
    apply IH in Hrest as (-> & Hout & Hin).
    split; [done|]. split.
    + intros e' [Hne Hnin]%not_elem_of_cons.
      rewrite (Hout e' Hnin). by apply lookup_insert_ne.
    + intros e' He'. destruct (decide (e' ∈ es)) as [Hes|Hes]; [by apply Hin|].
      apply elem_of_cons in He' as [->|He']; [|done].
      split; [done|]. split; [done|]. exists rows. split; [|done].
      rewrite (Hout e Hes). by apply lookup_insert_eq.
Qed.

(** X15: [ReformatChargeStateList] returns nothing partial.  When it
    returns, its keys are the requested elements and no other, and for each
    of them: the element is registered, the list holds every one of the
    [nsteps+1] steps and each of these holds the element, each distribution
    read has at least [Z+1] entries or exactly one, and the array has
    [nsteps+1] rows, row [istep] being the first [Z+1] entries of the
    distribution of step [istep] (or its single entry repeated); nothing
    else is touched. *)
Theorem reformat_returns_only_complete
    (ChargeStateList : list (gmap string (list float)))
    (elements : list string) (nsteps : Z)
    (cs : gmap string (list (list float))) (w w' : world) :
  ReformatChargeStateList ChargeStateList elements nsteps w
  = (Returns cs, w') ->
  w' = w
  /\ (forall e, is_Some (cs !! e) <-> e ∈ elements)
  /\ forall e, e ∈ elements ->
       (0 <= nsteps + 1)%Z
       /\ has_steps ChargeStateList nsteps e
       /\ exists rows, cs !! e = Some rows
                       /\ rows_for ChargeStateList nsteps e rows.
Proof.
  unfold ReformatChargeStateList. intros Hrun.
  apply reformat_elements_inv in Hrun as (-> & Hout & Hin).
  split; [done|]. split; [|done].
  intros e. split.
  - intros Hsome. destruct (decide (e ∈ elements)) as [|Hnot]; [done|].
    rewrite (Hout e Hnot), lookup_empty in Hsome. by destruct Hsome.
  - intros He. destruct (Hin e He) as (_ & _ & rows & Hrows & _).
    by exists rows.
Qed.

Lemma reformat_returns_only_complete_witness :
  let steps : list (gmap string (list float)) :=
    [ {[ "H"%string := [1; 0]%float; "He"%string := [1]%float ]};
      {[ "H"%string := [0.5; 0.5; 7]%float;
         "He"%string := [0.25; 0.5; 0.25]%float ]} ] in
  exists cs w',
    ReformatChargeStateList steps ["H"; "He"]%string 1 empty_world
    = (Returns cs, w')
    /\ w' = empty_world
    /\ (forall e, is_Some (cs !! e) <-> e ∈ ["H"; "He"]%string)
    /\ forall e, e ∈ ["H"; "He"]%string ->
         (0 <= 1 + 1)%Z
         /\ has_steps steps 1 e
         /\ exists rows, cs !! e = Some rows /\ rows_for steps 1 e rows.
Proof.
  intros steps. eexists _, _.
  match goal with
  | |- ?A /\ _ => assert (Hrun : A) by (vm_compute; reflexivity)
  end.
  split; [exact Hrun|].
  exact (reformat_returns_only_complete steps ["H"; "He"]%string 1 _ _ _ Hrun).
Defined.

(** ** Calling again with the same dictionary *)

Lemma length_update_row (f : list float -> list float) (a : np.ndarray)
    (h : list ndarray2) :
  length (np.update_row f a h) = length h.
Proof. unfold np.update_row. apply length_alter. Qed.

Lemma equilibrium_body_run (AtomicData : atomic_data) (TemperatureIndex : Z)
    (element : string) (Z : nat) (a : np.ndarray) (v : list float)
    (cs0 : gmap string np.ndarray) (w : world) :
  AtomicNumbers !! element = Some Z ->
  view_of (heap w) AtomicData TemperatureIndex element = Some a ->
  np.buffer_row (heap w) a = Some v ->
  equilibrium_body AtomicData TemperatureIndex element cs0 w
  = (Returns (<[element := a]> cs0),
     set_heap (np.update_row (fmap cleanup_rule) a (heap w)) w).
Proof.
  intros HZ Hview Hv. unfold equilibrium_body.
  rewrite (bind_Returns _ _ _ _ _ (getitem_Some _ _ _ w HZ)).
  unfold view_of in Hview.
  destruct (tables AtomicData !! element) as [t|] eqn:Ht; [|done].
  rewrite (bind_Returns _ _ _ _ _ (getitem_Some _ _ _ w Ht)).
  destruct (heap w !! equistate t) as [rows|] eqn:Hrows; [|done].
  destruct (np.norm_index (length rows) TemperatureIndex) as [r|] eqn:Hr;
    [|done].
  injection Hview as <-.
  erewrite bind_Returns; [|unfold np.row_view; by rewrite Hrows, Hr].
  erewrite bind_Returns;
    [|apply getitem_Some; by apply lookup_insert_eq].
  rewrite (bind_Returns _ _ _ _ _ (np_size_Some _ _ _ Hv)).
  fold (cleanup_loop (<[element := np.RowView (equistate t) r]> cs0) element
          (length v)).
  erewrite bind_Returns;
    [|apply (cleanup_loop_spec _ element (np.RowView (equistate t) r) v w);
      [by apply lookup_insert_eq | done]].
  done.
Qed.

Lemma equilibrium_loop_total (AtomicData : atomic_data) (TemperatureIndex : Z)
    (elements : list string) :
  forall (cs0 : gmap string np.ndarray) (w : world),
    (forall e, e ∈ elements ->
       is_Some (AtomicNumbers !! e)
       /\ exists a, view_of (heap w) AtomicData TemperatureIndex e = Some a
                    /\ is_Some (np.buffer_row (heap w) a)) ->
    exists cs w',
      for_each elements (equilibrium_body AtomicData TemperatureIndex) cs0 w
      = (Returns cs, w').
Proof.
  induction elements as [|e es IH]; intros cs0 w Hall.
  - by eexists _, _.
  - destruct (Hall e) as ([Z HZ] & a & Hview & [v Hv]); [by left|].
    change (for_each (e :: es) (equilibrium_body AtomicData TemperatureIndex)
              cs0 w)
      with ((let* c := equilibrium_body AtomicData TemperatureIndex e cs0 in
             for_each es (equilibrium_body AtomicData TemperatureIndex) c) w).
    rewrite (bind_Returns _ _ _ _ _
               (equilibrium_body_run _ _ _ _ _ _ cs0 w HZ Hview Hv)).
    apply IH. intros e' He'.
    destruct (Hall e') as (HZ' & a' & Hview' & [v' Hv']); [by right|].
    split; [done|]. exists a'. cbn [heap set_heap].
    split; [by rewrite view_of_update|].
    rewrite buffer_row_update, Hv'. by destruct (decide _).
Qed.

Lemma equilibrium_loop_views (AtomicData : atomic_data) (TemperatureIndex : Z)
    (elements : list string) :
  forall (cs0 cs : gmap string np.ndarray) (w w' : world),
    for_each elements (equilibrium_body AtomicData TemperatureIndex) cs0 w
    = (Returns cs, w') ->
    length (heap w') = length (heap w)
    /\ forall i e, view_of (heap w') AtomicData i e
                   = view_of (heap w) AtomicData i e.
Proof.
  induction elements as [|e es IH]; intros cs0 cs w w' Hrun.
  - by injection Hrun as <- <-.
  - change (for_each (e :: es) (equilibrium_body AtomicData TemperatureIndex)
              cs0 w)
      with ((let* c := equilibrium_body AtomicData TemperatureIndex e cs0 in
             for_each es (equilibrium_body AtomicData TemperatureIndex) c) w)
      in Hrun.
    apply bind_inv_Returns in Hrun as (cs1 & w1 & Hbody & Hrest).
    apply equilibrium_body_inv in Hbody as (a & v & _ & _ & -> & ->).
    apply IH in Hrest as [Hlen Hviews]. cbn [heap set_heap] in Hlen, Hviews.
    split.
    + by rewrite Hlen, length_update_row.
    + intros i e'. by rewrite Hviews, view_of_update.
Qed.

Section Again.

Variable func_index_te : float -> list float -> Z.

(** X16: equilibrium initialisation writes the cleaned values into the
    caller's dictionary, so a second call with the same dictionary finds
    them there.  After a call that returned, the same call returns again,
    with the same dictionary of views, and leaves every array that existed
    as it was: the tables are not changed a second time, and the
    distributions handed out by the first call keep their values. *)
Theorem create_again (elements : list string) (temperature : float)
    (AtomicData : atomic_data) (cs : gmap string np.ndarray) (w w' : world) :
  (0 <? temperature)%float = true ->
  (forall e t, tables AtomicData !! e = Some t ->
               equistate t < length (heap w)) ->
  create_ChargeStates_dictionary func_index_te elements temperature
    (Some AtomicData) w = (Returns cs, w') ->
  exists w'',
    create_ChargeStates_dictionary func_index_te elements temperature
      (Some AtomicData) w' = (Returns cs, w'')
    /\ forall b v, np.buffer_row (heap w') b = Some v ->
                   np.buffer_row (heap w'') b = Some v.
Proof.
  intros HT Hwf Hrun.
  apply create_inv in Hrun as (cs1 & w1 & Hneutral & Hequil & Hcheck).
  apply neutral_loop_inv in Hneutral as (_ & _ & [extra1 Hh1] & Hin1 & Hout1).
  unfold equilibrium_block in Hequil. rewrite HT in Hequil.
  rewrite bind_ret in Hequil.
  apply bind_inv_Returns in Hequil as (grid & w2 & Hgrid & Hloop).
  assert (temperatures AtomicData = Some grid /\ w2 = w1) as [Hgrid' ->].
  { unfold of_option in Hgrid. destruct (temperatures AtomicData); [|done].
    by injection Hgrid as -> <-. }
  set (idx := func_index_te temperature grid) in *.
  pose proof (equilibrium_loop_views _ _ _ _ _ _ _ Hloop) as [Hlen Hviews].
  apply equilibrium_loop_inv in Hloop as (_ & _ & Hin & Hout & Hrows).
  apply check_block_inv in Hcheck as [_ Hsums].
  assert (Hreg : Forall (fun e => is_Some (AtomicNumbers !! e)) elements).
  { apply Forall_forall. intros e He.
    destruct (Hin1 e He) as (Z & _ & HZ & _). by exists Z. }
  assert (Hwf' : forall e t, tables AtomicData !! e = Some t ->
                             equistate t < length (heap w')).
  { intros e t Ht. rewrite Hlen, Hh1, length_app.
    specialize (Hwf e t Ht). lia. }
  (* the second call *)
  destruct (neutral_loop_total elements Hreg ∅ w') as (cs1' & w1' & Hneutral').
  pose proof (neutral_loop_inv _ _ _ _ _ Hneutral')
    as (_ & _ & [extra2 Hh2] & _ & Hout1').
  assert (Hsame : forall e,
            view_of (heap w1') AtomicData idx e
            = view_of (heap w1) AtomicData idx e).
  { intros e. rewrite Hh2, view_of_app; [apply Hviews | exact Hwf']. }
  destruct (equilibrium_loop_total AtomicData idx elements cs1' w1')
    as (cs2 & w'' & Hloop').
  { intros e He. split.
    { destruct (Hin1 e He) as (Z & _ & HZ & _). by exists Z. }
    destruct (Hin e He) as (a & v & Hview & Hcs & Hv).
    exists a. split; [by rewrite Hsame|].
    rewrite Hh2.
    destruct (np.buffer_row (heap w') a) as [v'|] eqn:Hv'.
    - rewrite (buffer_row_app _ _ _ _ Hv'). by exists v'.
    - rewrite Hrows, Hv in Hv'. by destruct (decide _). }
  pose proof (equilibrium_loop_inv _ _ _ _ _ _ _ Hloop')
    as (_ & _ & Hin' & Hout' & Hrows').
  assert (Hcs : cs2 = cs).
  { apply map_eq. intros e. destruct (decide (e ∈ elements)) as [He|He].
    - destruct (Hin e He) as (a & v & Hview & -> & _).
      destruct (Hin' e He) as (a' & v' & Hview' & -> & _).
      rewrite Hsame in Hview'. congruence.
    - rewrite (Hout' e He), (Hout1' e He), (Hout e He), (Hout1 e He). done. }
  subst cs2.
  assert (Hkeep : forall b v, np.buffer_row (heap w') b = Some v ->
                              np.buffer_row (heap w'') b = Some v).
  { intros b v Hv. rewrite Hrows', Hh2, (buffer_row_app _ _ _ _ Hv).
    destruct (decide _) as [Hex|]; [|done].
    cbn. f_equal.
    apply Exists_exists in Hex as (e & He & Hview).
    rewrite <- Hh2, Hsame in Hview.
    rewrite Hrows, decide_True in Hv
      by (apply Exists_exists; by exists e).
    destruct (np.buffer_row (heap w1) b) as [v0|]; [|done].
    injection Hv as <-.
    rewrite <- list_fmap_compose. apply list_fmap_ext.
    intros _ x _. apply cleanup_rule_idempotent. }
  exists w''. split; [|done].
  unfold create_ChargeStates_dictionary, neutral_block.
  rewrite (bind_Returns _ _ _ _ _ Hneutral').
  erewrite bind_Returns.
  2:{ unfold equilibrium_block. rewrite HT, bind_ret.
      unfold of_option. rewrite Hgrid'. rewrite bind_ret. exact Hloop'. }
  erewrite bind_Returns; [done|].
  apply check_block_ok. intros e He.
  destruct (Hsums e He) as (val & Hval & Htol).
  exists val. split; [|done].
  apply sum_of_Some in Hval as (a & v & Ha & Hv & ->).
  apply sum_of_Some. exists a, v. split; [done|]. split; [|done].
  by apply Hkeep.
Qed.

(** X17: [EquilChargeStates] and [create_ChargeStates_dictionary] agree on
    one element.  With a positive temperature and a dictionary whose row at
    the resolved index has no entry above [1.0], when the call for the list
    of that one element returns, [EquilChargeStates] on the same dictionary
    returns the same view of the table, with the same values in it, and
    changes no other row. *)
Theorem EquilChargeStates_agrees_with_create (element : string)
    (temperature : float) (AtomicData : atomic_data) (grid v : list float)
    (a : np.ndarray) (cs : gmap string np.ndarray) (w w' : world) :
  (0 <? temperature)%float = true ->
  (forall e t, tables AtomicData !! e = Some t ->
               equistate t < length (heap w)) ->
  temperatures AtomicData = Some grid ->
  view_of (heap w) AtomicData (func_index_te temperature grid) element
  = Some a ->
  np.buffer_row (heap w) a = Some v ->
  Forall (fun x => (1 <? x)%float = false) v ->
  create_ChargeStates_dictionary func_index_te [element] temperature
    (Some AtomicData) w = (Returns cs, w') ->
  exists w'',
    EquilChargeStates func_index_te temperature element (Some AtomicData) w
    = (Returns a, w'')
    /\ cs !! element = Some a
    /\ np.buffer_row (heap w'') a = np.buffer_row (heap w') a
    /\ forall b, b <> a ->
         np.buffer_row (heap w'') b = np.buffer_row (heap w) b.
Proof.
  intros HT Hwf Hgrid Hview Hv Hall Hrun.
  apply create_inv in Hrun as (cs1 & w1 & Hneutral & Hequil & _).
  apply neutral_loop_inv in Hneutral as (_ & _ & [extra1 Hh1] & _).
  unfold equilibrium_block in Hequil. rewrite HT in Hequil.
  rewrite bind_ret in Hequil. unfold of_option in Hequil.
  rewrite Hgrid, bind_ret in Hequil.
  apply equilibrium_loop_inv in Hequil as (_ & _ & Hin & _ & Hrows).
  destruct (Hin element) as (a' & v' & Hview' & Hcs & _); [by left|].
  rewrite Hh1, view_of_app, Hview in Hview' by done.
  injection Hview' as <-.
  assert (Hbase : np.base a < length (heap w)).
  { unfold np.buffer_row in Hv. apply lookup_lt_is_Some.
    destruct (heap w !! np.base a); [by eexists | done]. }
  destruct (EquilChargeStates_returns_below_one func_index_te temperature
              element AtomicData grid v a w Hgrid Hview Hv Hall) as [Hrun _].
  eexists. split; [exact Hrun|]. split; [done|]. cbn [heap set_heap]. split.
  - rewrite buffer_row_update, decide_True by done.
    rewrite Hrows, decide_True.
    + by rewrite Hh1, buffer_row_app_lt.
    + apply Exists_exists. exists element. split; [by left|].
      by rewrite Hh1, view_of_app.
  - intros b Hb. by rewrite buffer_row_update, decide_False.
Qed.

End Again.

Lemma create_again_witness :
  exists cs w',
    (0 <? 5.2)%float = true
    /\ (forall e t, tables (hydrogen_data [4; 5]%float) !! e = Some t ->
                    equistate t < length (heap (hydrogen_world roundoff_rows)))
    /\ create_ChargeStates_dictionary nearest_index ["H"%string] 5.2
         (Some (hydrogen_data [4; 5]%float)) (hydrogen_world roundoff_rows)
       = (Returns cs, w')
    /\ exists w'',
         create_ChargeStates_dictionary nearest_index ["H"%string] 5.2
           (Some (hydrogen_data [4; 5]%float)) w' = (Returns cs, w'')
         /\ forall b v, np.buffer_row (heap w') b = Some v ->
                        np.buffer_row (heap w'') b = Some v.
Proof.
  eexists _, _. split; [reflexivity|].
  split; [apply hydrogen_table_in_heap|].
  match goal with
  | |- ?A /\ _ => assert (Hrun : A) by (vm_compute; reflexivity)
  end.
  split; [exact Hrun|].
  exact (create_again nearest_index ["H"%string] 5.2 _ _ _ _ eq_refl
           (hydrogen_table_in_heap _ _) Hrun).
Defined.

Lemma EquilChargeStates_agrees_with_create_witness :
  let AtomicData := hydrogen_data [4; 5]%float in
  let w := hydrogen_world roundoff_rows in
  let a := np.RowView 0 1 in
  let v := [0.999999999991; 8.9e-16]%float in
  exists cs w',
    (0 <? 5.2)%float = true
    /\ (forall e t, tables AtomicData !! e = Some t ->
                    equistate t < length (heap w))
    /\ temperatures AtomicData = Some [4; 5]%float
    /\ view_of (heap w) AtomicData (nearest_index 5.2 [4; 5]%float) "H"
       = Some a
    /\ np.buffer_row (heap w) a = Some v
    /\ Forall (fun x => (1 <? x)%float = false) v
    /\ create_ChargeStates_dictionary nearest_index ["H"%string] 5.2
         (Some AtomicData) w = (Returns cs, w')
    /\ exists w'',
         EquilChargeStates nearest_index 5.2 "H" (Some AtomicData) w
         = (Returns a, w'')
         /\ cs !! "H"%string = Some a
         /\ np.buffer_row (heap w'') a = np.buffer_row (heap w') a
         /\ forall b, b <> a ->
              np.buffer_row (heap w'') b = np.buffer_row (heap w) b.
Proof.
  intros AtomicData w a v. eexists _, _.
  assert (Hall : Forall (fun x => (1 <? x)%float = false) v)
    by (repeat constructor).
  split; [reflexivity|].
  split; [apply hydrogen_table_in_heap|].
  split; [reflexivity|]. split; [reflexivity|]. split; [reflexivity|].
  split; [exact Hall|].
  match goal with
  | |- ?A /\ _ => assert (Hrun : A) by (vm_compute; reflexivity)
  end.
  split; [exact Hrun|].
  exact (EquilChargeStates_agrees_with_create nearest_index "H" 5.2 AtomicData
           [4; 5]%float v a _ w _ eq_refl (hydrogen_table_in_heap _ _)
           eq_refl eq_refl eq_refl Hall Hrun).
Defined.

(** ** read_atomic_data: the other arrays of an element *)

Lemma reshape2_shape (v : list float) (n0 : Z) (n1 : nat)
    (a : list (list float)) (w w' : world) :
  np.reshape2 v n0 n1 w = (Returns a, w') ->
  w' = w /\ shape2 n0 n1 a /\ concat a = v.
Proof.
  intros (-> & Hall & Hcat & Hrows)%reshape2_inv. by repeat split.
Qed.

Lemma reshape3_shape (v : list float) (n0 : Z) (n1 n2 : nat)
    (a : list (list (list float))) (w w' : world) :
  np.reshape3 v n0 n1 n2 w = (Returns a, w') ->
  w' = w
  /\ Forall (fun m => length m = n1 /\ Forall (fun r => length r = n2) m) a
  /\ ((0 <= n0)%Z -> length a = Z.to_nat n0)
  /\ flat3 a = v.
Proof.
  unfold np.reshape3.
  destruct (np.infer_dim n0 (n1 * n2) (length v)) as [rows|] eqn:Hdim; [|done].
  intros [= <- <-]. apply infer_dim_Some in Hdim as [Hlen Hrows].
  destruct (chunks_rows rows (n1 * n2) v Hlen) as [Hall Hcat].
  split; [done|]. split; [|split].
  - apply Forall_fmap. eapply Forall_impl; [exact Hall|].
    intros b Hb. cbn. split; [apply chunks_length|].
    by apply chunks_rows.
  - intros Hn. rewrite length_fmap, chunks_length. by apply Hrows.
  - unfold flat3. rewrite <- list_fmap_compose.
    rewrite <- Hcat at 2. f_equal.
    rewrite <- (list_fmap_id (np.chunks rows (n1 * n2) v)) at 2.
    apply Forall_fmap_ext. eapply Forall_impl; [exact Hall|].
    intros b Hb. cbn. by apply chunks_rows.
Qed.

Lemma parse_element_file_arrays (H : list record) (nstates : nat)
    (f : element_file) (w w' : world) :
  parse_element_file H nstates w = (Returns f, w') ->
  (exists r1 r2 r3 rest,
     H = r1 :: r2 :: r3
         :: RealRecord (concat (f_eigenvalues f))
         :: RealRecord (flat3 (f_eigenvector f))
         :: RealRecord (flat3 (f_eigenvector_inv f))
         :: RealRecord (concat (f_c_rate f))
         :: RealRecord (concat (f_r_rate f)) :: rest)
  /\ shape2 (f_nte f) nstates (f_eigenvalues f)
  /\ shape3 (f_nte f) nstates (f_eigenvector f)
  /\ shape3 (f_nte f) nstates (f_eigenvector_inv f)
  /\ shape2 (f_nte f) nstates (f_c_rate f)
  /\ shape2 (f_nte f) nstates (f_r_rate f).
Proof.
  unfold parse_element_file. intros Hrun.
  apply bind_inv_Returns in Hrun as ([ints H1] & w1 & [-> ->]%read_ints_inv & Hrun).
  apply bind_inv_Returns in Hrun as ([a b] & w1 & [-> ->]%unpack2_inv & Hrun).
  apply bind_inv_Returns in Hrun as ([temps H2] & w1 & [-> ->]%read_reals_inv & Hrun).
  apply bind_inv_Returns in Hrun as ([v3 H3] & w1 & [-> ->]%read_reals_inv & Hrun).
  apply bind_inv_Returns in Hrun as (equi & w1 & (-> & _)%reshape2_inv & Hrun).
  apply bind_inv_Returns in Hrun as ([v4 H4] & w1 & [-> ->]%read_reals_inv & Hrun).
  apply bind_inv_Returns in Hrun
    as (a4 & w1 & (-> & S4 & C4)%reshape2_shape & Hrun).
  apply bind_inv_Returns in Hrun as ([v5 H5] & w1 & [-> ->]%read_reals_inv & Hrun).
  apply bind_inv_Returns in Hrun
    as (a5 & w1 & (-> & A5 & L5 & C5)%reshape3_shape & Hrun).
  apply bind_inv_Returns in Hrun as ([v6 H6] & w1 & [-> ->]%read_reals_inv & Hrun).
  apply bind_inv_Returns in Hrun
    as (a6 & w1 & (-> & A6 & L6 & C6)%reshape3_shape & Hrun).
  apply bind_inv_Returns in Hrun as ([v7 H7] & w1 & [-> ->]%read_reals_inv & Hrun).
  apply bind_inv_Returns in Hrun
    as (a7 & w1 & (-> & S7 & C7)%reshape2_shape & Hrun).
  apply bind_inv_Returns in Hrun as ([v8 H8] & w1 & [-> ->]%read_reals_inv & Hrun).
  apply bind_inv_Returns in Hrun
    as (a8 & w1 & (-> & S8 & C8)%reshape2_shape & Hrun).
  injection Hrun as <- <-. cbn.
  split; [|unfold shape3; destruct S4, S7, S8; by repeat split].
  subst v4 v5 v6 v7 v8. by eexists _, _, _, H8.
Qed.

Lemma read_atomic_data_body_arrays (data_directory : string) (e : string)
    (ad0 ad1 : atomic_data) (b0 b1 : bool) (w w1 : world) :
  read_atomic_data_body data_directory e (ad0, b0) w
  = (Returns (ad1, b1), w1) ->
  exists t,
    tables ad1 = <[e := t]> (tables ad0)
    /\ stored_arrays data_directory (files w) (nte ad1) e t.
Proof.
  unfold read_atomic_data_body. intros Hrun.
  apply bind_inv_Returns in Hrun as (Z & w0 & [HZ ->]%getitem_inv & Hrun).
  apply bind_inv_Returns in Hrun as (f & w2 & Hread & Hrun).
  unfold read_element_file, FortranFile.open in Hread.
  apply bind_inv_Returns in Hread as (H & w3 & Hopen & Hparse).
  destruct (files w !! eigen_filename data_directory e) as [H0|] eqn:Hfile;
    [|done].
  injection Hopen as <- <-.
  apply parse_element_file_arrays in Hparse
    as ((r1 & r2 & r3 & rest & ->) & S4 & S5 & S6 & S7 & S8).
  apply bind_inv_Returns in Hrun as ([ad2 b2] & w4 & Hadopt & Hrun).
  apply adopt_or_check_inv in Hadopt as (_ & _ & Htab & Hnte & _).
  unfold bind, np.alloc, ret in Hrun. injection Hrun as <- <- <-.
  eexists. split; [cbn; by rewrite Htab|].
  exists (f_nte f), r1, r2, r3, rest. cbn.
  repeat (split; [done|]). done.
Qed.

Lemma read_loop_arrays (data_directory : string) (elements : list string) :
  forall (ad0 ad : atomic_data) (b0 b : bool) (w w' : world),
    for_each elements (read_atomic_data_body data_directory) (ad0, b0) w
    = (Returns (ad, b), w') ->
    forall e, e ∈ elements ->
      exists t, tables ad !! e = Some t
                /\ stored_arrays data_directory (files w) (nte ad) e t.
Proof.
  induction elements as [|e es IH]; intros ad0 ad b0 b w w' Hrun e' He'.
  - by apply elem_of_nil in He'.
  - change (for_each (e :: es) (read_atomic_data_body data_directory)
              (ad0, b0) w)
      with ((let* s' := read_atomic_data_body data_directory e (ad0, b0) in
             for_each es (read_atomic_data_body data_directory) s') w)
      in Hrun.
    apply bind_inv_Returns in Hrun as ([ad1 b1] & w1 & Hbody & Hrest).
    pose proof (read_atomic_data_body_inv _ _ _ _ _ _ _ _ Hbody)
      as (_ & _ & _ & _ & _ & _ & _ & -> & Hfs & _).
    apply read_atomic_data_body_arrays in Hbody as (t & Htab & Harr).
    pose proof (read_loop_inv _ _ _ _ _ _ _ _ Hrest)
      as (_ & _ & Hout & _ & _ & _ & Hkeep & _).
    destruct (Hkeep eq_refl) as (Knte & _).
    destruct (decide (e' ∈ es)) as [Hes|Hes].
    + destruct (IH _ _ _ _ _ _ Hrest e' Hes) as (t' & Ht' & Harr').
      exists t'. split; [done|]. by rewrite <- Hfs.
    + apply elem_of_cons in He' as [->|He']; [|done].
      exists t. split; [|by rewrite Knte].
      rewrite (Hout e Hes), Htab. by apply lookup_insert_eq.
Qed.

(** X18: besides the equilibrium table, the table that [read_atomic_data]
    returns for an element holds the eigenvalues, the eigenvectors, their
    inverses and the two rates as they are in the element's file: flattened
    in C order they are the fourth to the eighth record, and their shapes
    are [(nte, nstates)] for the eigenvalues and the rates and
    [(nte, nstates, nstates)] for the eigenvectors and their inverses, with
    [nte] the grid length kept at top level. *)
Theorem read_atomic_data_arrays (data_directory : string)
    (elements : list string) (ad : atomic_data) (w w' : world) :
  read_atomic_data_in data_directory elements w = (Returns ad, w') ->
  forall e t, tables ad !! e = Some t ->
    stored_arrays data_directory (files w) (nte ad) e t.
Proof.
  intros [b Hrun]%read_atomic_data_in_inv e t Ht.
  pose proof (read_loop_inv _ _ _ _ _ _ _ _ Hrun) as (_ & _ & Hout & _).
  destruct (decide (e ∈ elements)) as [He|He].
  - destruct (read_loop_arrays _ _ _ _ _ _ _ _ Hrun e He) as (t' & Ht' & Harr).
    by assert (t' = t) as -> by congruence.
  - rewrite (Hout e He) in Ht. cbn in Ht. by rewrite lookup_empty in Ht.
Qed.

Lemma read_atomic_data_arrays_witness :
  exists ad w',
    read_atomic_data_in "data" ["H"; "He"]%string
      (two_files (helium_file [4; 5]%float 1)) = (Returns ad, w')
    /\ forall e t, tables ad !! e = Some t ->
         stored_arrays "data" (files (two_files (helium_file [4; 5]%float 1)))
           (nte ad) e t.
Proof.
  eexists _, _.
  match goal with
  | |- ?A /\ _ => assert (Hrun : A) by (vm_compute; reflexivity)
  end.
  split; [exact Hrun|].
  exact (read_atomic_data_arrays "data" ["H"; "He"]%string _ _ _ Hrun).
Defined.

(** ** ReformatChargeStateList: a step that is not there *)

(** The steps before [k] are there, hold the element and fit. *)
Lemma reformat_body_stops (ChargeStateList : list (gmap string (list float)))
    (nsteps : Z) (element : string) (Z : nat) (k : nat) (ex : exn)
    (cs0 : gmap string (list (list float))) (w : world) :
  AtomicNumbers !! element = Some Z ->
  k < Z.to_nat (nsteps + 1) ->
  (forall istep, istep < k ->
     exists step dist, ChargeStateList !! istep = Some step
                       /\ step !! element = Some dist
                       /\ fits (Z + 1) dist = true) ->
  (forall dest, reformat_step ChargeStateList element (Z + 1) k dest w
                = (Raises ex, w)) ->
  reformat_body ChargeStateList nsteps element cs0 w = (Raises ex, w).
Proof.
  intros HZ Hk Hbefore Hstep. unfold reformat_body.
  rewrite (bind_Returns _ _ _ _ _ (getitem_Some _ _ _ w HZ)).
  unfold zeros2. rewrite decide_True by lia. rewrite bind_ret.
  apply bind_Raises. unfold range.
  replace (Z.to_nat (nsteps + 1))
    with (k + S (Z.to_nat (nsteps + 1) - S k)) by lia.
  rewrite seq_app, for_each_app. cbn [seq].
  destruct (reformat_steps ChargeStateList element (Z + 1) w k ltac:(lia) 0
              (replicate (k + S (Z.to_nat (nsteps + 1) - S k))
                 (replicate (Z + 1) 0%float)))
    as [(dest' & Hrun & _) | (_ & (i & s & d & Hi & Hs & Hd & Hbad))].
  { rewrite length_replicate. lia. }
  { intros istep Hi. destruct (Hbefore istep) as (s & d & ? & ? & _); [lia|].
    by exists s, d. }
  - rewrite (bind_Returns _ _ _ _ _ Hrun).
    change (for_each (0 + k :: seq (S (0 + k)) (Z.to_nat (nsteps + 1) - S k))
              (reformat_step ChargeStateList element (Z + 1)) dest' w)
      with ((let* d := reformat_step ChargeStateList element (Z + 1) (0 + k)
                         dest' in
             for_each (seq (S (0 + k)) (Z.to_nat (nsteps + 1) - S k))
               (reformat_step ChargeStateList element (Z + 1)) d) w).
    apply bind_Raises. apply Hstep.
  - destruct (Hbefore i) as (s' & d' & Hs' & Hd' & Hfits); [lia|].
    congruence.
Qed.

Lemma reformat_next (ChargeStateList : list (gmap string (list float)))
    (nsteps : Z) (pre post : list string) (element : string) (ex : exn)
    (cs : gmap string (list (list float))) (w w1 : world) :
  ReformatChargeStateList ChargeStateList pre nsteps w = (Returns cs, w1) ->
  reformat_body ChargeStateList nsteps element cs w1 = (Raises ex, w1) ->
  ReformatChargeStateList ChargeStateList (pre ++ element :: post) nsteps w
  = (Raises ex, w1).
Proof.
  unfold ReformatChargeStateList. intros Hpre Hbody.
  rewrite for_each_app, (bind_Returns _ _ _ _ _ Hpre).
  change (for_each (element :: post) (reformat_body ChargeStateList nsteps)
            cs w1)
    with ((let* c := reformat_body ChargeStateList nsteps element cs in
           for_each post (reformat_body ChargeStateList nsteps) c) w1).
  by apply bind_Raises.
Qed.

(** X19: a list that is shorter than [nsteps+1] makes
    [ReformatChargeStateList] raise [IndexError]: when the elements before
    load, the next element is registered, and the steps the list does hold
    have a fitting distribution for it, the read of the first step that is
    not in the list fails.  No dictionary is returned. *)
Theorem reformat_short_list
    (ChargeStateList : list (gmap string (list float))) (nsteps : Z)
    (pre post : list string) (element : string) (Z : nat)
    (cs : gmap string (list (list float))) (w w1 : world) :
  ReformatChargeStateList ChargeStateList pre nsteps w = (Returns cs, w1) ->
  AtomicNumbers !! element = Some Z ->
  length ChargeStateList < Z.to_nat (nsteps + 1) ->
  (forall step, step ∈ ChargeStateList ->
     exists dist, step !! element = Some dist /\ fits (Z + 1) dist = true) ->
  ReformatChargeStateList ChargeStateList (pre ++ element :: post) nsteps w
  = (Raises IndexError, w1).
Proof.
  intros Hpre HZ Hshort Hall.
  apply (reformat_next _ _ _ _ _ _ _ _ _ Hpre).
  apply (reformat_body_stops _ _ _ Z (length ChargeStateList)); try done.
  - intros istep Hi.
    destruct (lookup_lt_is_Some_2 ChargeStateList istep Hi) as [step Hstep].
    destruct (Hall step) as (dist & Hdist & Hfits);
      [by eapply list_elem_of_lookup_2|].
    by exists step, dist.
  - intros dest. unfold reformat_step.
    by rewrite (lookup_ge_None_2 ChargeStateList (length ChargeStateList)).
Qed.

Lemma reformat_short_list_witness :
  let steps : list (gmap string (list float)) :=
    [ {[ "H"%string := [1; 0]%float ]};
      {[ "H"%string := [0.5; 0.5]%float ]} ] in
  exists cs w1,
    ReformatChargeStateList steps [] 2 empty_world = (Returns cs, w1)
    /\ AtomicNumbers !! "H"%string = Some 1
    /\ length steps < Z.to_nat (2 + 1)
    /\ (forall step, step ∈ steps ->
          exists dist, step !! "H"%string = Some dist
                       /\ fits (1 + 1) dist = true)
    /\ ReformatChargeStateList steps ([] ++ "H"%string :: []) 2 empty_world
       = (Raises IndexError, w1).
Proof.
  intros steps. eexists _, _.
  assert (Hpre : ReformatChargeStateList steps [] 2 empty_world
                 = (Returns ∅, empty_world)) by reflexivity.
  assert (Hshort : length steps < Z.to_nat (2 + 1)) by (cbn; lia).
  assert (Hall : forall step, step ∈ steps ->
            exists dist, step !! "H"%string = Some dist
                         /\ fits (1 + 1) dist = true).
  { intros step Hin. apply elem_of_cons in Hin as [->|Hin];
      [by eexists|].
    apply elem_of_cons in Hin as [->|Hin]; [by eexists|].
    by apply elem_of_nil in Hin. }
  split; [exact Hpre|]. split; [reflexivity|].
  split; [exact Hshort|]. split; [exact Hall|].
  exact (reformat_short_list steps 2 [] [] "H" 1 _ _ _ Hpre eq_refl Hshort
           Hall).
Defined.

(** X20: a step that does not hold the element makes
    [ReformatChargeStateList] raise [KeyError] with the element's symbol:
    when the elements before load, the element is registered, and the steps
    before that one hold a fitting distribution for it. *)
Theorem reformat_missing_element
    (ChargeStateList : list (gmap string (list float))) (nsteps : Z)
    (pre post : list string) (element : string) (Z k : nat)
    (step : gmap string (list float))
    (cs : gmap string (list (list float))) (w w1 : world) :
  ReformatChargeStateList ChargeStateList pre nsteps w = (Returns cs, w1) ->
  AtomicNumbers !! element = Some Z ->
  k < Z.to_nat (nsteps + 1) ->
  ChargeStateList !! k = Some step ->
  step !! element = None ->
  (forall istep, istep < k ->
     exists step' dist, ChargeStateList !! istep = Some step'
                        /\ step' !! element = Some dist
                        /\ fits (Z + 1) dist = true) ->
  ReformatChargeStateList ChargeStateList (pre ++ element :: post) nsteps w
  = (Raises (KeyError element), w1).
Proof.
  intros Hpre HZ Hk Hstep Hnone Hbefore.
  apply (reformat_next _ _ _ _ _ _ _ _ _ Hpre).
  apply (reformat_body_stops _ _ _ Z k); try done.
  intros dest. unfold reformat_step. rewrite Hstep.
  unfold of_option. rewrite bind_ret.
  by rewrite (bind_Raises _ _ _ _ _ (getitem_None _ _ w1 Hnone)).
Qed.

Lemma reformat_missing_element_witness :
  let steps : list (gmap string (list float)) :=
    [ {[ "H"%string := [1; 0]%float; "He"%string := [1; 0; 0]%float ]};
      {[ "H"%string := [0.5; 0.5]%float ]} ] in
  exists cs w1,
    ReformatChargeStateList steps ["H"%string] 1 empty_world
    = (Returns cs, w1)
    /\ AtomicNumbers !! "He"%string = Some 2
    /\ 1 < Z.to_nat (1 + 1)
    /\ steps !! 1 = Some {[ "H"%string := [0.5; 0.5]%float ]}
    /\ ({[ "H"%string := [0.5; 0.5]%float ]} : gmap string (list float))
         !! "He"%string = None
    /\ (forall istep, istep < 1 ->
          exists step' dist, steps !! istep = Some step'
                             /\ step' !! "He"%string = Some dist
                             /\ fits (2 + 1) dist = true)
    /\ ReformatChargeStateList steps (["H"%string] ++ "He"%string :: []) 1
         empty_world
       = (Raises (KeyError "He"), w1).
Proof.
  intros steps. eexists _, _.
  match goal with
  | |- ?A /\ _ => assert (Hpre : A) by (vm_compute; reflexivity)
  end.
  assert (Hk : 1 < Z.to_nat (1 + 1)) by (cbn; lia).
  assert (Hbefore : forall istep, istep < 1 ->
            exists step' dist, steps !! istep = Some step'
                               /\ step' !! "He"%string = Some dist
                               /\ fits (2 + 1) dist = true).
  { intros [|istep] Hi; [|lia]. by eexists _, _. }
  split; [exact Hpre|]. split; [reflexivity|]. split; [exact Hk|].
  split; [reflexivity|]. split; [reflexivity|]. split; [exact Hbefore|].
  exact (reformat_missing_element steps 1 ["H"%string] [] "He" 2 1 _ _ _ _
           Hpre eq_refl Hk eq_refl eq_refl Hbefore).
Defined.

(** ** A dictionary without the temperature grid *)

Section Lacking.

Variable func_index_te : float -> list float -> Z.

(** X21: with a positive temperature, a dictionary passed for [AtomicData]
    that has no temperature grid makes the call raise [KeyError] on
    ['temperatures'], for registered elements: it does not fall back to
    loading, no file is opened, and the arrays that existed are as they
    were. *)
Theorem create_without_grid (elements : list string) (temperature : float)
    (AtomicData : atomic_data) (w : world) :
  (0 <? temperature)%float = true ->
  Forall (fun e => is_Some (AtomicNumbers !! e)) elements ->
  temperatures AtomicData = None ->
  exists w',
    create_ChargeStates_dictionary func_index_te elements temperature
      (Some AtomicData) w = (Raises (KeyError "temperatures"), w')
    /\ files w' = files w /\ opened w' = opened w
    /\ exists extra, heap w' = heap w ++ extra.
Proof.
  intros HT Hreg Hnone.
  destruct (neutral_loop_total _ Hreg ∅ w) as (cs1 & w1 & Hneutral).
  pose proof (neutral_loop_inv _ _ _ _ _ Hneutral) as (Hf1 & Ho1 & Hh1 & _).
  exists w1. split; [|done].
  unfold create_ChargeStates_dictionary, neutral_block.
  rewrite (bind_Returns _ _ _ _ _ Hneutral).
  apply bind_Raises. unfold equilibrium_block. rewrite HT.
  rewrite bind_ret. apply bind_Raises. unfold of_option. by rewrite Hnone.
Qed.

End Lacking.

Lemma create_without_grid_witness :
  let AtomicData := AtomicData None None None {[ "H"%string := hydrogen_table ]} in
  (0 <? 5.2)%float = true
  /\ Forall (fun e => is_Some (AtomicNumbers !! e)) ["H"; "He"]%string
  /\ temperatures AtomicData = None
  /\ exists w',
       create_ChargeStates_dictionary nearest_index ["H"; "He"]%string 5.2
         (Some AtomicData) (hydrogen_world roundoff_rows)
       = (Raises (KeyError "temperatures"), w')
       /\ files w' = files (hydrogen_world roundoff_rows)
       /\ opened w' = opened (hydrogen_world roundoff_rows)
       /\ exists extra, heap w' = heap (hydrogen_world roundoff_rows) ++ extra.
Proof.
  intros AtomicData.
  assert (Hreg : Forall (fun e => is_Some (AtomicNumbers !! e))
                   ["H"; "He"]%string).
  { repeat constructor; by eexists. }
  split; [reflexivity|]. split; [exact Hreg|]. split; [reflexivity|].
  exact (create_without_grid nearest_index ["H"; "He"]%string 5.2 AtomicData
           (hydrogen_world roundoff_rows) eq_refl Hreg eq_refl).
Defined.
